(** * rtl_map / rtl_fftx: the acquisition-to-spectrum pipeline

    A shallow embedding of [src/rtl_map.c] and of its sibling
    [src/rtl_fftx.c].  The two programs share most of their text; the places
    where they differ are selected by a [program] tag.

    Layout:
    - [IEEE], [Cint], [Stdio]: what the code takes from the C language
      (binary64 and binary32 arithmetic, [int] conversions, [printf]
      conversions);
    - [libs]: the library routines the code calls and that live outside the
      repository (FFTW's forward transform, libm's [log10] and [pow]);
    - [Reference]: one executable realisation of [libs];
    - the process state, the trace of library calls, and the functions of
      the program in the order of the source;
    - the properties. *)

From Stdlib Require Import ZArith List String Ascii Bool Lia SpecFloat DecimalString.
From stdpp Require Import base option list strings.

Open Scope Z_scope.

(** ** C doubles and floats

    [double] is IEEE-754 binary64, written with the standard library's
    [spec_float]; every operation rounds to nearest, ties to even.  A C
    [float] (binary32) is kept as the double it promotes to. *)

Module IEEE.

Definition double := spec_float.

Definition dadd : double -> double -> double := SFadd 53 1024.
Definition dsub : double -> double -> double := SFsub 53 1024.
Definition dmul : double -> double -> double := SFmul 53 1024.
Definition ddiv : double -> double -> double := SFdiv 53 1024.
Definition dsqrt : double -> double := SFsqrt 53 1024.

(** Conversion of an integer to double; also the value of an integer
    literal used in a double expression. *)
Definition of_Z (z : Z) : double := binary_normalize 53 1024 z 0 false.

(** A decimal literal [m / 10^k], rounded once as the compiler does. *)
Definition of_decimal (m : Z) (k : Z) : double := ddiv (of_Z m) (of_Z (10 ^ k)).

Definition neg_infinity : double := S754_infinity true.

Definition is_finite (x : double) : bool :=
  match x with
  | S754_zero _ | S754_finite _ _ _ => true
  | S754_infinity _ | S754_nan => false
  end.

Definition is_zero (x : double) : bool :=
  match x with S754_zero _ => true | _ => false end.

(** Assignment of a double to a [float] object: round to binary32, then
    read back as the (exactly equal) double. *)
Definition to_float (x : double) : double :=
  match x with
  | S754_finite s m e =>
      match binary_round 24 128 s m e with
      | S754_finite s' m' e' => binary_round 53 1024 s' m' e'
      | y => y
      end
  | _ => x
  end.

(** The integral part of a finite double, rounding toward zero. *)
Definition trunc (x : double) : option Z :=
  match x with
  | S754_zero _ => Some 0
  | S754_finite s m e =>
      Some (cond_Zopp s (if 0 <=? e then Zpos m * 2 ^ e else Zpos m / 2 ^ (- e)))
  | S754_infinity _ | S754_nan => None
  end.

Definition complex : Type := double * double.
Definition creal (z : complex) : double := fst z.
Definition cimag (z : complex) : double := snd z.

Definition cadd (a b : complex) : complex :=
  (dadd (creal a) (creal b), dadd (cimag a) (cimag b)).
Definition csub (a b : complex) : complex :=
  (dsub (creal a) (creal b), dsub (cimag a) (cimag b)).
Definition cmul (a b : complex) : complex :=
  (dsub (dmul (creal a) (creal b)) (dmul (cimag a) (cimag b)),
   dadd (dmul (creal a) (cimag b)) (dmul (cimag a) (creal b))).

End IEEE.

Import IEEE.

(** ** C [int] *)

Module Cint.

Definition INT_MAX : Z := 2147483647.
Definition INT_MIN : Z := -2147483648.

Definition in_int (z : Z) : bool := (INT_MIN <=? z) && (z <=? INT_MAX).

(** A result outside the range of [int] is undefined behaviour: [None]. *)
Definition checked (z : Z) : option Z := if in_int z then Some z else None.

Definition add (a b : Z) : option Z := checked (a + b).
Definition mul (a b : Z) : option Z := checked (a * b).

(** Conversion double -> int (C99 6.3.1.4): the fractional part is
    discarded; undefined when the integral part does not fit. *)
Definition of_double (x : double) : option Z :=
  match trunc x with
  | Some z => checked z
  | None => None
  end.

End Cint.

(** ** [printf] conversions *)

Module Stdio.

(** The streams the program writes to.  [Opened name] is the result of a
    successful [fopen name]; [Gnuplot] the result of the [popen]. *)
Inductive FILE := Stdout | Stderr | Gnuplot | Opened (name : string).

Global Instance FILE_eq_dec : EqDecision FILE.
Proof. solve_decision. Defined.

(** A variadic argument after default promotion. *)
Inductive arg := AInt (z : Z) | ADouble (d : double) | AStr (s : string).

Definition TAB : string := String (ascii_of_nat 9) EmptyString.
Definition NL : string := String (ascii_of_nat 10) EmptyString.

Definition sign_str (s : bool) : string := if s then "-"%string else ""%string.

(** [%d] *)
Definition fmt_d (z : Z) : string := NilZero.string_of_int (Z.to_int z).

(** [m * 2^e * 10^digits] rounded to an integer, ties to even. *)
Definition scaled (digits : Z) (m : positive) (e : Z) : Z :=
  let num := Zpos m * 10 ^ digits in
  if 0 <=? e then num * 2 ^ e
  else
    let d := 2 ^ (- e) in
    let q := num / d in
    match (2 * (num mod d) ?= d) with
    | Lt => q
    | Gt => q + 1
    | Eq => if Z.even q then q else q + 1
    end.

Fixpoint zeros (k : nat) : string :=
  match k with O => ""%string | S k' => String "0" (zeros k') end.

(** The [digits] decimals of [frac], zero-padded on the left. *)
Definition decimals (digits : Z) (frac : Z) : string :=
  let s := fmt_d frac in
  (zeros (Z.to_nat digits - String.length s) +:+ s)%string.

(** [%.<digits>f]; [%f] is [%.6f]. *)
Definition fmt_fixed (digits : Z) (x : double) : string :=
  let body (k : Z) : string :=
    let p := 10 ^ digits in
    if digits =? 0 then fmt_d k
    else (fmt_d (k / p) +:+ "." +:+ decimals digits (k mod p))%string in
  match x with
  | S754_nan => "nan"%string
  | S754_infinity s => (sign_str s +:+ "inf")%string
  | S754_zero s => (sign_str s +:+ body 0)%string
  | S754_finite s m e => (sign_str s +:+ body (scaled digits m e))%string
  end.

Definition fmt_f : double -> string := fmt_fixed 6.

Definition digit_of (c : ascii) : option Z :=
  let k := Z.of_nat (nat_of_ascii c) - 48 in
  if (0 <=? k) && (k <=? 9) then Some k else None.

(** The text [vfprintf] produces for a format and its arguments.  [None]
    when a conversion meets an argument of another type or no argument at
    all, which C leaves undefined, or a conversion the program never uses. *)
Fixpoint render (fmt : string) (args : list arg) : option string :=
  match fmt with
  | EmptyString => Some EmptyString
  | String "%" (String "%" rest) => String "%" <$> render rest args
  | String "%" (String "d" rest) =>
      match args with
      | AInt z :: args' => String.append (fmt_d z) <$> render rest args'
      | _ => None
      end
  | String "%" (String "f" rest) =>
      match args with
      | ADouble d :: args' => String.append (fmt_f d) <$> render rest args'
      | _ => None
      end
  | String "%" (String "s" rest) =>
      match args with
      | AStr s :: args' => String.append s <$> render rest args'
      | _ => None
      end
  | String "%" (String "." (String c (String "f" rest))) =>
      match digit_of c, args with
      | Some k, ADouble d :: args' => String.append (fmt_fixed k d) <$> render rest args'
      | _, _ => None
      end
  | String "%" _ => None
  | String c rest => String c <$> render rest args
  end.

End Stdio.

Import Stdio.

(** ** Library routines outside the repository

    [create_fft] hands its input array to FFTW and takes logarithms and
    squares with libm.  Neither library is part of the program, so their
    routines are a parameter of the model, together with the two facts about
    them that the properties below rely on. *)

Record libs := {
  (** [fftw_execute] on a forward plan: the transform of the input array. *)
  fftw_dft : list complex -> list complex;
  (** FFTW writes one output per input. *)
  fftw_dft_length : forall xs, length (fftw_dft xs) = length xs;
  (** libm's [log10]. *)
  log10 : double -> double;
  (** C99 F.9.3.8: [log10(+-0)] returns minus infinity. *)
  log10_zero : forall s, log10 (S754_zero s) = neg_infinity;
  (** libm's [pow(x, 2)] (used by rtl_fftx only). *)
  pow2 : double -> double
}.

(** ** A reference realisation of [libs]

    Plain series evaluations in binary64, for running the model.  The
    transform halves even sizes and falls back on the defining sum of the
    DFT; its twiddle factors are exact for quarter turns, so that sizes 1, 2
    and 4 involve no rounding on integer samples. *)

Module Reference.

Definition d_zero : double := S754_zero false.
Definition d_one : double := of_Z 1.

(** [pw/d + pw*t2/(d+2) + ...], [fuel] terms, smallest first. *)
Fixpoint atanh_terms (fuel : nat) (pw t2 : double) (d : Z) : double :=
  match fuel with
  | O => d_zero
  | S fuel' => dadd (ddiv pw (of_Z d)) (atanh_terms fuel' (dmul pw t2) t2 (d + 2))
  end.

(** Natural logarithm of [y] in [[1, 2]]: [2 * atanh ((y-1)/(y+1))]. *)
Definition ln_near_one (y : double) : double :=
  let t := ddiv (dsub y d_one) (dadd y d_one) in
  dmul (of_Z 2) (atanh_terms 20 t (dmul t t) 1).

Definition ln2 : double := Eval vm_compute in ln_near_one (of_Z 2).
Definition ln10 : double :=
  Eval vm_compute in dadd (dmul (of_Z 3) ln2) (ln_near_one (of_decimal 125 2)).

Definition ref_log10 (x : double) : double :=
  match x with
  | S754_zero _ => neg_infinity
  | S754_infinity false => x
  | S754_infinity true | S754_nan | S754_finite true _ _ => S754_nan
  | S754_finite false m e =>
      let d := Zpos (digits2_pos m) in
      let y := binary_normalize 53 1024 (Zpos m) (1 - d) false in
      ddiv (dadd (dmul (of_Z (e + d - 1)) ln2) (ln_near_one y)) ln10
  end.

(** [term - term*x2/((k+1)(k+2)) + ...], [fuel] terms. *)
Fixpoint alt_terms (fuel : nat) (term x2 : double) (k : Z) : double :=
  match fuel with
  | O => d_zero
  | S fuel' =>
      let next := SFopp (ddiv (dmul term x2) (of_Z ((k + 1) * (k + 2)))) in
      dadd term (alt_terms fuel' next x2 (k + 2))
  end.

Definition cos (x : double) : double := alt_terms 24 d_one (dmul x x) 0.
Definition sin (x : double) : double := alt_terms 24 x (dmul x x) 1.

Definition two_pi : double := Eval vm_compute in of_decimal 6283185307179586 15.

(** [exp (-2 pi i m / n)] for [0 <= m < n]. *)
Definition twiddle (n m : Z) : complex :=
  if (4 * m) mod n =? 0 then
    match 4 * m / n with
    | 0 => (d_one, d_zero)
    | 1 => (d_zero, of_Z (-1))
    | 2 => (of_Z (-1), d_zero)
    | _ => (d_zero, d_one)
    end
  else
    let theta := ddiv (dmul two_pi (of_Z m)) (of_Z n) in
    (cos theta, SFopp (sin theta)).

(** Output [k] of the defining sum: [sum_j xs[j] * w^(j k)]. *)
Fixpoint dft_bin (n k j : Z) (xs : list complex) (acc : complex) : complex :=
  match xs with
  | [] => acc
  | x :: xs' =>
      dft_bin n k (j + 1) xs' (cadd acc (cmul x (twiddle n ((j * k) mod n))))
  end.

Definition dft_sum (xs : list complex) : list complex :=
  let n := Z.of_nat (length xs) in
  map (fun k => dft_bin n (Z.of_nat k) 0 xs (d_zero, d_zero)) (seq 0 (length xs)).

(** The samples at even positions, and those at odd positions. *)
Fixpoint evens (xs : list complex) : list complex :=
  match xs with
  | [] => []
  | x :: xs' => x :: odds xs'
  end
with odds (xs : list complex) : list complex :=
  match xs with
  | [] => []
  | _ :: xs' => evens xs'
  end.

(** Decimation in time while the length is even, the defining sum below.
    [table] holds the twiddle factors of the full size; a block reached
    after halving [log2 stride] times uses every [stride]-th of them. *)
Fixpoint fft (fuel : nat) (table : list complex) (stride : nat)
    (xs : list complex) : list complex :=
  let n := Z.of_nat (length xs) in
  match fuel with
  | S fuel' =>
      if Z.even n && (2 <=? n) then
        let E := fft fuel' table (2 * stride) (evens xs) in
        let O := fft fuel' table (2 * stride) (odds xs) in
        let T := imap (fun k o => cmul (nth (k * stride) table (d_one, d_zero)) o) O in
        zip_with cadd E T ++ zip_with csub E T
      else dft_sum xs
  | O => dft_sum xs
  end.

Definition ref_dft (xs : list complex) : list complex :=
  let n := length xs in
  let table := map (fun m => twiddle (Z.of_nat n) (Z.of_nat m)) (seq 0 (Nat.div2 n)) in
  let ys := fft n table 1 xs in
  map (fun k => nth k ys (d_zero, d_zero)) (seq 0 n).

Definition ref_libs : libs := {|
  fftw_dft := ref_dft;
  fftw_dft_length := fun xs =>
    eq_trans (length_map _ (seq 0 (length xs))) (length_seq (length xs) 0);
  log10 := ref_log10;
  log10_zero := fun _ => eq_refl;
  pow2 := fun x => dmul x x
|}.

End Reference.

(** ** The process: globals, library calls, control *)

(** The two programs of the repository. *)
Inductive program := rtl_map | rtl_fftx.

Inductive log_level := INFO | ERROR | FATAL.

(** A call into a library, as the program issues it.  A stream argument is
    the value of the [FILE*] variable at the time of the call ([None] for a
    null pointer); a [Vfprintf] keeps the format and the promoted arguments
    apart, [render] gives its text. *)
Inductive event :=
  | Vfprintf (stream : option FILE) (format : string) (args : list arg)
  | Fflush (stream : option FILE)
  | Log (level : log_level) (format : string) (args : list arg)
  | Popen (command : string)
  | Pclose (stream : option FILE)
  | Fopen (name : string)
  | Fclose (stream : option FILE)
  | FftwExecute (n : Z)
  | Usleep (usec : Z)
  | RtlsdrOpen (index : Z)
  | RtlsdrSetTunerGainMode (manual : Z)
  | RtlsdrSetTunerGain (gain : Z)
  | RtlsdrSetOffsetTuning (on : Z)
  | RtlsdrSetCenterFreq (freq : Z)
  | RtlsdrSetSampleRate (rate : Z)
  | RtlsdrResetBuffer
  | RtlsdrReadAsync (buf_num buf_len : Z)
  | RtlsdrCancelAsync.

Module SampleBin.
Record Bin := { val : double; id : Z }.
End SampleBin.

(** The [ARG] variables that nothing writes once [parse_args] has run.
    The flags are C ints that only ever hold 0 or 1. *)
Record args := {
  _center_freq : Z;
  _dev_id : Z;
  _samp_rate : Z;
  _refresh_rate : Z;
  _num_read : Z;
  _use_gnuplot : bool;
  _cont_read : bool;
  _mag_graph : bool;
  _offset_tuning : bool;
  _log_colors : bool;
  _filename : option string
}.

(** The file-scope variables that change while the program runs, and the
    calls issued so far, oldest first.  The scratch variables [n], [out_r],
    [out_i], [amp] and [db] are written before every read and appear as
    local bindings; [in] and [out] live for one call of [create_fft]. *)
Record process := {
  opts : args;
  _gain : Z;
  _write_file : bool;
  read_count : Z;
  gnuplotPipe : option FILE;
  file : option FILE;
  sample_bin : list SampleBin.Bin;
  trace : list event
}.

Definition emit (e : event) (s : process) : process :=
  {| opts := opts s; _gain := _gain s; _write_file := _write_file s;
     read_count := read_count s; gnuplotPipe := gnuplotPipe s; file := file s;
     sample_bin := sample_bin s; trace := trace s ++ [e] |}.

Definition set_gain (g : Z) (s : process) : process :=
  {| opts := opts s; _gain := g; _write_file := _write_file s;
     read_count := read_count s; gnuplotPipe := gnuplotPipe s; file := file s;
     sample_bin := sample_bin s; trace := trace s |}.

Definition set_write_file (b : bool) (s : process) : process :=
  {| opts := opts s; _gain := _gain s; _write_file := b;
     read_count := read_count s; gnuplotPipe := gnuplotPipe s; file := file s;
     sample_bin := sample_bin s; trace := trace s |}.

Definition set_read_count (c : Z) (s : process) : process :=
  {| opts := opts s; _gain := _gain s; _write_file := _write_file s;
     read_count := c; gnuplotPipe := gnuplotPipe s; file := file s;
     sample_bin := sample_bin s; trace := trace s |}.

Definition set_gnuplotPipe (p : option FILE) (s : process) : process :=
  {| opts := opts s; _gain := _gain s; _write_file := _write_file s;
     read_count := read_count s; gnuplotPipe := p; file := file s;
     sample_bin := sample_bin s; trace := trace s |}.

Definition set_file (f : option FILE) (s : process) : process :=
  {| opts := opts s; _gain := _gain s; _write_file := _write_file s;
     read_count := read_count s; gnuplotPipe := gnuplotPipe s; file := f;
     sample_bin := sample_bin s; trace := trace s |}.

Definition set_sample_bin (b : list SampleBin.Bin) (s : process) : process :=
  {| opts := opts s; _gain := _gain s; _write_file := _write_file s;
     read_count := read_count s; gnuplotPipe := gnuplotPipe s; file := file s;
     sample_bin := b; trace := trace s |}.

(** How a piece of the program ends: it returns, it calls [exit], or it
    runs into undefined behaviour. *)
Inductive outcome (A : Type) :=
  | Ok (a : A) (s : process)
  | Exited (status : Z) (s : process)
  | Undefined.
Arguments Ok {A} a s.
Arguments Exited {A} status s.
Arguments Undefined {A}.

Definition proc (A : Type) : Type := process -> outcome A.

Definition ret {A} (a : A) : proc A := fun s => Ok a s.

Definition bind {A B} (p : proc A) (k : A -> proc B) : proc B :=
  fun s =>
    match p s with
    | Ok a s' => k a s'
    | Exited status s' => Exited status s'
    | Undefined => Undefined
    end.

Declare Scope proc_scope.
Delimit Scope proc_scope with proc.
Bind Scope proc_scope with proc.
Notation "x <- p ;; k" := (bind p (fun x => k))
  (at level 100, p at next level, k at level 200, right associativity) : proc_scope.
Notation "p ;; k" := (bind p (fun _ => k))
  (at level 100, k at level 200, right associativity) : proc_scope.
Open Scope proc_scope.

Definition call (e : event) : proc unit := fun s => Ok tt (emit e s).
Definition get {A} (f : process -> A) : proc A := fun s => Ok (f s) s.
Definition modify (f : process -> process) : proc unit := fun s => Ok tt (f s).
Definition exit {A} (status : Z) : proc A := fun s => Exited status s.
Definition undefined {A} : proc A := fun _ => Undefined.
Definition lift {A} (o : option A) : proc A :=
  match o with Some a => ret a | None => undefined end.
Definition when (b : bool) (p : proc unit) : proc unit := if b then p else ret tt.

(** [for (int i = from; i < from + count; i++) body] *)
Fixpoint for_each (i : Z) (count : nat) (body : Z -> proc unit) : proc unit :=
  match count with
  | O => ret tt
  | S count' => body i ;; for_each (i + 1) count' body
  end.

(** What the outside world answers to the program. *)
Record world := {
  popen_ok : bool;
  fopen_ok : bool;
  device_count : Z;
  device_name : Z -> string;
  open_result : Z;
  tuner_gains : list Z;
  reset_result : Z;
  (** The batches the receiver completes, each with the contents of the
      block that [fftw_malloc] hands out for [in] during its transform. *)
  batches : list (list Z * (nat -> complex))
}.

Definition ESC : string := String (ascii_of_nat 27) EmptyString.
Definition bold_attr : string := (ESC +:+ "[1m")%string.
Definition all_attr_off : string := (ESC +:+ "[0m")%string.

(** [print_log]: a time-stamped line on [stderr]; the clock is not modelled
    and the line is kept as one call. *)
Definition print_log (level : log_level) (format : string) (a : list arg) : proc unit :=
  call (Log level format a).
Definition log_info := print_log INFO.
Definition log_error := print_log ERROR.
Definition log_fatal := print_log FATAL.

Definition flag (b : bool) : Z := if b then 1 else 0.

(** ** The program

    [L] is the pair of libraries linked in; [NUM_READ] is the macro of the
    same name, 512 in both sources ([NUM_READ_shipped] below). *)

Section Program.

Variable L : libs.
Variable NUM_READ : Z.

(** [static const int n_read = NUM_READ] *)
Definition n_read : Z := NUM_READ.

Definition gnuplot_exec (format : string) (a : list arg) : proc unit :=
  p <- get gnuplotPipe ;;
  call (Vfprintf p format a).

(** [do_exit].  As every call, the two closes are recorded with the stream
    they are given, a null pointer as [None]; what C makes of a close on a
    null stream is read off the trace ([on_null_stream], [in_c]). *)
Definition do_exit : proc unit :=
  call RtlsdrCancelAsync ;;
  g <- get (fun s => _use_gnuplot (opts s)) ;;
  when g (p <- get gnuplotPipe ;; call (Pclose p)) ;;
  name <- get (fun s => _filename (opts s)) ;;
  when (match name with
        | Some f => negb (String.eqb f "-")
        | None => false
        end)
       (f <- get file ;; call (Fclose f)) ;;
  exit 0.

(** [pow(10, 6)] and [pow(10, 3)] are exact.  The tick positions 1, 256
    and 512 are literals of the format. *)
Definition configure_gnuplot (prog : program) (w : world) : proc Z :=
  g <- get (fun s => _use_gnuplot (opts s)) ;;
  if negb g then ret 1
  else
    call (Popen "gnuplot -persistent") ;;
    if negb (popen_ok w) then
      log_error "Failed to open gnuplot pipe." [] ;;
      exit 1
    else
      modify (set_gnuplotPipe (Some Gnuplot)) ;;
      match prog with
      | rtl_map =>
          gnuplot_exec ("set title 'rtl-map' enhanced" +:+ NL) [] ;;
          gnuplot_exec ("set xlabel 'Frequency (MHz)'" +:+ NL) []
      | rtl_fftx =>
          gnuplot_exec ("set title 'RTL-FFTX' enhanced" +:+ NL) [] ;;
          gnuplot_exec ("set xlabel 'Frequency (kHz)'" +:+ NL) []
      end ;;
      gnuplot_exec ("set ylabel 'Amplitude (dB)'" +:+ NL) [] ;;
      center <- get (fun s => _center_freq (opts s)) ;;
      let center_mhz := to_float (ddiv (of_Z center) (of_Z (10 ^ 6))) in
      let step_size :=
        to_float (ddiv (dmul (of_Z n_read) (of_Z (10 ^ 3))) (of_Z (10 ^ 6))) in
      gnuplot_exec ("set xtics ('%.1f' 1, '%.1f' 256, '%.1f' 512)" +:+ NL)
        [ADouble (to_float (dsub center_mhz step_size));
         ADouble center_mhz;
         ADouble (to_float (dadd center_mhz step_size))] ;;
      ret 0.

(** The loop over the supported gains of rtl_map: the configured gain is
    replaced by every entry strictly between 10 and 30 that comes by. *)
Fixpoint gain_loop (gains : list Z) : proc unit :=
  match gains with
  | [] => ret tt
  | g :: rest =>
      when ((10 <? g) && (g <? 30)) (modify (set_gain g)) ;;
      call (Vfprintf (Some Stderr) "%.1f " [ADouble (ddiv (of_Z g) (of_Z 10))]) ;;
      gain_loop rest
  end.

Fixpoint print_gains (gains : list Z) : proc unit :=
  match gains with
  | [] => ret tt
  | g :: rest =>
      call (Vfprintf (Some Stderr) "%.1f " [ADouble (ddiv (of_Z g) (of_Z 10))]) ;;
      print_gains rest
  end.

(** [rtlsdr_get_tuner_gains] answers with the table [tuner_gains w], the
    first time for its length and the second time for its entries.  In the
    device listing rtl_map prints the global [n], still 0 at that point. *)
Definition configure_rtlsdr (prog : program) (w : world) : proc Z :=
  if device_count w =? 0 then
    log_error ("No supported devices found." +:+ NL) [] ;;
    exit 1
  else
    match prog with
    | rtl_map => log_info ("Starting rtl_map ~" +:+ NL) []
    | rtl_fftx => ret tt
    end ;;
    log_info ("Found %d device(s):" +:+ NL) [AInt (device_count w)] ;;
    colors <- get (fun s => _log_colors (opts s)) ;;
    for_each 0 (Z.to_nat (device_count w)) (fun i =>
      let shown := match prog with rtl_map => 0 | rtl_fftx => i end in
      if colors then
        log_info ("#%d: %s%s%s" +:+ NL)
          [AInt shown; AStr bold_attr; AStr (device_name w i); AStr all_attr_off]
      else
        log_info ("#%d: %s" +:+ NL) [AInt shown; AStr (device_name w i)]) ;;
    dev_id <- get (fun s => _dev_id (opts s)) ;;
    call (RtlsdrOpen dev_id) ;;
    if open_result w <? 0 then
      log_fatal ("Failed to open RTL-SDR device #%d" +:+ NL) [AInt dev_id] ;;
      exit 1
    else
      log_info ("Using device: #%d" +:+ NL) [AInt (open_result w)] ;;
      gain <- get _gain ;;
      (if gain =? 0 then
         call (RtlsdrSetTunerGainMode gain) ;;
         log_info ("Gain mode set to auto." +:+ NL) []
       else
         call (RtlsdrSetTunerGainMode 1) ;;
         let gain_count := Z.of_nat (length (tuner_gains w)) in
         match prog with
         | rtl_map =>
             log_info "Supported gain values (%d): " [AInt gain_count] ;;
             gain_loop (tuner_gains w) ;;
             call (Vfprintf (Some Stderr) NL []) ;;
             chosen <- get _gain ;;
             log_info ("Gain set to %.1f" +:+ NL)
               [ADouble (ddiv (of_Z chosen) (of_Z 10))] ;;
             call (RtlsdrSetTunerGain chosen)
         | rtl_fftx =>
             call (RtlsdrSetTunerGain gain) ;;
             log_info ("Gain set to %d." +:+ NL +:+ "Supported gain values (%d): ")
               [AInt gain; AInt gain_count] ;;
             print_gains (tuner_gains w) ;;
             call (Vfprintf (Some Stderr) NL [])
         end) ;;
      tuning <- get (fun s => _offset_tuning (opts s)) ;;
      call (RtlsdrSetOffsetTuning (flag tuning)) ;;
      center <- get (fun s => _center_freq (opts s)) ;;
      call (RtlsdrSetCenterFreq center) ;;
      rate <- get (fun s => _samp_rate (opts s)) ;;
      call (RtlsdrSetSampleRate rate) ;;
      log_info ("Center frequency set to %d Hz." +:+ NL) [AInt center] ;;
      log_info ("Sampling at %d S/s" +:+ NL) [AInt rate] ;;
      call RtlsdrResetBuffer ;;
      if reset_result w <? 0 then
        log_fatal ("Failed to reset buffers." +:+ NL) [] ;;
        ret (match prog with rtl_map => 1 | rtl_fftx => 0 end)
      else ret 0.

Definition open_file (w : world) : proc Z :=
  name <- get (fun s => _filename (opts s)) ;;
  match name with
  | Some f =>
      modify (set_write_file true) ;;
      if String.eqb f "-" then
        modify (set_file (Some Stdout)) ;;
        ret 0
      else
        call (Fopen f) ;;
        if fopen_ok w then
          modify (set_file (Some (Opened f))) ;;
          ret 0
        else
          log_error ("Failed to open %s" +:+ NL) [AStr f] ;;
          exit 1
  | None => ret 0
  end.

(** *** [create_fft] *)

(** The centring constant: the double literal [127.34] in rtl_map. *)
Definition offset_rtl_map : double := Eval vm_compute in of_decimal 12734 2.

(** The right-hand side of [in[i] = (buf[n]-c) + (buf[n+1]-c) * I]: double
    arithmetic with [c = 127.34] in rtl_map, int arithmetic with [c = 127]
    in rtl_fftx. *)
Definition iq_sample (prog : program) (b0 b1 : Z) : complex :=
  match prog with
  | rtl_map => (dsub (of_Z b0) offset_rtl_map, dsub (of_Z b1) offset_rtl_map)
  | rtl_fftx => (of_Z (b0 - 127), of_Z (b1 - 127))
  end.

(** [for (int i=0; i<sample_c; i+=2){ in[i] = ...; n++; }], entered with
    [count] rounds still to run.  Reading [buf] past its end is undefined. *)
Fixpoint fill_in (prog : program) (count : nat) (i n : Z) (buf : list Z)
    (inb : list complex) : option (list complex) :=
  match count with
  | O => Some inb
  | S count' =>
      b0 ← buf !! Z.to_nat n;
      b1 ← buf !! Z.to_nat (n + 1);
      fill_in prog count' (i + 2) (n + 1) buf
        (<[Z.to_nat i := iq_sample prog b0 b1]> inb)
  end.

(** The number of rounds of that loop: [i = 0, 2, 4, ...] below [sample_c]. *)
Definition fill_rounds (sample_c : Z) : nat := Z.to_nat ((sample_c + 1) / 2).

(** The array [in] when FFTW reads it: the block as [fftw_malloc] and the
    planner left it ([junk]), overwritten by the loop. *)
Definition in_array (prog : program) (sample_c : Z) (buf : list Z)
    (junk : nat -> complex) : option (list complex) :=
  fill_in prog (fill_rounds sample_c) 0 0 buf (map junk (seq 0 (Z.to_nat sample_c))).

(** [creal(out[i]) * creal(out[i])] in rtl_map, [pow(creal(out[i]), 2)] in
    rtl_fftx. *)
Definition square (prog : program) (x : double) : double :=
  match prog with
  | rtl_map => dmul x x
  | rtl_fftx => pow2 L x
  end.

(** [out_r = ...; out_i = ...; amp = sqrt(out_r + out_i);] with [out_r] and
    [out_i] of type [int] and [amp] of type [float]. *)
Definition magnitude (prog : program) (z : complex) : option double :=
  out_r ← Cint.of_double (square prog (creal z));
  out_i ← Cint.of_double (square prog (cimag z));
  sum ← Cint.add out_r out_i;
  Some (to_float (dsqrt (of_Z sum))).

(** [if (!_mag_graph) db = 10 * log10(amp); else db = amp;] *)
Definition level (mag_graph : bool) (amp : double) : double :=
  if negb mag_graph then to_float (dmul (of_Z 10) (log10 L amp)) else amp.

Definition bin_line : string := ("%d" +:+ TAB +:+ "%f" +:+ NL)%string.

(** [sample_bin[i].id = i; sample_bin[i].val = db;] on an array of
    [NUM_READ] elements. *)
Definition store_bin (i : Z) (db : double) : proc unit :=
  if (0 <=? i) && (i <? NUM_READ) then
    modify (fun s =>
      set_sample_bin
        (<[Z.to_nat i := {| SampleBin.val := db; SampleBin.id := i |}]> (sample_bin s)) s)
  else undefined.

(** One round of the output loop. *)
Definition emit_bin (prog : program) (out : list complex) (i : Z) : proc unit :=
  z <- lift (out !! Z.to_nat i) ;;
  amp <- lift (magnitude prog z) ;;
  mag_graph <- get (fun s => _mag_graph (opts s)) ;;
  let db := level mag_graph amp in
  write_file <- get _write_file ;;
  when write_file
    (f <- get file ;; call (Vfprintf f bin_line [AInt (i + 1); ADouble db])) ;;
  g <- get (fun s => _use_gnuplot (opts s)) ;;
  when g (gnuplot_exec bin_line [ADouble db; AInt (i + 1)]) ;;
  store_bin i db.

Definition plot_command : string :=
  ("plot '-' smooth frequency with linespoints lt -1 notitle" +:+ NL)%string.

(** [fftw_plan_dft_1d] answers a size below 1 with a null plan, which
    [fftw_execute] must not be given. *)
Definition create_fft (prog : program) (sample_c : Z) (buf : list Z)
    (junk : nat -> complex) : proc unit :=
  if sample_c <? 1 then undefined
  else
    inb <- lift (in_array prog sample_c buf junk) ;;
    call (FftwExecute sample_c) ;;
    let out := fftw_dft L inb in
    cont <- get (fun s => _cont_read (opts s)) ;;
    g <- get (fun s => _use_gnuplot (opts s)) ;;
    match prog with
    | rtl_map =>
        if negb cont && g then
          log_info ("Creating FFT graph from samples using gnuplot..." +:+ NL) []
        else if negb cont && negb g then
          log_info ("Reading samples..." +:+ NL) []
        else ret tt
    | rtl_fftx =>
        when (negb cont)
          (log_info ("Creating FFT graph from samples using gnuplot..." +:+ NL) [])
    end ;;
    when g (gnuplot_exec plot_command []) ;;
    for_each 0 (Z.to_nat sample_c) (emit_bin prog out) ;;
    when g
      (gnuplot_exec ("e" +:+ NL) [] ;;
       p <- get gnuplotPipe ;;
       call (Fflush p)) ;;
    match prog with
    | rtl_map =>
        c <- get read_count ;;
        c' <- lift (Cint.add c 1) ;;
        modify (set_read_count c')
    | rtl_fftx => ret tt
    end.

(** *** The read callback and the loop that drives it *)

(** The length asked of [rtlsdr_read_async]: [n_read * n_read] in rtl_map,
    [pow(n_read, 2)] converted to [uint32_t] in rtl_fftx. *)
Definition request_length (prog : program) : option Z :=
  match prog with
  | rtl_map => Cint.mul n_read n_read
  | rtl_fftx => if n_read * n_read <? 2 ^ 32 then Some (n_read * n_read) else None
  end.

(** [request] stands for the call [rtlsdr_read_async(dev,
    async_read_callback, NULL, 0, n_read * n_read)] made from inside the
    callback of rtl_map. *)
Definition async_read_callback (prog : program) (n_buf : list Z)
    (junk : nat -> complex) (request : proc unit) : proc unit :=
  create_fft prog n_read n_buf junk ;;
  cont <- get (fun s => _cont_read (opts s)) ;;
  refresh <- get (fun s => _refresh_rate (opts s)) ;;
  match prog with
  | rtl_map =>
      count <- get read_count ;;
      limit <- get (fun s => _num_read (opts s)) ;;
      if cont && (count <? limit) then
        usec <- lift (Cint.mul 1000 refresh) ;;
        call (Usleep usec) ;;
        request
      else
        log_info ("Done, exiting..." +:+ NL) [] ;;
        do_exit
  | rtl_fftx =>
      if cont then
        usec <- lift (Cint.mul 1000 refresh) ;;
        call (Usleep usec)
      else
        log_info ("Done, exiting..." +:+ NL) [] ;;
        do_exit
  end.

Definition read_async_call (prog : program) : proc unit :=
  len <- lift (request_length prog) ;;
  call (RtlsdrReadAsync 0 len).

(** The receiver at work: every completed batch goes to the callback.  In
    rtl_map the callback itself asks for the next batch; in rtl_fftx it
    returns and the driver goes on.  The driver returns when the receiver
    completes no further batch. *)
Fixpoint deliver (prog : program) (supply : list (list Z * (nat -> complex)))
    : proc unit :=
  match supply with
  | [] => ret tt
  | (n_buf, junk) :: rest =>
      async_read_callback prog n_buf junk
        (read_async_call prog ;; deliver prog rest) ;;
      match prog with
      | rtl_map => ret tt
      | rtl_fftx => deliver prog rest
      end
  end.

Definition rtlsdr_read_async (prog : program)
    (supply : list (list Z * (nat -> complex))) : proc unit :=
  read_async_call prog ;;
  deliver prog supply.

(** [main], after [parse_args] has filled the [ARG] variables.
    [register_signals] only installs handlers and changes nothing here. *)
Definition main (prog : program) (w : world) : proc unit :=
  configure_gnuplot prog w ;;
  configure_rtlsdr prog w ;;
  open_file w ;;
  rtlsdr_read_async prog (batches w).

End Program.

(** The value of the macro in both sources. *)
Definition NUM_READ_shipped : Z := 512.

(** The process when [main] starts: the static initialisers, and the
    values [parse_args] stored. *)
Definition initial (NUM_READ : Z) (a : args) (gain : Z) : process :=
  {| opts := a; _gain := gain; _write_file := false; read_count := 0;
     gnuplotPipe := None; file := None;
     sample_bin :=
       replicate (Z.to_nat NUM_READ)
         {| SampleBin.val := S754_zero false; SampleBin.id := 0 |};
     trace := [] |}.

(** ** What one transform computes and emits

    The same computation as [create_fft], read off as values: the sequence
    of [db] values of one batch, the calls they give rise to, and the
    contents of [sample_bin] afterwards. *)

Section Transform.

Variable L : libs.

(** The value [db] of the bin whose transform output is [z]. *)
Definition bin_value (prog : program) (mag_graph : bool) (z : complex)
    : option double :=
  level L mag_graph <$> magnitude L prog z.

(** The values of all bins of a batch, in the order of the loop. *)
Definition spectrum (prog : program) (mag_graph : bool) (sample_c : Z)
    (buf : list Z) (junk : nat -> complex) : option (list double) :=
  inb ← in_array prog sample_c buf junk;
  mapM (bin_value prog mag_graph) (fftw_dft L inb).

(** The calls of one round of the output loop. *)
Definition bin_events (s : process) (i : Z) (db : double) : list event :=
  (if _write_file s
   then [Vfprintf (file s) bin_line [AInt (i + 1); ADouble db]] else []) ++
  (if _use_gnuplot (opts s)
   then [Vfprintf (gnuplotPipe s) bin_line [ADouble db; AInt (i + 1)]] else []).

Fixpoint bins_events (s : process) (i : Z) (dbs : list double) : list event :=
  match dbs with
  | [] => []
  | db :: rest => bin_events s i db ++ bins_events s (i + 1) rest
  end.

Fixpoint store_bins (i : Z) (dbs : list double) (bins : list SampleBin.Bin)
    : list SampleBin.Bin :=
  match dbs with
  | [] => bins
  | db :: rest =>
      store_bins (i + 1) rest
        (<[Z.to_nat i := {| SampleBin.val := db; SampleBin.id := i |}]> bins)
  end.

Definition transform_log (prog : program) (s : process) : list event :=
  let cont := _cont_read (opts s) in
  let g := _use_gnuplot (opts s) in
  let creating :=
    Log INFO ("Creating FFT graph from samples using gnuplot..." +:+ NL) [] in
  match prog with
  | rtl_map =>
      if negb cont && g then [creating]
      else if negb cont && negb g then [Log INFO ("Reading samples..." +:+ NL) []]
      else []
  | rtl_fftx => if negb cont then [creating] else []
  end.

(** The calls of one [create_fft] whose bins have the values [dbs]. *)
Definition create_fft_events (prog : program) (s : process) (sample_c : Z)
    (dbs : list double) : list event :=
  [FftwExecute sample_c] ++ transform_log prog s ++
  (if _use_gnuplot (opts s)
   then [Vfprintf (gnuplotPipe s) plot_command []] else []) ++
  bins_events s 0 dbs ++
  (if _use_gnuplot (opts s)
   then [Vfprintf (gnuplotPipe s) ("e" +:+ NL) []; Fflush (gnuplotPipe s)]
   else []).

End Transform.

(** [s'] is [s] after the calls [evs], with [sample_bin] and [read_count]
    as given and nothing else changed. *)
Definition advanced (s s' : process) (evs : list event)
    (bins : list SampleBin.Bin) (count : Z) : Prop :=
  opts s' = opts s /\ _gain s' = _gain s /\ _write_file s' = _write_file s /\
  gnuplotPipe s' = gnuplotPipe s /\ file s' = file s /\
  read_count s' = count /\ sample_bin s' = bins /\
  trace s' = trace s ++ evs.

(** ** Reading a trace *)

(** The bins of a batch as the data model has them: value and index, the
    first one numbered [i]. *)
Fixpoint bins_from (i : Z) (dbs : list double) : list SampleBin.Bin :=
  match dbs with
  | [] => []
  | db :: rest => {| SampleBin.val := db; SampleBin.id := i |} :: bins_from (i + 1) rest
  end.

(** Is [e] a write to, or a flush of, the stream [st]? *)
Definition writes_to (st : option FILE) (e : event) : bool :=
  match e with
  | Vfprintf st' _ _ | Fflush st' => bool_decide (st' = st)
  | _ => false
  end.

Definition on_stream (st : option FILE) (tr : list event) : list event :=
  List.filter (writes_to st) tr.

(** The text a write puts on its stream. *)
Definition text_of (e : event) : option string :=
  match e with
  | Vfprintf _ format a => render format a
  | _ => None
  end.

(** The line of the file sink for a bin, and the data write of the plot
    sink. *)
Definition file_write (st : option FILE) (b : SampleBin.Bin) : event :=
  Vfprintf st bin_line [AInt (SampleBin.id b + 1); ADouble (SampleBin.val b)].
Definition plot_write (st : option FILE) (b : SampleBin.Bin) : event :=
  Vfprintf st bin_line [ADouble (SampleBin.val b); AInt (SampleBin.id b + 1)].

(** The calls a piece of the program added to the trace of [s]. *)
Definition added {A} (s : process) (o : outcome A) : list event :=
  match o with
  | Ok _ s' | Exited _ s' => drop (length (trace s)) (trace s')
  | Undefined => []
  end.

(** ** Concrete configurations

    Used to run the model: a file sink, the plot sink, level display, one
    receiver; memory blocks that hold zeros; [NUM_READ] set to 4 so that a
    batch is the one of the example. *)

(** The batch and the sequence of complex samples of the N = 4 example. *)
Definition example_batch : list Z := [127; 127; 137; 117; 107; 147; 127; 127].
Definition example_samples : list complex :=
  [(of_Z 0, of_Z 0); (of_Z 10, of_Z (-10)); (of_Z (-20), of_Z 20); (of_Z 0, of_Z 0)].

Definition limit_args (limit : Z) : args :=
  {| _center_freq := 100000000; _dev_id := 0; _samp_rate := 2048000;
     _refresh_rate := 500; _num_read := limit; _use_gnuplot := true;
     _cont_read := true; _mag_graph := false; _offset_tuning := true;
     _log_colors := true; _filename := Some "fft.txt"%string |}.

Definition demo_args : args := limit_args 2.

Definition zero_junk : nat -> complex := fun _ => (S754_zero false, S754_zero false).

Definition demo_world : world :=
  {| popen_ok := true; fopen_ok := true; device_count := 1;
     device_name := fun _ => "Generic RTL2832U"%string; open_result := 0;
     tuner_gains := [0; 9; 14; 27; 37; 77; 87; 125];
     reset_result := 0;
     batches := [(example_batch, zero_junk); (example_batch, zero_junk);
                 (example_batch, zero_junk)] |}.

Definition state_of {A} (o : outcome A) (otherwise : process) : process :=
  match o with
  | Ok _ s | Exited _ s => s
  | Undefined => otherwise
  end.

(** The process of [prog] once [open_file] has returned. *)
Definition started (prog : program) (a : args) : process :=
  let s0 := initial 4 a 14 in
  state_of
    ((configure_gnuplot 4 prog demo_world ;;
      configure_rtlsdr prog demo_world ;;
      open_file demo_world) s0) s0.

Definition demo_started (prog : program) : process := started prog demo_args.

(** The lines of the two sinks as the interface description words them:
    the index of the bin, counted from 0, and its value. *)
Definition spec_file_line (b : SampleBin.Bin) : string :=
  (fmt_d (SampleBin.id b) +:+ TAB +:+ fmt_f (SampleBin.val b) +:+ NL)%string.
Definition spec_plot_line (b : SampleBin.Bin) : string :=
  (fmt_f (SampleBin.val b) +:+ TAB +:+ fmt_d (SampleBin.id b) +:+ NL)%string.

(** The magnitude of a transform output in the words of the algorithm
    description: the square root of the sum of the two squares, as a
    [float]. *)
Definition spec_magnitude (z : complex) : double :=
  to_float (dsqrt (dadd (dmul (creal z) (creal z)) (dmul (cimag z) (cimag z)))).

Definition ten : double := Eval vm_compute in of_Z 10.

(** ** Reading the control flow *)

Definition is_transform (e : event) : bool :=
  match e with FftwExecute _ => true | _ => false end.

(** The number of transforms a trace holds. *)
Definition count_transforms (tr : list event) : nat :=
  length (List.filter is_transform tr).

Definition is_set_gain (e : event) : bool :=
  match e with RtlsdrSetTunerGain _ => true | _ => false end.

(** The test of [do_exit] before [fclose]. *)
Definition closes_file (s : process) : bool :=
  match _filename (opts s) with
  | Some f => negb (String.eqb f "-")
  | None => false
  end.

(** The calls of [do_exit]. *)
Definition shutdown_events (s : process) : list event :=
  [RtlsdrCancelAsync] ++
  (if _use_gnuplot (opts s) then [Pclose (gnuplotPipe s)] else []) ++
  (if closes_file s then [Fclose (file s)] else []).

(** [file] is what [open_file] leaves there for the configured name. *)
Definition file_sink_ready (s : process) : Prop :=
  file s =
    match _filename (opts s) with
    | None => None
    | Some f => if String.eqb f "-" then Some Stdout else Some (Opened f)
    end.

(** [len] is what this call asks of the receiver, if it is a request. *)
Definition asks_for (len : Z) (e : event) : Prop :=
  match e with
  | RtlsdrReadAsync _ l => l = len
  | _ => True
  end.

Definition outcome_trace {A} (o : outcome A) : list event :=
  match o with
  | Ok _ s | Exited _ s => trace s
  | Undefined => []
  end.

(** Every call [p] adds to a trace of [P]-calls is a [P]-call. *)
Definition trace_inv (P : event -> Prop) {A} (p : proc A) : Prop :=
  forall s, Forall P (trace s) -> Forall P (outcome_trace (p s)).

(** The gain rtl_map ends up with: the last supported gain strictly
    between 10 and 30, the configured one if there is none. *)
Definition chosen_gain (gains : list Z) (configured : Z) : Z :=
  List.last (List.filter (fun g => (10 <? g) && (g <? 30)) gains) configured.

(** The prints of the loop over the supported gains. *)
Definition gain_prints (gains : list Z) : list event :=
  map (fun g => Vfprintf (Some Stderr) "%.1f " [ADouble (ddiv (of_Z g) (of_Z 10))]) gains.

(** A batch whose transform runs into no undefined behaviour. *)
Definition batch_ok (L : libs) (prog : program) (mag_graph : bool) (sample_c : Z)
    (b : list Z * (nat -> complex)) : bool :=
  match spectrum L prog mag_graph sample_c (fst b) (snd b) with
  | Some _ => true
  | None => false
  end.

Definition done_log : event := Log INFO ("Done, exiting..." +:+ NL) [].

(** ** The rest of the two programs: command line, signals, sorting *)

(** [atoi] of the C library: leading white space, an optional sign, then
    decimal digits up to the first character that is none; 0 when there is
    no digit.  A value outside [int] is undefined. *)
Module Libc.

Definition isspace (c : ascii) : bool :=
  let k := Z.of_nat (nat_of_ascii c) in
  (k =? 32) || ((9 <=? k) && (k <=? 13)).

Fixpoint skip_space (s : string) : string :=
  match s with
  | String c rest => if isspace c then skip_space rest else s
  | EmptyString => s
  end.

Fixpoint digits_value (s : string) (acc : Z) : Z :=
  match s with
  | String c rest =>
      match digit_of c with
      | Some d => digits_value rest (10 * acc + d)
      | None => acc
      end
  | EmptyString => acc
  end.

Definition atoi (s : string) : option Z :=
  match skip_space s with
  | String "-" rest => Cint.checked (- digits_value rest 0)
  | String "+" rest => Cint.checked (digits_value rest 0)
  | rest => Cint.checked (digits_value rest 0)
  end.

(** [atof] on a plain decimal numeral - white space, an optional sign,
    digits, an optional point and more digits - rounded once; 0 when there
    is no digit.  Exponents, hexadecimal numerals, infinities and NaNs are
    left out: the command-line code takes [atof] as it comes, and this one
    serves to run it. *)
Fixpoint digits_rest (s : string) : string :=
  match s with
  | String c rest => match digit_of c with Some _ => digits_rest rest | None => s end
  | EmptyString => s
  end.

Fixpoint digits_count (s : string) : Z :=
  match s with
  | String c rest => match digit_of c with Some _ => 1 + digits_count rest | None => 0 end
  | EmptyString => 0
  end.

Definition unsigned_decimal (s : string) : double :=
  let whole := digits_value s 0 in
  match digits_rest s with
  | String "." frac =>
      of_decimal (whole * 10 ^ digits_count frac + digits_value frac 0) (digits_count frac)
  | _ => of_Z whole
  end.

Definition atof_plain (s : string) : double :=
  match skip_space s with
  | String "-" rest => dsub (of_Z 0) (unsigned_decimal rest)
  | String "+" rest => unsigned_decimal rest
  | rest => unsigned_decimal rest
  end.

End Libc.

(** The text of [print_usage], line by line. *)
Definition usage_line (text : string) : string := (TAB +:+ "[" +:+ text +:+ "]" +:+ NL)%string.

Definition usage (prog : program) : string :=
  (match prog with
   | rtl_map =>
       "rtl_map, a FFT-based visualizer for RTL-SDR devices. (RTL2832/DVB-T)" +:+ NL +:+ NL +:+
       "Usage:" +:+ usage_line "-d device index (default: 0)" +:+
       usage_line "-s sample rate (default: 2048000 Hz)" +:+
       TAB +:+ "[-f center frequency (Hz)] *" +:+ NL +:+
       usage_line "-g gain (0 for auto) (default: ~1-3)" +:+
       usage_line "-n number of reads (default: int_max.)"
   | rtl_fftx =>
       "Usage:" +:+ usage_line "-d device index (default: 0)" +:+
       usage_line "-s samplerate (default: 2048000 Hz)" +:+
       TAB +:+ "[-f center frequency (Hz)] *" +:+ NL +:+
       usage_line "-g gain (0 for auto) (default: 1.4)"
   end +:+
   usage_line "-r refresh rate for -C read (default: 500ms)" +:+
   usage_line "-D don't show gnuplot graph (default: show)" +:+
   usage_line "-C continuously read samples (default: off)" +:+
   usage_line "-M show magnitude graph (default graph: dB)" +:+
   usage_line "-O disable offset tuning (default: on)" +:+
   usage_line "-T turn off log colors (default: on)" +:+
   usage_line "-h show this help message and exit" +:+
   usage_line "filename (a '-' dumps samples to stdout)" +:+ NL)%string.

(** Assignments to the [ARG] variables. *)
Definition set_opts (f : args -> args) (s : process) : process :=
  {| opts := f (opts s); _gain := _gain s; _write_file := _write_file s;
     read_count := read_count s; gnuplotPipe := gnuplotPipe s; file := file s;
     sample_bin := sample_bin s; trace := trace s |}.

Definition with_center_freq (v : Z) (a : args) : args :=
  {| _center_freq := v; _dev_id := _dev_id a; _samp_rate := _samp_rate a;
     _refresh_rate := _refresh_rate a; _num_read := _num_read a;
     _use_gnuplot := _use_gnuplot a; _cont_read := _cont_read a;
     _mag_graph := _mag_graph a; _offset_tuning := _offset_tuning a;
     _log_colors := _log_colors a; _filename := _filename a |}.

Definition with_dev_id (v : Z) (a : args) : args :=
  {| _center_freq := _center_freq a; _dev_id := v; _samp_rate := _samp_rate a;
     _refresh_rate := _refresh_rate a; _num_read := _num_read a;
     _use_gnuplot := _use_gnuplot a; _cont_read := _cont_read a;
     _mag_graph := _mag_graph a; _offset_tuning := _offset_tuning a;
     _log_colors := _log_colors a; _filename := _filename a |}.

Definition with_samp_rate (v : Z) (a : args) : args :=
  {| _center_freq := _center_freq a; _dev_id := _dev_id a; _samp_rate := v;
     _refresh_rate := _refresh_rate a; _num_read := _num_read a;
     _use_gnuplot := _use_gnuplot a; _cont_read := _cont_read a;
     _mag_graph := _mag_graph a; _offset_tuning := _offset_tuning a;
     _log_colors := _log_colors a; _filename := _filename a |}.

Definition with_refresh_rate (v : Z) (a : args) : args :=
  {| _center_freq := _center_freq a; _dev_id := _dev_id a; _samp_rate := _samp_rate a;
     _refresh_rate := v; _num_read := _num_read a;
     _use_gnuplot := _use_gnuplot a; _cont_read := _cont_read a;
     _mag_graph := _mag_graph a; _offset_tuning := _offset_tuning a;
     _log_colors := _log_colors a; _filename := _filename a |}.

Definition with_num_read (v : Z) (a : args) : args :=
  {| _center_freq := _center_freq a; _dev_id := _dev_id a; _samp_rate := _samp_rate a;
     _refresh_rate := _refresh_rate a; _num_read := v;
     _use_gnuplot := _use_gnuplot a; _cont_read := _cont_read a;
     _mag_graph := _mag_graph a; _offset_tuning := _offset_tuning a;
     _log_colors := _log_colors a; _filename := _filename a |}.

Definition with_use_gnuplot (v : bool) (a : args) : args :=
  {| _center_freq := _center_freq a; _dev_id := _dev_id a; _samp_rate := _samp_rate a;
     _refresh_rate := _refresh_rate a; _num_read := _num_read a;
     _use_gnuplot := v; _cont_read := _cont_read a;
     _mag_graph := _mag_graph a; _offset_tuning := _offset_tuning a;
     _log_colors := _log_colors a; _filename := _filename a |}.

Definition with_cont_read (v : bool) (a : args) : args :=
  {| _center_freq := _center_freq a; _dev_id := _dev_id a; _samp_rate := _samp_rate a;
     _refresh_rate := _refresh_rate a; _num_read := _num_read a;
     _use_gnuplot := _use_gnuplot a; _cont_read := v;
     _mag_graph := _mag_graph a; _offset_tuning := _offset_tuning a;
     _log_colors := _log_colors a; _filename := _filename a |}.

Definition with_mag_graph (v : bool) (a : args) : args :=
  {| _center_freq := _center_freq a; _dev_id := _dev_id a; _samp_rate := _samp_rate a;
     _refresh_rate := _refresh_rate a; _num_read := _num_read a;
     _use_gnuplot := _use_gnuplot a; _cont_read := _cont_read a;
     _mag_graph := v; _offset_tuning := _offset_tuning a;
     _log_colors := _log_colors a; _filename := _filename a |}.

Definition with_offset_tuning (v : bool) (a : args) : args :=
  {| _center_freq := _center_freq a; _dev_id := _dev_id a; _samp_rate := _samp_rate a;
     _refresh_rate := _refresh_rate a; _num_read := _num_read a;
     _use_gnuplot := _use_gnuplot a; _cont_read := _cont_read a;
     _mag_graph := _mag_graph a; _offset_tuning := v;
     _log_colors := _log_colors a; _filename := _filename a |}.

Definition with_log_colors (v : bool) (a : args) : args :=
  {| _center_freq := _center_freq a; _dev_id := _dev_id a; _samp_rate := _samp_rate a;
     _refresh_rate := _refresh_rate a; _num_read := _num_read a;
     _use_gnuplot := _use_gnuplot a; _cont_read := _cont_read a;
     _mag_graph := _mag_graph a; _offset_tuning := _offset_tuning a;
     _log_colors := v; _filename := _filename a |}.

Definition with_filename (v : option string) (a : args) : args :=
  {| _center_freq := _center_freq a; _dev_id := _dev_id a; _samp_rate := _samp_rate a;
     _refresh_rate := _refresh_rate a; _num_read := _num_read a;
     _use_gnuplot := _use_gnuplot a; _cont_read := _cont_read a;
     _mag_graph := _mag_graph a; _offset_tuning := _offset_tuning a;
     _log_colors := _log_colors a; _filename := v |}.

(** The static initialisers of the [ARG] variables; [_gain] starts at 14.
    rtl_fftx has no [_num_read]; the field is never read there. *)
Definition default_args (NUM_READ : Z) : args :=
  {| _center_freq := 0; _dev_id := 0; _samp_rate := NUM_READ * 4000;
     _refresh_rate := 500; _num_read := Cint.INT_MAX; _use_gnuplot := true;
     _cont_read := false; _mag_graph := false; _offset_tuning := true;
     _log_colors := true; _filename := None |}.

Definition at_startup (NUM_READ : Z) : process := initial NUM_READ (default_args NUM_READ) 14.

Section CommandLine.

(** [atof] of the C library. *)
Variable atof : string -> double.

Definition print_usage (prog : program) : proc unit :=
  call (Vfprintf (Some Stderr) "%s" [AStr (usage prog)]) ;;
  exit 0.

(** The body of the [switch] for the option character [opt] that [getopt]
    returned, with [optarg] as it left it.  rtl_fftx has no case for [n]. *)
Definition handle_option (prog : program) (opt : ascii) (optarg : string)
    : proc unit :=
  let to_int (store : Z -> args -> args) : proc unit :=
    v <- lift (Libc.atoi optarg) ;;
    modify (set_opts (store v)) in
  match opt with
  | "d"%char => to_int with_dev_id
  | "s"%char => to_int with_samp_rate
  | "f"%char => to_int with_center_freq
  | "g"%char =>
      v <- lift (Cint.of_double (dmul (atof optarg) (of_Z 10))) ;;
      modify (set_gain v)
  | "r"%char => to_int with_refresh_rate
  | "n"%char =>
      match prog with
      | rtl_map => to_int with_num_read
      | rtl_fftx => print_usage prog
      end
  | "D"%char => modify (set_opts (with_use_gnuplot false))
  | "C"%char => modify (set_opts (with_cont_read true))
  | "M"%char => modify (set_opts (with_mag_graph true))
  | "O"%char => modify (set_opts (with_offset_tuning false))
  | "T"%char => modify (set_opts (with_log_colors false))
  | "h"%char => print_usage prog
  | _ => print_usage prog
  end.

(** [while ((opt = getopt(...)) != -1) switch (opt) ...] over the answers
    of [getopt], oldest first.  For an unknown option or a missing argument
    [getopt] answers [?] and, [opterr] being left alone, prints a
    diagnostic of its own: that is [getopt]'s output, not a call of the
    program, and the trace does not hold it. *)
Fixpoint option_loop (prog : program) (answers : list (ascii * string)) : proc unit :=
  match answers with
  | [] => ret tt
  | (opt, optarg) :: rest =>
      handle_option prog opt optarg ;;
      option_loop prog rest
  end.

(** [parse_args]; [operand] is [argv[optind]] after the loop, the null
    pointer when the options end the command line.  The function returns 0
    in rtl_map and nothing in rtl_fftx, where 0 stands for the return. *)
Definition parse_args (prog : program) (answers : list (ascii * string))
    (operand : option string) : proc Z :=
  option_loop prog answers ;;
  center <- get (fun s => _center_freq (opts s)) ;;
  when (center =? 0) (print_usage prog) ;;
  modify (set_opts (with_filename operand)) ;;
  ret 0.

End CommandLine.

(** [sig_handler], the handler [register_signals] installs for SIGINT,
    SIGTERM, SIGQUIT and SIGPIPE. *)
Definition sig_handler (signum : Z) : proc unit :=
  log_info ("Signal caught, exiting..." +:+ NL) [] ;;
  do_exit.

(** [cmp_sample] on the two floats its arguments point to. *)
Definition cmp_sample (fa fb : double) : Z :=
  flag (SFltb fb fa) - flag (SFltb fa fb).

(** ** Reading whole runs *)

(** The lines the file sink receives for batches whose bins have the
    values [dbss], batch after batch. *)
Definition file_lines (st : option FILE) (dbss : list (list double)) : list event :=
  concat (map (fun dbs => map (file_write st) (bins_from 0 dbs)) dbss).

(** The calls of rtl_fftx in continuous mode for batches whose bins have
    the values [dbss]. *)
Definition rtl_fftx_rounds (s : process) (sample_c : Z) (dbss : list (list double))
    : list event :=
  concat (map (fun dbs =>
                 create_fft_events rtl_fftx s sample_c dbs ++
                 [Usleep (1000 * _refresh_rate (opts s))]) dbss).

(** The calls of rtl_map in continuous mode for batches whose bins have
    the values [dbss], the last of which reaches the limit. *)
Fixpoint rtl_map_rounds (s : process) (sample_c : Z) (dbss : list (list double))
    : list event :=
  match dbss with
  | [] => []
  | dbs :: rest =>
      create_fft_events rtl_map s sample_c dbs ++
      match rest with
      | [] => done_log :: shutdown_events s
      | _ :: _ =>
          Usleep (1000 * _refresh_rate (opts s))
          :: RtlsdrReadAsync 0 (sample_c * sample_c)
          :: rtl_map_rounds s sample_c rest
      end
  end.

Definition is_sleep (e : event) : bool :=
  match e with Usleep _ => true | _ => false end.

(** Calls that end or restart the acquisition, or close a sink. *)
Definition is_stop_or_request (e : event) : bool :=
  match e with
  | RtlsdrReadAsync _ _ | RtlsdrCancelAsync | Pclose _ | Fclose _ => true
  | _ => false
  end.

(** The start of [main], up to the first request. *)
Definition startup (NUM_READ : Z) (prog : program) (w : world) : proc Z :=
  configure_gnuplot NUM_READ prog w ;;
  configure_rtlsdr prog w ;;
  open_file w.

(** What [startup] needs from the outside to come through: the pipe to
    gnuplot when the plot is enabled, a receiver that opens, and the file
    when one is named. *)
Definition startup_ok (w : world) (s : process) : bool :=
  (negb (_use_gnuplot (opts s)) || popen_ok w) &&
  negb (device_count w =? 0) && (0 <=? open_result w) &&
  match _filename (opts s) with
  | Some f => String.eqb f "-" || fopen_ok w
  | None => true
  end.

Definition is_option (prog : program) (c : ascii) : bool :=
  match c with
  | "d"%char | "s"%char | "f"%char | "g"%char | "r"%char
  | "D"%char | "C"%char | "M"%char | "O"%char | "T"%char => true
  | "n"%char => match prog with rtl_map => true | rtl_fftx => false end
  | _ => false
  end.

Definition usage_print (prog : program) : event :=
  Vfprintf (Some Stderr) "%s" [AStr (usage prog)].

(** The bins of the example batch in level display, over zeroed memory. *)
Definition demo_bins (prog : program) : list double :=
  Eval vm_compute in
  match prog with
  | rtl_map => default [] (spectrum Reference.ref_libs rtl_map false 4 example_batch zero_junk)
  | rtl_fftx => default [] (spectrum Reference.ref_libs rtl_fftx false 4 example_batch zero_junk)
  end.

(** ** Reading a command line *)

Section CommandLineReading.

Variable atof : string -> double.

(** The argument of the answer can be read: [atoi] stays inside [int], and
    so does ten times the gain. *)
Definition reads_ok (prog : program) (a : ascii * string) : bool :=
  let int_ok := match Libc.atoi (snd a) with Some _ => true | None => false end in
  match fst a with
  | "d"%char | "s"%char | "f"%char | "r"%char => int_ok
  | "n"%char => match prog with rtl_map => int_ok | rtl_fftx => true end
  | "g"%char =>
      match Cint.of_double (dmul (atof (snd a)) (of_Z 10)) with
      | Some _ => true
      | None => false
      end
  | _ => true
  end.

End CommandLineReading.

(** The option [c] is among the answers. *)
Definition mentions (c : ascii) (answers : list (ascii * string)) : bool :=
  existsb (fun a => Ascii.eqb (fst a) c) answers.

(** The argument of the last answer for the option [c]. *)
Fixpoint last_arg (c : ascii) (answers : list (ascii * string)) : option string :=
  match answers with
  | [] => None
  | (opt, optarg) :: rest =>
      match last_arg c rest with
      | Some a => Some a
      | None => if Ascii.eqb opt c then Some optarg else None
      end
  end.

(** The value an [int] variable set by the option [c] holds after the
    answers, [old] being its value before. *)
Definition int_after (c : ascii) (answers : list (ascii * string)) (old : Z) : option Z :=
  match last_arg c answers with
  | Some a => Libc.atoi a
  | None => Some old
  end.

(** ** Reading the start of a run *)

(** The process after the calls [evs], nothing else changed. *)
Definition emits (evs : list event) (s : process) : process :=
  {| opts := opts s; _gain := _gain s; _write_file := _write_file s;
     read_count := read_count s; gnuplotPipe := gnuplotPipe s; file := file s;
     sample_bin := sample_bin s; trace := trace s ++ evs |}.

(** The calls of a loop that makes the call [ev i] in round [i]. *)
Fixpoint calls_from (ev : Z -> event) (i : Z) (count : nat) : list event :=
  match count with
  | O => []
  | S count' => ev i :: calls_from ev (i + 1) count'
  end.

(** The index a line of the device listing shows. *)
Definition listed_index (e : event) : option Z :=
  match e with
  | Log INFO format (AInt k :: _) => if String.prefix "#%d: " format then Some k else None
  | _ => None
  end.

(** Calls that set the gain of the tuner or its mode. *)
Definition is_gain_call (e : event) : bool :=
  match e with
  | RtlsdrSetTunerGainMode _ | RtlsdrSetTunerGain _ => true
  | _ => false
  end.

(** Calls on the plot channel: the pipe is opened or closed, written or
    flushed. *)
Definition is_plot_call (e : event) : bool :=
  match e with
  | Popen _ | Pclose _ | Fflush _ | Vfprintf (Some Gnuplot) _ _ => true
  | _ => false
  end.

(** Calls on the file sink: a file is opened or closed, or a line goes to
    a file or to the standard output. *)
Definition is_file_call (e : event) : bool :=
  match e with
  | Fopen _ | Fclose _ | Vfprintf (Some Stdout) _ _ | Vfprintf (Some (Opened _)) _ _ => true
  | _ => false
  end.

Definition is_fatal_log (e : event) : bool :=
  match e with Log FATAL _ _ => true | _ => false end.

(** ** Invariants of a run

    From the state [s], with [Inv] holding there and all earlier calls
    in [P], the piece [p] keeps [Inv], makes calls in [P] only, and exits
    with a status in [Q] only. *)
Definition run_at (Inv : process -> Prop) (P : event -> Prop) (Q : Z -> Prop)
    {A} (p : proc A) (s : process) : Prop :=
  Inv s -> Forall P (trace s) ->
  match p s with
  | Ok _ s' => Inv s' /\ Forall P (trace s')
  | Exited c s' => Q c /\ Forall P (trace s')
  | Undefined => True
  end.

Definition run_inv (Inv : process -> Prop) (P : event -> Prop) (Q : Z -> Prop)
    {A} (p : proc A) : Prop :=
  forall s, run_at Inv P Q p s.

Definition any_state (s : process) : Prop := True.
Definition any_call (e : event) : Prop := True.
Definition any_status (c : Z) : Prop := True.
Definition no_plot_call (e : event) : Prop := is_plot_call e = false.
Definition no_file_call (e : event) : Prop := is_file_call e = false.

(** The options are [a], and [file] is not the plot pipe. *)
Definition plot_apart (a : args) (s : process) : Prop :=
  opts s = a /\ file s <> Some Gnuplot.

(** The options are [a], no file is being written, and [gnuplotPipe] is
    null or the plot pipe. *)
Definition file_unused (a : args) (s : process) : Prop :=
  opts s = a /\ _write_file s = false /\
  (gnuplotPipe s = None \/ gnuplotPipe s = Some Gnuplot).

(** A machine with three receivers. *)
Definition three_receivers : world :=
  {| popen_ok := true; fopen_ok := true; device_count := 3;
     device_name := fun _ => "Generic RTL2832U"%string; open_result := 0;
     tuner_gains := [0; 9; 14; 27; 37; 77; 87; 125];
     reset_result := 0; batches := [] |}.

(** A receiver whose buffer reset fails. *)
Definition stuck_buffer : world :=
  {| popen_ok := true; fopen_ok := true; device_count := 1;
     device_name := fun _ => "Generic RTL2832U"%string; open_result := 0;
     tuner_gains := [0; 9; 14; 27; 37; 77; 87; 125];
     reset_result := -1; batches := [] |}.

(** ** Calls on a null stream

    The trace keeps every call with the stream it is given, [None] for a
    null pointer.  [pclose], [fclose] and [vfprintf] must be given a
    stream: on a null pointer the call is undefined and the process does
    not get past it.  ([fflush] accepts a null pointer.) *)
Definition on_null_stream (e : event) : bool :=
  match e with
  | Pclose None | Fclose None | Vfprintf None _ _ => true
  | _ => false
  end.

(** Of the calls [evs], those the process gets to make: up to and
    including the first one on a null stream. *)
Fixpoint reached (evs : list event) : list event :=
  match evs with
  | [] => []
  | e :: rest => if on_null_stream e then [e] else e :: reached rest
  end.

(** What [p] does from [s] as C defines it: nothing defined once one of
    its calls is on a null stream. *)
Definition in_c {A} (p : proc A) (s : process) : outcome A :=
  if existsb on_null_stream (added s (p s)) then Undefined else p s.

(** The sinks that [do_exit] closes are open. *)
Definition sinks_open (s : process) : Prop :=
  (_use_gnuplot (opts s) = true -> gnuplotPipe s <> None) /\
  (closes_file s = true -> file s <> None).
(** * Properties *)

(** ** De-interleaving *)

Section FillIn.

Variable prog : program.

Lemma fill_in_length count : forall i n buf inb r,
  fill_in prog count i n buf inb = Some r -> length r = length inb.
Proof.
  induction count as [|count IH]; intros i n buf inb r H; simpl in H.
  - congruence.
  - destruct (buf !! Z.to_nat n) as [b0|]; [|discriminate].
    destruct (buf !! Z.to_nat (n + 1)) as [b1|]; [|discriminate].
    simpl in H. apply IH in H. rewrite H. apply length_insert.
Qed.

(** A slot the loop does not visit keeps what it held. *)
Lemma fill_in_untouched count : forall i n buf inb r j,
  0 <= i ->
  fill_in prog count i n buf inb = Some r ->
  (forall k, (k < count)%nat -> j <> Z.to_nat (i + 2 * Z.of_nat k)) ->
  r !! j = inb !! j.
Proof.
  induction count as [|count IH]; intros i n buf inb r j Hi H Hj; simpl in H.
  - congruence.
  - destruct (buf !! Z.to_nat n) as [b0|]; [|discriminate].
    destruct (buf !! Z.to_nat (n + 1)) as [b1|]; [|discriminate].
    simpl in H. assert (Hi2 : 0 <= i + 2) by lia.
    rewrite (IH _ _ _ _ _ j Hi2 H).
    + apply list_lookup_insert_ne. assert (Hj0 := Hj O).
      replace (i + 2 * Z.of_nat 0) with i in Hj0 by lia.
      intros E. apply Hj0; [lia | symmetry; exact E].
    + intros k Hk. assert (Hjk := Hj (S k)).
      replace (i + 2 + 2 * Z.of_nat k) with (i + 2 * Z.of_nat (S k)) by lia.
      apply Hjk. lia.
Qed.

(** Round [k] of the loop writes slot [i + 2k] from bytes [n + k] and
    [n + k + 1]. *)
Lemma fill_in_visited count : forall i n buf inb r k,
  0 <= i -> 0 <= n ->
  fill_in prog count i n buf inb = Some r ->
  (k < count)%nat ->
  (Z.to_nat (i + 2 * Z.of_nat k) < length inb)%nat ->
  exists b0 b1,
    buf !! Z.to_nat (n + Z.of_nat k) = Some b0 /\
    buf !! Z.to_nat (n + Z.of_nat k + 1) = Some b1 /\
    r !! Z.to_nat (i + 2 * Z.of_nat k) = Some (iq_sample prog b0 b1).
Proof.
  induction count as [|count IH]; intros i n buf inb r k Hi Hn H Hk Hlen; [lia|].
  simpl in H.
  destruct (buf !! Z.to_nat n) as [b0|] eqn:E0; [|discriminate].
  destruct (buf !! Z.to_nat (n + 1)) as [b1|] eqn:E1; [|discriminate].
  simpl in H. destruct k as [|k].
  - exists b0, b1. replace (n + Z.of_nat 0) with n by lia.
    replace (i + 2 * Z.of_nat 0) with i in * by lia.
    repeat split; try assumption.
    assert (Hi2 : 0 <= i + 2) by lia.
    rewrite (fill_in_untouched _ _ _ _ _ _ (Z.to_nat i) Hi2 H).
    + apply list_lookup_insert_eq. exact Hlen.
    + intros k' _. lia.
  - assert (Hi2 : 0 <= i + 2) by lia. assert (Hn1 : 0 <= n + 1) by lia.
    destruct (IH _ _ _ _ _ k Hi2 Hn1 H) as (c0 & c1 & H0 & H1 & Hr); [lia | |].
    + rewrite length_insert.
      replace (i + 2 + 2 * Z.of_nat k) with (i + 2 * Z.of_nat (S k)) by lia.
      exact Hlen.
    + exists c0, c1.
      replace (n + Z.of_nat (S k)) with (n + 1 + Z.of_nat k) by lia.
      replace (i + 2 * Z.of_nat (S k)) with (i + 2 + 2 * Z.of_nat k) by lia.
      auto.
Qed.

(** The loop runs to its end when [buf] holds one byte more than it has
    rounds. *)
Lemma fill_in_defined count : forall i n buf inb,
  0 <= n ->
  (Z.to_nat n + count < length buf)%nat \/ count = O ->
  is_Some (fill_in prog count i n buf inb).
Proof.
  induction count as [|count IH]; intros i n buf inb Hn Hlen; simpl.
  - eexists; reflexivity.
  - destruct Hlen as [Hlen|]; [|discriminate].
    destruct (lookup_lt_is_Some_2 buf (Z.to_nat n)) as [b0 ->]; [lia|].
    destruct (lookup_lt_is_Some_2 buf (Z.to_nat (n + 1))) as [b1 ->]; [lia|].
    simpl. apply IH; [lia|]. left. lia.
Qed.

End FillIn.

Lemma in_array_length prog sample_c buf junk r :
  in_array prog sample_c buf junk = Some r -> length r = Z.to_nat sample_c.
Proof.
  unfold in_array. intros H. apply fill_in_length in H.
  rewrite H, length_map, length_seq. reflexivity.
Qed.

(** Slot [2k] of [in] is built from bytes [k] and [k+1] of the batch. *)
Lemma in_array_even_slot prog sample_c buf junk r k :
  in_array prog sample_c buf junk = Some r ->
  (2 * k < Z.to_nat sample_c)%nat ->
  exists b0 b1,
    buf !! k = Some b0 /\ buf !! S k = Some b1 /\
    r !! (2 * k)%nat = Some (iq_sample prog b0 b1).
Proof.
  unfold in_array, fill_rounds. intros H Hk.
  destruct (fill_in_visited prog _ 0 0 buf _ r k (Z.le_refl 0) (Z.le_refl 0) H)
    as (b0 & b1 & H0 & H1 & Hr).
  - assert (0 <= sample_c) by lia.
    apply Nat2Z.inj_lt. rewrite Z2Nat.id by (apply Z.div_pos; lia).
    assert (Z.of_nat k + 1 <= (sample_c + 1) / 2)
      by (apply Z.div_le_lower_bound; lia).
    lia.
  - rewrite length_map, length_seq. lia.
  - exists b0, b1.
    replace (Z.to_nat (0 + Z.of_nat k)) with k in H0 by lia.
    replace (Z.to_nat (0 + Z.of_nat k + 1)) with (S k) in H1 by lia.
    replace (Z.to_nat (0 + 2 * Z.of_nat k)) with (2 * k)%nat in Hr by lia.
    auto.
Qed.

(** A slot of odd index is never written: FFTW reads there whatever the
    block held. *)
Lemma in_array_odd_slot prog sample_c buf junk r k :
  in_array prog sample_c buf junk = Some r ->
  (2 * k + 1 < Z.to_nat sample_c)%nat ->
  r !! (2 * k + 1)%nat = Some (junk (2 * k + 1)%nat).
Proof.
  unfold in_array. intros H Hk.
  rewrite (fill_in_untouched prog _ 0 0 buf _ r (2 * k + 1)%nat (Z.le_refl 0) H).
  - rewrite list_lookup_fmap, lookup_seq_lt by lia. reflexivity.
  - intros k' _. lia.
Qed.

Lemma in_array_defined prog sample_c buf junk :
  (Z.to_nat ((sample_c + 1) / 2) < length buf)%nat ->
  is_Some (in_array prog sample_c buf junk).
Proof.
  intros H. unfold in_array, fill_rounds. apply fill_in_defined; [lia|].
  left. simpl. exact H.
Qed.

(** C1 (evaluation at the failing input).  On the batch
    [127,127,137,117,107,147,127,127] with N = 4 and offset 127 the loop of
    rtl_fftx writes slots 0 and 2 only, from the byte pairs (0,1) and (1,2):
    slot 0 is 0+0j, slot 2 is 0+10j, and slots 1 and 3 keep what the block
    held.  Whatever the block held, the array is not the sequence
    (0+0j, 10-10j, -20+20j, 0+0j). *)
Theorem C1_in_array_example : forall junk : nat -> complex,
  in_array rtl_fftx 4 example_batch junk
    = Some [(of_Z 0, of_Z 0); junk 1%nat; (of_Z 0, of_Z 10); junk 3%nat]
  /\ in_array rtl_fftx 4 example_batch junk <> Some example_samples.
Proof.
  intros junk. split; [reflexivity|].
  change (in_array rtl_fftx 4 example_batch junk)
    with (Some [(of_Z 0, of_Z 0); junk 1%nat; (of_Z 0, of_Z 10); junk 3%nat]).
  intros E. inversion E.
Qed.

(** ** One transform *)

Section TransformRuns.

Variable L : libs.
Variable NUM_READ : Z.

Lemma bin_events_frame s s' i db :
  opts s' = opts s -> _write_file s' = _write_file s ->
  gnuplotPipe s' = gnuplotPipe s -> file s' = file s ->
  bin_events s' i db = bin_events s i db.
Proof. unfold bin_events. intros -> -> -> ->. reflexivity. Qed.

Lemma bins_events_frame s s' dbs : forall i,
  opts s' = opts s -> _write_file s' = _write_file s ->
  gnuplotPipe s' = gnuplotPipe s -> file s' = file s ->
  bins_events s' i dbs = bins_events s i dbs.
Proof.
  induction dbs as [|db dbs IH]; intros i Ho Hw Hg Hf; simpl; [reflexivity|].
  rewrite (bin_events_frame s s') by assumption.
  rewrite IH by assumption. reflexivity.
Qed.

Lemma emit_bin_run prog out i z db s :
  out !! Z.to_nat i = Some z ->
  bin_value L prog (_mag_graph (opts s)) z = Some db ->
  0 <= i < NUM_READ ->
  exists s',
    emit_bin L NUM_READ prog out i s = Ok tt s' /\
    advanced s s' (bin_events s i db)
      (<[Z.to_nat i := {| SampleBin.val := db; SampleBin.id := i |}]> (sample_bin s))
      (read_count s).
Proof.
  intros Hz Hdb Hi. unfold bin_value in Hdb.
  destruct (magnitude L prog z) as [amp|] eqn:Hamp; [|discriminate].
  simpl in Hdb. injection Hdb as <-.
  unfold emit_bin, bind, lift, get, when, gnuplot_exec, store_bin, call, modify, ret, bind.
  rewrite Hz. simpl. rewrite Hamp. simpl.
  replace ((0 <=? i) && (i <? NUM_READ)) with true
    by (symmetry; apply andb_true_iff; split; [apply Z.leb_le | apply Z.ltb_lt]; lia).
  unfold bin_events, advanced.
  destruct (_write_file s) eqn:Hw; simpl; rewrite ?Hw;
    destruct (_use_gnuplot (opts s)) eqn:Hg; simpl; rewrite ?Hg, ?Hw;
    eexists; (split; [reflexivity|]); simpl;
    rewrite <- ?app_assoc; simpl; rewrite ?app_nil_r; repeat split;
    solve [reflexivity | assumption | congruence].
Qed.

Lemma emit_loop_run prog out dbs : forall zs i s,
  Forall2 (fun z db => bin_value L prog (_mag_graph (opts s)) z = Some db) zs dbs ->
  (forall k z, zs !! k = Some z -> out !! (Z.to_nat i + k)%nat = Some z) ->
  0 <= i -> i + Z.of_nat (length zs) <= NUM_READ ->
  exists s',
    for_each i (length zs) (emit_bin L NUM_READ prog out) s = Ok tt s' /\
    advanced s s' (bins_events s i dbs) (store_bins i dbs (sample_bin s))
      (read_count s).
Proof.
  induction dbs as [|db dbs IH]; intros zs i s HF Hout Hi Hn.
  - inversion HF; subst. simpl. exists s. split; [reflexivity|].
    unfold advanced. rewrite app_nil_r. repeat split; reflexivity.
  - inversion HF as [|z ? zs' ? Hz HF']; subst. simpl in *.
    destruct (emit_bin_run prog out i z db s) as (s1 & E1 & A1); [| exact Hz | lia |].
    { rewrite <- (Hout O z eq_refl). f_equal. lia. }
    destruct A1 as (Ho & Hg & Hw & Hp & Hf & Hc & Hb & Ht).
    destruct (IH zs' (i + 1) s1) as (s2 & E2 & A2); [| | lia | lia |].
    { rewrite Ho. exact HF'. }
    { intros k z' Hk. rewrite <- (Hout (S k) z' Hk). f_equal. lia. }
    exists s2. split.
    { unfold bind. rewrite E1. exact E2. }
    destruct A2 as (Ho2 & Hg2 & Hw2 & Hp2 & Hf2 & Hc2 & Hb2 & Ht2).
    unfold advanced.
    rewrite Ho2, Hg2, Hw2, Hp2, Hf2, Hc2, Hb2, Ht2, Ho, Hg, Hw, Hp, Hf, Hc, Hb, Ht.
    rewrite (bins_events_frame s s1) by assumption.
    rewrite <- app_assoc. repeat split; reflexivity.
Qed.

(** A transform of a well-formed batch returns, and this is what it did. *)
Lemma create_fft_run prog sample_c buf junk s dbs :
  1 <= sample_c <= NUM_READ ->
  spectrum L prog (_mag_graph (opts s)) sample_c buf junk = Some dbs ->
  Cint.in_int (read_count s + 1) = true ->
  exists s',
    create_fft L NUM_READ prog sample_c buf junk s = Ok tt s' /\
    advanced s s' (create_fft_events prog s sample_c dbs)
      (store_bins 0 dbs (sample_bin s))
      (match prog with rtl_map => read_count s + 1 | rtl_fftx => read_count s end) /\
    length dbs = Z.to_nat sample_c.
Proof.
  intros Hc Hs Hrc. unfold spectrum in Hs.
  destruct (in_array prog sample_c buf junk) as [inb|] eqn:Hin; [|discriminate].
  simpl in Hs. apply mapM_Some in Hs.
  assert (Hlen : length (fftw_dft L inb) = Z.to_nat sample_c).
  { rewrite fftw_dft_length. eapply in_array_length; eauto. }
  assert (Hdbs : length dbs = Z.to_nat sample_c).
  { rewrite <- Hlen. symmetry. eapply Forall2_length; eauto. }
  unfold create_fft.
  replace (sample_c <? 1) with false by (symmetry; apply Z.ltb_ge; lia).
  unfold create_fft_events, transform_log, advanced.
  unfold bind, lift, get, when, gnuplot_exec, log_info, print_log, call, modify, ret.
  rewrite Hin. unfold Cint.add, Cint.checked.
  destruct prog; destruct (_cont_read (opts s)) eqn:Hcont;
    destruct (_use_gnuplot (opts s)) eqn:Hg; simpl;
    rewrite ?Hcont, ?Hg; simpl;
    match goal with
    | |- context [for_each 0 _ (emit_bin _ _ ?p _) ?st] =>
        destruct (emit_loop_run p (fftw_dft L inb) dbs (fftw_dft L inb) 0 st)
          as (s2 & E2 & Ho2 & Hg2 & Hw2 & Hp2 & Hf2 & Hc2 & Hb2 & Ht2);
        [exact Hs | intros k z Hk; exact Hk | lia | lia |]
    end;
    rewrite Hlen in E2; rewrite E2; simpl in *;
    rewrite ?Ho2, ?Hg; simpl; rewrite ?Hc2, ?Hrc;
    eexists; (split; [reflexivity|]); simpl;
    rewrite ?Ht2, ?Hp2; rewrite <- ?app_assoc; simpl; rewrite ?app_nil_r;
    repeat match goal with
    | |- context [bins_events (emit ?e ?st) 0 dbs] =>
        rewrite (bins_events_frame s (emit e st) dbs 0 eq_refl eq_refl eq_refl eq_refl)
    end;
    repeat split; solve [reflexivity | assumption | congruence].
Qed.

End TransformRuns.

(** ** The two sinks *)

Lemma bins_from_length dbs : forall i, length (bins_from i dbs) = length dbs.
Proof. induction dbs as [|db dbs IH]; intros i; simpl; [|rewrite IH]; reflexivity. Qed.

(** The indices of the bins are [i, i+1, ...] in this order. *)
Lemma bins_from_ids dbs : forall i,
  map SampleBin.id (bins_from i dbs)
    = map (fun k => i + Z.of_nat k) (seq 0 (length dbs)).
Proof.
  induction dbs as [|db dbs IH]; intros i; simpl; [reflexivity|].
  f_equal; [lia|]. rewrite IH, <- seq_shift, map_map.
  apply map_ext. intros k. lia.
Qed.

Lemma bins_from_lookup dbs : forall i k db,
  dbs !! k = Some db ->
  bins_from i dbs !! k
    = Some {| SampleBin.val := db; SampleBin.id := i + Z.of_nat k |}.
Proof.
  induction dbs as [|d dbs IH]; intros i k db H; [discriminate|].
  destruct k as [|k]; simpl in *.
  - injection H as ->. do 2 f_equal. lia.
  - rewrite (IH (i + 1) k db H). do 2 f_equal. lia.
Qed.

Lemma store_bins_length dbs : forall i bins,
  length (store_bins i dbs bins) = length bins.
Proof.
  induction dbs as [|db dbs IH]; intros i bins; simpl; [reflexivity|].
  rewrite IH. apply length_insert.
Qed.

Lemma store_bins_below dbs : forall i bins j,
  0 <= i -> (j < Z.to_nat i)%nat ->
  store_bins i dbs bins !! j = bins !! j.
Proof.
  induction dbs as [|db dbs IH]; intros i bins j Hi Hj; simpl; [reflexivity|].
  rewrite IH by lia. apply list_lookup_insert_ne. lia.
Qed.

(** After the loop, [sample_bin] starts with the bins of the batch. *)
Lemma store_bins_take dbs : forall i bins,
  0 <= i -> (Z.to_nat i + length dbs <= length bins)%nat ->
  take (length dbs) (drop (Z.to_nat i) (store_bins i dbs bins)) = bins_from i dbs.
Proof.
  induction dbs as [|db dbs IH]; intros i bins Hi Hlen; simpl in *.
  - apply take_0.
  - assert (Hd : drop (Z.to_nat i) (store_bins (i + 1) dbs
               (<[Z.to_nat i := {| SampleBin.val := db; SampleBin.id := i |}]> bins))
             = {| SampleBin.val := db; SampleBin.id := i |}
               :: drop (Z.to_nat (i + 1)) (store_bins (i + 1) dbs
               (<[Z.to_nat i := {| SampleBin.val := db; SampleBin.id := i |}]> bins))).
    { replace (Z.to_nat (i + 1)) with (S (Z.to_nat i)) by lia.
      apply drop_S. rewrite store_bins_below by lia.
      apply list_lookup_insert_eq. lia. }
    rewrite Hd. simpl. f_equal. apply IH; [lia|]. rewrite length_insert. lia.
Qed.

Section Sinks.

Variable s : process.
Hypothesis sinks_apart : file s <> gnuplotPipe s.

Lemma file_writes_of_bins dbs : forall i,
  _write_file s = true ->
  on_stream (file s) (bins_events s i dbs) = map (file_write (file s)) (bins_from i dbs).
Proof.
  intros i Hw. revert i. unfold on_stream.
  induction dbs as [|db dbs IH]; intros i; simpl; [reflexivity|].
  unfold bin_events. rewrite Hw. simpl.
  rewrite bool_decide_eq_true_2 by reflexivity.
  destruct (_use_gnuplot (opts s)); simpl.
  - rewrite bool_decide_eq_false_2 by (intros E; apply sinks_apart; congruence).
    rewrite IH. reflexivity.
  - rewrite IH. reflexivity.
Qed.

Lemma plot_writes_of_bins dbs : forall i,
  _use_gnuplot (opts s) = true ->
  on_stream (gnuplotPipe s) (bins_events s i dbs)
    = map (plot_write (gnuplotPipe s)) (bins_from i dbs).
Proof.
  intros i Hg. revert i. unfold on_stream.
  induction dbs as [|db dbs IH]; intros i; simpl; [reflexivity|].
  unfold bin_events. rewrite Hg. simpl.
  destruct (_write_file s); simpl.
  - rewrite bool_decide_eq_false_2 by exact sinks_apart.
    rewrite bool_decide_eq_true_2 by reflexivity.
    rewrite IH. reflexivity.
  - rewrite bool_decide_eq_true_2 by reflexivity. rewrite IH. reflexivity.
Qed.

Lemma on_stream_app st tr1 tr2 :
  on_stream st (tr1 ++ tr2) = on_stream st tr1 ++ on_stream st tr2.
Proof. apply List.filter_app. Qed.

Lemma on_stream_transform_log st prog : on_stream st (transform_log prog s) = [].
Proof.
  unfold transform_log.
  destruct prog, (_cont_read (opts s)), (_use_gnuplot (opts s)); reflexivity.
Qed.

(** The file sink sees the lines of the bins and nothing else. *)
Lemma file_writes_of_transform prog sample_c dbs :
  _write_file s = true ->
  on_stream (file s) (create_fft_events prog s sample_c dbs)
    = map (file_write (file s)) (bins_from 0 dbs).
Proof.
  intros Hw. unfold create_fft_events.
  rewrite !on_stream_app, on_stream_transform_log, file_writes_of_bins by exact Hw.
  destruct (_use_gnuplot (opts s)); simpl; [|rewrite app_nil_r; reflexivity].
  rewrite !bool_decide_eq_false_2 by (intros E; apply sinks_apart; congruence).
  rewrite app_nil_r. reflexivity.
Qed.

(** The plot sink sees the directive, the data of the bins, the
    end-of-data line and the flush. *)
Lemma plot_writes_of_transform prog sample_c dbs :
  _use_gnuplot (opts s) = true ->
  on_stream (gnuplotPipe s) (create_fft_events prog s sample_c dbs)
    = [Vfprintf (gnuplotPipe s) plot_command []] ++
      map (plot_write (gnuplotPipe s)) (bins_from 0 dbs) ++
      [Vfprintf (gnuplotPipe s) ("e" +:+ NL) []; Fflush (gnuplotPipe s)].
Proof.
  intros Hg. unfold create_fft_events.
  rewrite !on_stream_app, on_stream_transform_log, plot_writes_of_bins by exact Hg.
  rewrite Hg. simpl. rewrite !bool_decide_eq_true_2 by reflexivity. reflexivity.
Qed.

End Sinks.

Lemma added_advanced {A} s s' (a : A) evs bins c :
  advanced s s' evs bins c -> added s (Ok a s') = evs.
Proof.
  intros (_ & _ & _ & _ & _ & _ & _ & Ht). simpl. rewrite Ht.
  apply drop_app_length.
Qed.

(** The text of a line of the file sink: the index plus one, a tab, the
    value with six decimals, a newline. *)
Lemma file_write_text st b :
  text_of (file_write st b)
    = Some (fmt_d (SampleBin.id b + 1) +:+ TAB +:+ fmt_f (SampleBin.val b) +:+ NL).
Proof. reflexivity. Qed.

(** The data write of the plot sink hands a double to [%d] and an int to
    [%f]: C gives it no text. *)
Lemma plot_write_text st b : text_of (plot_write st b) = None.
Proof. reflexivity. Qed.

Section SinkProperties.

Variable L : libs.
Variable NUM_READ : Z.


(** The calls on the plot channel for a well-formed batch with the plot
    sink enabled, in this order and nothing else: the plot directive, one
    data write per bin - the call [gnuplot_exec("%d\t%f\n", db, i+1)] as
    the source has it -, the end-of-data line [e], and a flush. *)
Lemma plot_sink_calls :
  forall prog sample_c buf junk s dbs,
    1 <= sample_c <= NUM_READ ->
    spectrum L prog (_mag_graph (opts s)) sample_c buf junk = Some dbs ->
    Cint.in_int (read_count s + 1) = true ->
    _use_gnuplot (opts s) = true ->
    file s <> gnuplotPipe s ->
    exists s',
      create_fft L NUM_READ prog sample_c buf junk s = Ok tt s' /\
      length (bins_from 0 dbs) = Z.to_nat sample_c /\
      on_stream (gnuplotPipe s)
          (added s (create_fft L NUM_READ prog sample_c buf junk s))
        = [Vfprintf (gnuplotPipe s) plot_command []] ++
          map (plot_write (gnuplotPipe s)) (bins_from 0 dbs) ++
          [Vfprintf (gnuplotPipe s) ("e" +:+ NL) []; Fflush (gnuplotPipe s)] /\
      text_of (Vfprintf (gnuplotPipe s) plot_command []) = Some plot_command /\
      text_of (Vfprintf (gnuplotPipe s) ("e" +:+ NL) []) = Some ("e" +:+ NL)%string.
Proof.
  intros prog sample_c buf junk s dbs Hc Hs Hrc Hg Hsinks.
  destruct (create_fft_run L NUM_READ prog sample_c buf junk s dbs Hc Hs Hrc)
    as (s' & Hrun & Hadv & Hlen).
  exists s'. split; [exact Hrun|].
  split; [rewrite bins_from_length; exact Hlen|].
  split; [|split; reflexivity].
  rewrite Hrun, (added_advanced _ _ _ _ _ _ Hadv).
  apply plot_writes_of_transform; assumption.
Qed.

(** C3 (amended).  In level-display mode a bin whose computed magnitude is
    zero gets the value 10 * log10(0), which is minus infinity: no floor is
    applied and the bin is not skipped; the file sink prints it as
    [-inf]. *)
Theorem C3_zero_magnitude_level :
  forall prog z amp,
    magnitude L prog z = Some amp ->
    is_zero amp = true ->
    bin_value L prog false z = Some neg_infinity /\
    is_finite neg_infinity = false /\
    forall st i,
      text_of (file_write st {| SampleBin.val := neg_infinity; SampleBin.id := i |})
        = Some (fmt_d (i + 1) +:+ TAB +:+ "-inf" +:+ NL)%string.
Proof.
  intros prog z amp Hamp Hzero. unfold bin_value. rewrite Hamp. simpl.
  destruct amp as [sg| | |]; try discriminate.
  unfold level. simpl. rewrite log10_zero.
  repeat split; reflexivity.
Qed.

End SinkProperties.

(** ** The properties on concrete batches *)




(** C8.  The data write of the plot sink is the line of the file sink
    with its two arguments swapped: [gnuplot_exec("%d\t%f\n", db, i+1)]
    against [fprintf(file, "%d\t%f\n", i+1, db)].  On the batch of the
    example, in rtl_fftx with both sinks on, the plot channel gets the
    directive, four data writes, [e] and a flush; each data write hands the
    value to [%d] and the index plus one to [%f], for which C defines no
    text, while the same call with the arguments in the order of the format
    - the order the file sink, given the same bins, has them in - is the
    line <index+1><TAB><value>.  The line <value><TAB><index> of the
    interface description is neither. *)
Theorem C8_plot_data_write_swaps_arguments :
  on_stream (Some Gnuplot)
    (added (demo_started rtl_fftx)
       (create_fft Reference.ref_libs 4 rtl_fftx 4 example_batch zero_junk
          (demo_started rtl_fftx)))
  = [Vfprintf (Some Gnuplot) plot_command [];
     Vfprintf (Some Gnuplot) bin_line [ADouble ten; AInt 1];
     Vfprintf (Some Gnuplot) bin_line [ADouble ten; AInt 2];
     Vfprintf (Some Gnuplot) bin_line [ADouble ten; AInt 3];
     Vfprintf (Some Gnuplot) bin_line [ADouble ten; AInt 4];
     Vfprintf (Some Gnuplot) ("e" +:+ NL) [];
     Fflush (Some Gnuplot)]
  /\ on_stream (Some (Opened "fft.txt"))
       (added (demo_started rtl_fftx)
          (create_fft Reference.ref_libs 4 rtl_fftx 4 example_batch zero_junk
             (demo_started rtl_fftx)))
     = [Vfprintf (Some (Opened "fft.txt")) bin_line [AInt 1; ADouble ten];
        Vfprintf (Some (Opened "fft.txt")) bin_line [AInt 2; ADouble ten];
        Vfprintf (Some (Opened "fft.txt")) bin_line [AInt 3; ADouble ten];
        Vfprintf (Some (Opened "fft.txt")) bin_line [AInt 4; ADouble ten]]
  /\ bin_line = ("%d" +:+ TAB +:+ "%f" +:+ NL)%string
  /\ text_of (Vfprintf (Some Gnuplot) bin_line [ADouble ten; AInt 1]) = None
  /\ text_of (Vfprintf (Some Gnuplot) bin_line [AInt 1; ADouble ten])
     = Some ("1" +:+ TAB +:+ "10.000000" +:+ NL)%string
  /\ spec_plot_line {| SampleBin.val := ten; SampleBin.id := 0 |}
     = ("10.000000" +:+ TAB +:+ "0" +:+ NL)%string.
Proof.
  split; [vm_compute; reflexivity|].
  split; [vm_compute; reflexivity|].
  split; [reflexivity|].
  split; [vm_compute; reflexivity|].
  split; vm_compute; reflexivity.
Qed.

(** C3 (witness): the transform output 0+0j in rtl_fftx. *)
Lemma C3_zero_magnitude_level_witness :
  bin_value Reference.ref_libs rtl_fftx false (of_Z 0, of_Z 0) = Some neg_infinity /\
  is_finite neg_infinity = false /\
  forall st i,
    text_of (file_write st {| SampleBin.val := neg_infinity; SampleBin.id := i |})
      = Some (fmt_d (i + 1) +:+ TAB +:+ "-inf" +:+ NL)%string.
Proof.
  apply (C3_zero_magnitude_level Reference.ref_libs rtl_fftx (of_Z 0, of_Z 0) (S754_zero false));
    reflexivity.
Defined.

(** C3 (counterexample).  The zero-signal batch [127,127] of rtl_fftx with
    N = 1 has one bin, of magnitude 0; in level mode its emitted value is
    not finite. *)
Lemma C3_counterexample :
  magnitude Reference.ref_libs rtl_fftx (of_Z 0, of_Z 0) = Some (S754_zero false) /\
  ~ (forall dbs,
       spectrum Reference.ref_libs rtl_fftx false 1 [127; 127] zero_junk = Some dbs ->
       Forall (fun db => is_finite db = true) dbs).
Proof.
  split; [reflexivity|]. intros H.
  specialize (H [neg_infinity] eq_refl). inversion H as [|? ? Hfin _]. discriminate.
Qed.

(** C4 (evaluation at the failing input).  For the batch [128,127] of
    rtl_map with N = 1 the transform output is 0.66 - 0.34j.  Both squares
    are below 1 and are stored in the ints [out_r] and [out_i] as 0, so the
    magnitude comes out as 0 and so does the emitted value in magnitude
    mode, while sqrt(re^2 + im^2) is about 0.7424. *)
Theorem C4_magnitude_truncates_squares :
  in_array rtl_map 1 [128; 127] zero_junk = Some [iq_sample rtl_map 128 127] /\
  fftw_dft Reference.ref_libs [iq_sample rtl_map 128 127] = [iq_sample rtl_map 128 127] /\
  magnitude Reference.ref_libs rtl_map (iq_sample rtl_map 128 127) = Some (S754_zero false) /\
  spectrum Reference.ref_libs rtl_map true 1 [128; 127] zero_junk = Some [S754_zero false] /\
  spec_magnitude (iq_sample rtl_map 128 127) = S754_finite false 6687200729104384 (-53) /\
  fmt_f (spec_magnitude (iq_sample rtl_map 128 127)) = "0.742428"%string.
Proof. repeat split; vm_compute; reflexivity. Qed.

(** C5 (evaluation at the failing input).  Two transforms of rtl_fftx on
    the same batch [127,127,127,127] with the same configuration (N = 2,
    magnitude mode) whose memory block for [in] held 0 the first time and
    3+4j the second time produce the bins (0, 0) and (5, 5): slot 1 of [in]
    is never written, so the bins are not a function of the batch and the
    configuration. *)
Theorem C5_bins_depend_on_leftover_memory :
  spectrum Reference.ref_libs rtl_fftx true 2 [127; 127; 127; 127] zero_junk
    = Some [S754_zero false; S754_zero false] /\
  spectrum Reference.ref_libs rtl_fftx true 2 [127; 127; 127; 127] (fun _ => (of_Z 3, of_Z 4))
    = Some [of_Z 5; of_Z 5] /\
  in_array rtl_fftx 2 [127; 127; 127; 127] (fun _ => (of_Z 3, of_Z 4))
    = Some [(of_Z 0, of_Z 0); (of_Z 3, of_Z 4)].
Proof. repeat split; vm_compute; reflexivity. Qed.

(** ** Shutdown *)

Lemma do_exit_run s :
  exists s',
    do_exit s = Exited 0 s' /\
    advanced s s' (shutdown_events s) (sample_bin s) (read_count s).
Proof.
  unfold do_exit, shutdown_events, closes_file, advanced.
  unfold bind, get, when, call, exit, ret. simpl.
  destruct (_use_gnuplot (opts s)) eqn:Hg; simpl; rewrite ?Hg;
    destruct (_filename (opts s)) as [f|] eqn:Hf; simpl; rewrite ?Hf;
    try destruct (String.eqb f "-") eqn:Hd; simpl;
    eexists; (split; [reflexivity|]); simpl;
    rewrite <- ?app_assoc; simpl; rewrite ?app_nil_r;
    repeat split; solve [reflexivity | assumption | congruence].
Qed.

Lemma added_exited {A} s s' c evs bins rc :
  advanced s s' evs bins rc -> added s (@Exited A c s') = evs.
Proof.
  intros (_ & _ & _ & _ & _ & _ & _ & Ht). simpl. rewrite Ht.
  apply drop_app_length.
Qed.

(** [open_file] leaves [file] as [file_sink_ready] describes it. *)
Lemma open_file_ready w s r s' :
  file s = None ->
  open_file w s = Ok r s' -> file_sink_ready s' /\ opts s' = opts s.
Proof.
  unfold open_file, file_sink_ready, bind, get, modify, call, ret, log_error, print_log, exit.
  intros Hnone. simpl.
  destruct (_filename (opts s)) as [f|] eqn:Hf; simpl.
  - destruct (String.eqb f "-") eqn:Hd; simpl.
    + intros [= <- <-]. simpl. rewrite Hf, Hd. split; reflexivity.
    + destruct (fopen_ok w); simpl; [|discriminate].
      intros [= <- <-]. simpl. rewrite Hf, Hd. split; reflexivity.
  - intros [= <- <-]. rewrite Hf. split; [exact Hnone | reflexivity].
Qed.

(** The only [fclose] of the sequence is the guarded one, on [file]. *)
Lemma in_shutdown_fclose s h :
  In (Fclose h) (shutdown_events s) <-> closes_file s = true /\ h = file s.
Proof.
  unfold shutdown_events.
  destruct (_use_gnuplot (opts s)), (closes_file s); simpl; split.
  all: try (intros [H|[H|[H|H]]]; try discriminate; try contradiction;
            injection H as <-; split; reflexivity).
  all: try (intros [H|[H|H]]; try discriminate; try contradiction;
            injection H as <-; split; reflexivity).
  all: try (intros [H|H]; try discriminate; contradiction).
  all: try (intros [H _]; discriminate).
  all: intros [_ ->]; auto.
Qed.

(** With its sinks open [do_exit] makes no call on a null stream. *)
Lemma shutdown_null_free s :
  sinks_open s -> existsb on_null_stream (shutdown_events s) = false.
Proof.
  intros [Hp Hf]. unfold shutdown_events.
  destruct (_use_gnuplot (opts s)), (closes_file s);
    cbn [app existsb on_null_stream orb];
    try (destruct (gnuplotPipe s) as [p|]; [|exfalso; apply Hp; reflexivity]);
    try (destruct (file s) as [h|]; [|exfalso; apply Hf; reflexivity]);
    reflexivity.
Qed.

(** The test before [fclose] looks at the name, never at [file]. *)
Lemma do_exit_tests_the_name s :
  closes_file s = true -> In (Fclose (file s)) (added s (do_exit s)).
Proof.
  intros Hc. destruct (do_exit_run s) as (s' & Hrun & Hadv).
  rewrite Hrun, (added_exited _ _ _ _ _ _ Hadv). apply in_shutdown_fclose.
  split; [exact Hc | reflexivity].
Qed.

(** With its sinks open, and [file] as [open_file] leaves it, the shutdown
    sequence is the one of the interface description: the file is closed
    exactly when it is an open regular file, and the process exits with
    status 0. *)
Lemma do_exit_open_sinks s :
  sinks_open s ->
  file_sink_ready s ->
  exists s',
    in_c do_exit s = Exited 0 s' /\
    forall h,
      In (Fclose h) (added s (do_exit s)) <->
      exists name, h = Some (Opened name) /\ file s = Some (Opened name).
Proof.
  intros Hopen Hready. destruct (do_exit_run s) as (s' & Hrun & Hadv).
  exists s'. split.
  { unfold in_c. rewrite Hrun, (added_exited _ _ _ _ _ _ Hadv).
    rewrite (shutdown_null_free s Hopen). reflexivity. }
  intros h.
  rewrite Hrun, (added_exited _ _ _ _ _ _ Hadv), in_shutdown_fclose.
  unfold closes_file. unfold file_sink_ready in Hready.
  destruct (_filename (opts s)) as [f|]; simpl.
  - destruct (String.eqb f "-") eqn:Hd; simpl; rewrite Hready.
    + split; [intros [H _]; discriminate | intros (name & _ & H); discriminate].
    + split.
      * intros [_ ->]. exists f. split; reflexivity.
      * intros (name & -> & H). split; [reflexivity | symmetry; exact H].
  - rewrite Hready.
    split; [intros [H _]; discriminate | intros (name & _ & H); discriminate].
Qed.

(** C9.  [do_exit] decides on the file name, not on whether the file is
    open.  When it runs before [open_file] - from [sig_handler], which
    [main] installs first - in a run with [-D] and the file name
    [fft.txt], [file] is still null and the calls are
    [rtlsdr_cancel_async] and [fclose] on the null pointer: a sink that is
    not open is closed, and the process, undefined from that call on, does
    not get to [exit(0)]. *)
Theorem C9_do_exit_closes_unopened_file :
  file (initial 4 (with_use_gnuplot false demo_args) 14) = None /\
  closes_file (initial 4 (with_use_gnuplot false demo_args) 14) = true /\
  reached
      (added (initial 4 (with_use_gnuplot false demo_args) 14)
         (do_exit (initial 4 (with_use_gnuplot false demo_args) 14)))
    = [RtlsdrCancelAsync; Fclose None] /\
  in_c do_exit (initial 4 (with_use_gnuplot false demo_args) 14) = Undefined /\
  reached
      (added (initial 4 (with_use_gnuplot false demo_args) 14)
         (sig_handler 2 (initial 4 (with_use_gnuplot false demo_args) 14)))
    = [Log INFO ("Signal caught, exiting..." +:+ NL) []; RtlsdrCancelAsync; Fclose None].
Proof.
  split; [reflexivity|].
  split; [reflexivity|].
  split; [vm_compute; reflexivity|].
  split; vm_compute; reflexivity.
Qed.

(** ** Gain selection in rtl_map *)

Lemma last_cons_default (l : list Z) : forall x d d',
  List.last (x :: l) d = List.last (x :: l) d'.
Proof.
  induction l as [|y l IH]; intros x d d'; [reflexivity|].
  change (List.last (y :: l) d = List.last (y :: l) d'). apply IH.
Qed.

Lemma last_filter_cons (f : Z -> bool) g rest d :
  List.last (List.filter f (g :: rest)) d
    = List.last (List.filter f rest) (if f g then g else d).
Proof.
  simpl. destruct (f g); [|reflexivity].
  destruct (List.filter f rest) as [|x l]; [reflexivity|].
  change (List.last (x :: l) d = List.last (x :: l) g). apply last_cons_default.
Qed.

(** The loop leaves in [_gain] the last entry strictly between 10 and 30,
    and prints every entry. *)
Lemma gain_loop_run gains : forall s,
  exists s',
    gain_loop gains s = Ok tt s' /\
    opts s' = opts s /\ _write_file s' = _write_file s /\
    gnuplotPipe s' = gnuplotPipe s /\ file s' = file s /\
    read_count s' = read_count s /\ sample_bin s' = sample_bin s /\
    _gain s' = chosen_gain gains (_gain s) /\
    trace s' = trace s ++ gain_prints gains.
Proof.
  induction gains as [|g rest IH]; intros s.
  - exists s. simpl. rewrite app_nil_r. repeat split; reflexivity.
  - simpl. unfold bind at 1. unfold when, modify, ret.
    unfold chosen_gain. rewrite last_filter_cons. fold (chosen_gain rest).
    destruct ((10 <? g) && (g <? 30)); unfold bind at 1, call at 1;
      match goal with
      | |- context [gain_loop rest ?st] =>
          destruct (IH st) as (s' & Hrun & Ho & Hw & Hp & Hf & Hc & Hb & Hg & Ht)
      end;
      exists s'; rewrite Hrun; simpl in *;
      rewrite Ht, <- app_assoc; repeat split; assumption || reflexivity.
Qed.

Lemma filter_gain_prints f gains :
  (forall st fmt a, f (Vfprintf st fmt a) = false) ->
  List.filter f (gain_prints gains) = [].
Proof.
  intros Hf. induction gains as [|g rest IH]; simpl; [reflexivity|].
  rewrite Hf. exact IH.
Qed.

(** The listing of the devices only logs. *)
Lemma device_listing_run (body : Z -> proc unit) count : forall i s,
  (forall j st, exists lvl fmt a, body j st = Ok tt (emit (Log lvl fmt a) st)) ->
  exists s' logs,
    for_each i count body s = Ok tt s' /\
    opts s' = opts s /\ _gain s' = _gain s /\ _write_file s' = _write_file s /\
    gnuplotPipe s' = gnuplotPipe s /\ file s' = file s /\
    read_count s' = read_count s /\ sample_bin s' = sample_bin s /\
    trace s' = trace s ++ logs /\
    List.filter is_set_gain logs = [].
Proof.
  induction count as [|count IH]; intros i s Hbody.
  - exists s, []. simpl. rewrite app_nil_r. repeat split; reflexivity.
  - simpl. unfold bind. destruct (Hbody i s) as (lvl & fmt & a & ->).
    destruct (IH (i + 1) (emit (Log lvl fmt a) s) Hbody)
      as (s' & logs & Hrun & Ho & Hg & Hw & Hp & Hf & Hc & Hb & Ht & Hfil).
    exists s', (Log lvl fmt a :: logs). rewrite Hrun. simpl in *.
    rewrite Ht, <- app_assoc. repeat split; assumption || reflexivity.
Qed.

Lemma configure_rtlsdr_rtl_map_run w s :
  device_count w <> 0 ->
  0 <= open_result w ->
  _gain s <> 0 ->
  exists r s' evs,
    configure_rtlsdr rtl_map w s = Ok r s' /\
    _gain s' = chosen_gain (tuner_gains w) (_gain s) /\
    trace s' = trace s ++ evs /\
    List.filter is_set_gain evs
      = [RtlsdrSetTunerGain (chosen_gain (tuner_gains w) (_gain s))].
Proof.
  intros Hdev Hopen Hgain. unfold configure_rtlsdr.
  replace (device_count w =? 0) with false by (symmetry; apply Z.eqb_neq; exact Hdev).
  unfold bind at 1, log_info at 1, print_log at 1, call at 1.
  unfold bind at 1, log_info at 1, print_log at 1, call at 1.
  unfold bind at 1, get at 1.
  unfold bind at 1.
  lazymatch goal with
  | |- context [for_each 0 ?c ?b ?st] => set (listing := b); set (st0 := st)
  end.
  destruct (device_listing_run listing (Z.to_nat (device_count w)) 0 st0)
    as (s1 & logs & Hrun & Ho & Hg & Hw & Hp & Hf & Hc & Hb & Ht & Hfil).
  { intros j st. unfold listing. simpl. destruct (_log_colors (opts s));
      unfold log_info, print_log, call; do 3 eexists; reflexivity. }
  rewrite Hrun. subst listing st0. simpl in Ho, Hg, Hw, Hp, Hf, Hc, Hb, Ht.
  replace (open_result w <? 0) with false by (symmetry; apply Z.ltb_ge; exact Hopen).
  unfold bind, get, call, log_info, log_fatal, print_log, ret. simpl.
  rewrite Hg.
  replace (_gain s =? 0) with false by (symmetry; apply Z.eqb_neq; exact Hgain).
  lazymatch goal with
  | |- context [gain_loop _ ?st] => set (st1 := st)
  end.
  destruct (gain_loop_run (tuner_gains w) st1)
    as (s2 & Hrun2 & Ho2 & Hw2 & Hp2 & Hf2 & Hc2 & Hb2 & Hg2 & Ht2).
  rewrite Hrun2. subst st1. simpl in Hg2, Ht2. rewrite Hg in Hg2. simpl.
  rewrite Hg2.
  destruct (reset_result w <? 0); simpl; do 3 eexists;
    (split; [reflexivity|]); simpl;
    (split; [exact Hg2|]);
    rewrite Ht2, Ht; simpl; rewrite <- !app_assoc;
    (split; [reflexivity|]); simpl;
    rewrite !List.filter_app, Hfil; simpl;
    rewrite !List.filter_app, filter_gain_prints by reflexivity;
    simpl; rewrite ?Hg2; reflexivity.
Qed.

(** C10.  With a nonzero gain configured and a receiver that opens,
    [configure_rtlsdr] of rtl_map returns, and the one gain it sets on the
    tuner is the last entry of the supported-gain table that lies strictly
    between 10 and 30 tenths of a dB when there is such an entry, and the
    configured gain otherwise; [_gain] holds that value from then on. *)
Theorem C10_rtl_map_gain_is_overwritten :
  forall w s,
    device_count w <> 0 ->
    0 <= open_result w ->
    _gain s <> 0 ->
    exists r s',
      configure_rtlsdr rtl_map w s = Ok r s' /\
      _gain s' = chosen_gain (tuner_gains w) (_gain s) /\
      List.filter is_set_gain (added s (configure_rtlsdr rtl_map w s))
        = [RtlsdrSetTunerGain (chosen_gain (tuner_gains w) (_gain s))].
Proof.
  intros w s Hdev Hopen Hgain.
  destruct (configure_rtlsdr_rtl_map_run w s Hdev Hopen Hgain)
    as (r & s' & evs & Hrun & Hg & Ht & Hfil).
  exists r, s'. rewrite Hrun. simpl. rewrite Ht, drop_app_length. auto.
Qed.

(** C10 (witness): the configured gain 14 and the table of [demo_world]. *)
Lemma C10_rtl_map_gain_is_overwritten_witness :
  exists r s',
    configure_rtlsdr rtl_map demo_world (initial 4 demo_args 14) = Ok r s' /\
    _gain s' = chosen_gain (tuner_gains demo_world) (_gain (initial 4 demo_args 14)) /\
    List.filter is_set_gain
        (added (initial 4 demo_args 14)
           (configure_rtlsdr rtl_map demo_world (initial 4 demo_args 14)))
      = [RtlsdrSetTunerGain
           (chosen_gain (tuner_gains demo_world) (_gain (initial 4 demo_args 14)))].
Proof.
  apply (C10_rtl_map_gain_is_overwritten demo_world (initial 4 demo_args 14));
    [discriminate | discriminate | discriminate].
Defined.

(** With the table of the example the configured 1.4 dB becomes 2.7 dB. *)
Example chosen_gain_demo :
  chosen_gain (tuner_gains demo_world) 14 = 27 /\ chosen_gain [0; 9; 37] 14 = 14.
Proof. split; reflexivity. Qed.

(** ** The acquisition loop of rtl_map *)

Lemma count_transforms_app tr1 tr2 :
  count_transforms (tr1 ++ tr2) = (count_transforms tr1 + count_transforms tr2)%nat.
Proof. unfold count_transforms. rewrite List.filter_app, length_app. reflexivity. Qed.

Lemma count_transforms_bins s dbs : forall i, count_transforms (bins_events s i dbs) = O.
Proof.
  induction dbs as [|db dbs IH]; intros i; simpl; [reflexivity|].
  rewrite count_transforms_app, IH. unfold bin_events.
  destruct (_write_file s), (_use_gnuplot (opts s)); reflexivity.
Qed.

(** One [create_fft] is one transform. *)
Lemma count_transforms_create_fft prog s sample_c dbs :
  count_transforms (create_fft_events prog s sample_c dbs) = 1%nat.
Proof.
  unfold create_fft_events. rewrite !count_transforms_app, count_transforms_bins.
  unfold transform_log.
  destruct prog, (_cont_read (opts s)), (_use_gnuplot (opts s)); reflexivity.
Qed.

Lemma count_transforms_shutdown s : count_transforms (done_log :: shutdown_events s) = O.
Proof.
  unfold shutdown_events.
  destruct (_use_gnuplot (opts s)), (closes_file s); reflexivity.
Qed.

Lemma shutdown_events_frame s s' :
  opts s' = opts s -> gnuplotPipe s' = gnuplotPipe s -> file s' = file s ->
  shutdown_events s' = shutdown_events s.
Proof. unfold shutdown_events, closes_file. intros -> -> ->. reflexivity. Qed.

Section Acquisition.

Variable L : libs.
Variable NUM_READ : Z.
Hypothesis NUM_READ_pos : 1 <= NUM_READ.
Hypothesis request_fits : NUM_READ * NUM_READ <= Cint.INT_MAX.

Lemma request_length_rtl_map : request_length NUM_READ rtl_map = Some (NUM_READ * NUM_READ).
Proof.
  unfold request_length, n_read, Cint.mul, Cint.checked, Cint.in_int.
  replace (Cint.INT_MIN <=? NUM_READ * NUM_READ) with true
    by (symmetry; apply Z.leb_le; unfold Cint.INT_MIN; nia).
  replace (NUM_READ * NUM_READ <=? Cint.INT_MAX) with true
    by (symmetry; apply Z.leb_le; exact request_fits).
  reflexivity.
Qed.

(** From a state with [read_count = c] the loop transforms
    [max 1 (_num_read - c)] further batches and then shuts down. *)
Lemma deliver_rtl_map_run : forall supply s,
  _cont_read (opts s) = true ->
  0 <= read_count s < Cint.INT_MAX ->
  _num_read (opts s) <= Cint.INT_MAX ->
  Cint.in_int (1000 * _refresh_rate (opts s)) = true ->
  (Z.to_nat (Z.max 1 (_num_read (opts s) - read_count s)) <= length supply)%nat ->
  forallb (batch_ok L rtl_map (_mag_graph (opts s)) NUM_READ)
    (take (Z.to_nat (Z.max 1 (_num_read (opts s) - read_count s))) supply) = true ->
  exists s' tr,
    deliver L NUM_READ rtl_map supply s = Exited 0 s' /\
    trace s' = trace s ++ tr ++ done_log :: shutdown_events s /\
    count_transforms tr = Z.to_nat (Z.max 1 (_num_read (opts s) - read_count s)).
Proof.
  induction supply as [|[buf junk] rest IH]; intros s Hcont Hrc Hk Hus Hlen Hok.
  - simpl in Hlen. lia.
  - set (m := Z.to_nat (Z.max 1 (_num_read (opts s) - read_count s))) in *.
    assert (Hm : (1 <= m)%nat) by (unfold m; lia).
    destruct m as [|m'] eqn:Em; [lia|]. simpl in Hok, Hlen.
    apply andb_true_iff in Hok as [Hb Hok]. unfold batch_ok in Hb. simpl in Hb.
    destruct (spectrum L rtl_map (_mag_graph (opts s)) NUM_READ buf junk)
      as [dbs|] eqn:Hs; [|discriminate].
    destruct (create_fft_run L NUM_READ rtl_map NUM_READ buf junk s dbs)
      as (s1 & Hrun & (Ho & Hg & Hw & Hp & Hf & Hc & Hbins & Ht) & _);
      [lia | exact Hs | |].
    { unfold Cint.in_int, Cint.INT_MIN, Cint.INT_MAX in *.
      apply andb_true_iff; split; apply Z.leb_le; lia. }
    simpl deliver. unfold async_read_callback, n_read.
    unfold bind at 1. unfold bind at 1. rewrite Hrun.
    unfold bind at 1, get at 1. unfold bind at 1, get at 1.
    unfold bind at 1, get at 1. unfold bind at 1, get at 1.
    rewrite Ho, Hc, Hcont. simpl andb.
    destruct (read_count s + 1 <? _num_read (opts s)) eqn:Hlt.
    + apply Z.ltb_lt in Hlt. cbn [andb].
      unfold bind at 1, lift at 1, Cint.mul, Cint.checked. rewrite Hus.
      unfold ret at 1. unfold bind at 1, call at 1.
      unfold bind at 1, read_async_call at 1.
      unfold bind at 1, lift at 1. rewrite request_length_rtl_map.
      unfold ret at 1. unfold call at 1. cbv beta iota.
      match goal with
      | |- context [deliver L NUM_READ rtl_map rest ?st] => set (s3 := st)
      end.
      assert (Hm' : Z.to_nat (Z.max 1 (_num_read (opts s3) - read_count s3)) = m').
      { subst s3. simpl. rewrite Ho, Hc. lia. }
      destruct (IH s3) as (s' & tr & Hrun' & Ht' & Hcount).
      * subst s3. simpl. rewrite Ho. exact Hcont.
      * subst s3. simpl. rewrite Hc. lia.
      * subst s3. simpl. rewrite Ho. exact Hk.
      * subst s3. simpl. rewrite Ho. exact Hus.
      * rewrite Hm'. lia.
      * rewrite Hm'. replace (opts s3) with (opts s) by (subst s3; simpl; congruence).
        exact Hok.
      * rewrite Hrun'.
        exists s', (create_fft_events rtl_map s NUM_READ dbs ++
                    [Usleep (1000 * _refresh_rate (opts s));
                     RtlsdrReadAsync 0 (NUM_READ * NUM_READ)] ++ tr).
        split; [reflexivity|]. split.
        { assert (Ht3 : trace s3 = trace s1 ++
                   [Usleep (1000 * _refresh_rate (opts s));
                    RtlsdrReadAsync 0 (NUM_READ * NUM_READ)]).
          { subst s3. simpl. rewrite <- app_assoc. reflexivity. }
          rewrite Ht', Ht3, Ht.
          rewrite (shutdown_events_frame s s3) by (subst s3; simpl; congruence).
          rewrite <- !app_assoc. reflexivity. }
        { rewrite count_transforms_app, count_transforms_create_fft.
          rewrite (count_transforms_app [_; _] tr). rewrite Hcount, Hm'.
          reflexivity. }
    + apply Z.ltb_ge in Hlt. cbn [andb].
      unfold bind at 1, log_info at 1, print_log at 1, call at 1.
      destruct (do_exit_run (emit done_log s1))
        as (s' & Hrun' & (_ & _ & _ & _ & _ & _ & _ & Ht')).
      fold done_log. rewrite Hrun'.
      exists s', (create_fft_events rtl_map s NUM_READ dbs).
      split; [reflexivity|]. split.
      { rewrite Ht'.
        rewrite (shutdown_events_frame s (emit done_log s1)) by (simpl; congruence).
        cbn [trace emit]. rewrite Ht, <- !app_assoc. reflexivity. }
      { rewrite count_transforms_create_fft. lia. }
Qed.

End Acquisition.

Section BoundedReads.

Variable L : libs.
Variable NUM_READ : Z.

(** C6 (amended).  In continuous mode of rtl_map with maximum batch count
    K, started with no batch read yet and fed well-formed batches, the
    acquisition loop runs the transform exactly max(1, K) times, that is K
    times whenever K >= 1 and once when K <= 0, then logs and runs the
    shutdown sequence, which ends the process with status 0; no transform
    follows. *)
Theorem C6_bounded_continuous_reads :
  forall supply s,
    1 <= NUM_READ ->
    NUM_READ * NUM_READ <= Cint.INT_MAX ->
    _cont_read (opts s) = true ->
    read_count s = 0 ->
    _num_read (opts s) <= Cint.INT_MAX ->
    Cint.in_int (1000 * _refresh_rate (opts s)) = true ->
    (Z.to_nat (Z.max 1 (_num_read (opts s))) <= length supply)%nat ->
    forallb (batch_ok L rtl_map (_mag_graph (opts s)) NUM_READ)
      (take (Z.to_nat (Z.max 1 (_num_read (opts s)))) supply) = true ->
    exists s' tr,
      rtlsdr_read_async L NUM_READ rtl_map supply s = Exited 0 s' /\
      added s (rtlsdr_read_async L NUM_READ rtl_map supply s)
        = RtlsdrReadAsync 0 (NUM_READ * NUM_READ) :: tr ++ done_log :: shutdown_events s /\
      count_transforms tr = Z.to_nat (Z.max 1 (_num_read (opts s))) /\
      count_transforms (added s (rtlsdr_read_async L NUM_READ rtl_map supply s))
        = Z.to_nat (Z.max 1 (_num_read (opts s))).
Proof.
  intros supply s Hn Hfit Hcont Hrc Hk Hus Hlen Hok.
  set (s0 := emit (RtlsdrReadAsync 0 (NUM_READ * NUM_READ)) s).
  assert (Hall : rtlsdr_read_async L NUM_READ rtl_map supply s
                 = deliver L NUM_READ rtl_map supply s0).
  { unfold rtlsdr_read_async, read_async_call, bind, lift.
    rewrite (request_length_rtl_map NUM_READ Hn Hfit). reflexivity. }
  rewrite Hall.
  destruct (deliver_rtl_map_run L NUM_READ Hn Hfit supply s0)
    as (s' & tr & Hrun & Ht & Hcount).
  - exact Hcont.
  - subst s0. simpl. rewrite Hrc. unfold Cint.INT_MAX. lia.
  - exact Hk.
  - exact Hus.
  - subst s0. simpl. rewrite Hrc, Z.sub_0_r. exact Hlen.
  - subst s0. simpl. rewrite Hrc, Z.sub_0_r. exact Hok.
  - assert (Hm : Z.to_nat (Z.max 1 (_num_read (opts s0) - read_count s0))
               = Z.to_nat (Z.max 1 (_num_read (opts s)))).
    { subst s0. simpl. rewrite Hrc, Z.sub_0_r. reflexivity. }
    rewrite Hm in Hcount.
    assert (Hadd : drop (length (trace s)) (trace s')
                   = RtlsdrReadAsync 0 (NUM_READ * NUM_READ)
                     :: tr ++ done_log :: shutdown_events s).
    { rewrite Ht. rewrite (shutdown_events_frame s s0) by reflexivity.
      subst s0. cbn [trace emit]. rewrite <- app_assoc. rewrite drop_app_length.
      reflexivity. }
    exists s', tr. rewrite Hrun. cbn [added]. rewrite Hadd.
    split; [reflexivity|]. split; [reflexivity|]. split; [exact Hcount|].
    change (RtlsdrReadAsync 0 (NUM_READ * NUM_READ) :: tr ++ done_log :: shutdown_events s)
      with ([RtlsdrReadAsync 0 (NUM_READ * NUM_READ)] ++ tr ++ done_log :: shutdown_events s).
    rewrite !count_transforms_app, count_transforms_shutdown, Hcount.
    simpl. lia.
Qed.

End BoundedReads.

(** C6 (witness): K = 2 and three batches on offer; two are transformed. *)
Lemma C6_bounded_continuous_reads_witness :
  exists s' tr,
    rtlsdr_read_async Reference.ref_libs 4 rtl_map (batches demo_world) (demo_started rtl_map)
      = Exited 0 s' /\
    added (demo_started rtl_map)
        (rtlsdr_read_async Reference.ref_libs 4 rtl_map (batches demo_world) (demo_started rtl_map))
      = RtlsdrReadAsync 0 (4 * 4)
        :: tr ++ done_log :: shutdown_events (demo_started rtl_map) /\
    count_transforms tr
      = Z.to_nat (Z.max 1 (_num_read (opts (demo_started rtl_map)))) /\
    count_transforms
        (added (demo_started rtl_map)
           (rtlsdr_read_async Reference.ref_libs 4 rtl_map (batches demo_world)
              (demo_started rtl_map)))
      = Z.to_nat (Z.max 1 (_num_read (opts (demo_started rtl_map)))).
Proof.
  apply (C6_bounded_continuous_reads Reference.ref_libs 4 (batches demo_world)
           (demo_started rtl_map));
    [lia | vm_compute; discriminate | reflexivity | reflexivity
    | vm_compute; discriminate | reflexivity | vm_compute; lia
    | vm_compute; reflexivity].
Defined.

(** C6 (counterexample).  With maximum batch count K = 0 in continuous mode
    the loop still runs one transform before it shuts down: one more than
    K. *)
Lemma C6_counterexample :
  _num_read (opts (started rtl_map (limit_args 0))) = 0 /\
  _cont_read (opts (started rtl_map (limit_args 0))) = true /\
  count_transforms
    (added (started rtl_map (limit_args 0))
       (rtlsdr_read_async Reference.ref_libs 4 rtl_map (batches demo_world)
          (started rtl_map (limit_args 0))))
  = 1%nat.
Proof. repeat split; vm_compute; reflexivity. Qed.

(** ** What every call of a run looks like *)

Section TraceInvariant.

Variable P : event -> Prop.

Lemma trace_inv_ret {A} (a : A) : trace_inv P (ret a).
Proof. intros s H. exact H. Qed.

Lemma trace_inv_get {A} (f : process -> A) : trace_inv P (get f).
Proof. intros s H. exact H. Qed.

Lemma trace_inv_exit {A} c : trace_inv P (@exit A c).
Proof. intros s H. exact H. Qed.

Lemma trace_inv_undefined {A} : trace_inv P (@undefined A).
Proof. intros s H. constructor. Qed.

Lemma trace_inv_lift {A} (o : option A) : trace_inv P (lift o).
Proof. destruct o; [apply trace_inv_ret | apply trace_inv_undefined]. Qed.

Lemma trace_inv_call e : P e -> trace_inv P (call e).
Proof.
  intros He s H. simpl. apply Forall_app. split; [exact H | repeat constructor; exact He].
Qed.

Lemma trace_inv_modify f : (forall s, trace (f s) = trace s) -> trace_inv P (modify f).
Proof. intros Hf s H. simpl. rewrite Hf. exact H. Qed.

Lemma trace_inv_bind {A B} (p : proc A) (k : A -> proc B) :
  trace_inv P p -> (forall a, trace_inv P (k a)) -> trace_inv P (bind p k).
Proof.
  intros Hp Hk s H. unfold bind. specialize (Hp s H).
  destruct (p s) as [a s'|c s'|]; simpl in *.
  - apply Hk. exact Hp.
  - exact Hp.
  - constructor.
Qed.

Lemma trace_inv_when b p : trace_inv P p -> trace_inv P (when b p).
Proof. intros Hp. destruct b; [exact Hp | apply trace_inv_ret]. Qed.

Lemma trace_inv_for_each body count : forall i,
  (forall j, trace_inv P (body j)) -> trace_inv P (for_each i count body).
Proof.
  induction count as [|count IH]; intros i Hbody; simpl.
  - apply trace_inv_ret.
  - apply trace_inv_bind; [apply Hbody | intros _; apply IH; exact Hbody].
Qed.

End TraceInvariant.

(** Breaks a piece of the program into its calls; leaves the calls that do
    not satisfy [P] by their form alone. *)
Ltac trace_inv_step :=
  match goal with
  | |- trace_inv _ (bind _ _) => apply trace_inv_bind; [|intros]
  | |- trace_inv _ (ret _) => apply trace_inv_ret
  | |- trace_inv _ (get _) => apply trace_inv_get
  | |- trace_inv _ (exit _) => apply trace_inv_exit
  | |- trace_inv _ undefined => apply trace_inv_undefined
  | |- trace_inv _ (lift _) => apply trace_inv_lift
  | |- trace_inv _ (when _ _) => apply trace_inv_when
  | |- trace_inv _ (modify _) => apply trace_inv_modify; intros; reflexivity
  | |- trace_inv _ (for_each _ _ _) => apply trace_inv_for_each; intros
  | |- trace_inv _ (call _) => apply trace_inv_call; exact I
  | |- trace_inv _ (log_info _ _) => apply trace_inv_call; exact I
  | |- trace_inv _ (log_error _ _) => apply trace_inv_call; exact I
  | |- trace_inv _ (log_fatal _ _) => apply trace_inv_call; exact I
  | |- trace_inv _ (gnuplot_exec _ _) => unfold gnuplot_exec
  | |- trace_inv _ (if ?b then _ else _) => destruct b
  | |- trace_inv _ (match ?x with _ => _ end) => destruct x
  end.

Section Requests.

Variable L : libs.
Variable NUM_READ : Z.

Lemma requests_do_exit : trace_inv (asks_for (NUM_READ * NUM_READ)) do_exit.
Proof. unfold do_exit. repeat trace_inv_step. Qed.

Lemma requests_configure_gnuplot prog w :
  trace_inv (asks_for (NUM_READ * NUM_READ)) (configure_gnuplot NUM_READ prog w).
Proof. unfold configure_gnuplot. repeat trace_inv_step. Qed.

Lemma requests_gain_loop gains : trace_inv (asks_for (NUM_READ * NUM_READ)) (gain_loop gains).
Proof. induction gains as [|g rest IH]; simpl; repeat trace_inv_step; exact IH. Qed.

Lemma requests_print_gains gains : trace_inv (asks_for (NUM_READ * NUM_READ)) (print_gains gains).
Proof. induction gains as [|g rest IH]; simpl; repeat trace_inv_step; exact IH. Qed.

Lemma requests_configure_rtlsdr prog w : trace_inv (asks_for (NUM_READ * NUM_READ)) (configure_rtlsdr prog w).
Proof.
  unfold configure_rtlsdr.
  repeat (trace_inv_step
          || apply requests_gain_loop || apply requests_print_gains).
Qed.

Lemma requests_open_file w : trace_inv (asks_for (NUM_READ * NUM_READ)) (open_file w).
Proof. unfold open_file. repeat trace_inv_step. Qed.

Lemma requests_create_fft prog sample_c buf junk :
  trace_inv (asks_for (NUM_READ * NUM_READ)) (create_fft L NUM_READ prog sample_c buf junk).
Proof.
  unfold create_fft, emit_bin, store_bin. repeat trace_inv_step.
Qed.

(** The one place that issues requests asks for [n_read * n_read] bytes. *)
Lemma requests_read_async_call prog : trace_inv (asks_for (NUM_READ * NUM_READ)) (read_async_call NUM_READ prog).
Proof.
  intros s H. unfold read_async_call, bind, lift.
  destruct (request_length NUM_READ prog) as [len|] eqn:E; simpl; [|constructor].
  apply Forall_app. split; [exact H|]. repeat constructor. simpl.
  unfold request_length, n_read, Cint.mul, Cint.checked in E.
  destruct prog.
  - destruct (Cint.in_int (NUM_READ * NUM_READ)); congruence.
  - destruct (NUM_READ * NUM_READ <? 2 ^ 32); congruence.
Qed.

Lemma requests_async_read_callback prog buf junk request :
  trace_inv (asks_for (NUM_READ * NUM_READ)) request ->
  trace_inv (asks_for (NUM_READ * NUM_READ)) (async_read_callback L NUM_READ prog buf junk request).
Proof.
  intros Hreq. unfold async_read_callback.
  repeat (trace_inv_step || apply requests_create_fft || apply requests_do_exit
          || exact Hreq).
Qed.

Lemma requests_deliver prog supply : trace_inv (asks_for (NUM_READ * NUM_READ)) (deliver L NUM_READ prog supply).
Proof.
  induction supply as [|[buf junk] rest IH]; simpl.
  - apply trace_inv_ret.
  - apply trace_inv_bind.
    + apply requests_async_read_callback.
      apply trace_inv_bind; [apply requests_read_async_call | intros _; exact IH].
    + intros _. destruct prog; [apply trace_inv_ret | exact IH].
Qed.

Lemma requests_main prog w : trace_inv (asks_for (NUM_READ * NUM_READ)) (main L NUM_READ prog w).
Proof.
  unfold main, rtlsdr_read_async.
  repeat (apply trace_inv_bind; [|intros _]).
  - apply requests_configure_gnuplot.
  - apply requests_configure_rtlsdr.
  - apply requests_open_file.
  - apply requests_read_async_call.
  - apply requests_deliver.
Qed.

(** C7 (amended).  In every run of either program, from the start of
    [main] to its return or exit, each batch request issued to the receiver
    asks for exactly N * N bytes, N being the FFT size [NUM_READ]; with the
    value 512 of the sources that is 262144 bytes, not 2 * 512. *)
Theorem C7_requests_ask_for_n_read_squared :
  forall prog w a gain,
    Forall (asks_for (NUM_READ * NUM_READ))
      (outcome_trace (main L NUM_READ prog w (initial NUM_READ a gain))).
Proof.
  intros prog w a gain. apply requests_main. constructor.
Qed.

End Requests.

(** C7 (counterexample).  With [NUM_READ] = 512 and a receiver that opens,
    [main] of rtl_map issues the request [rtlsdr_read_async(dev, ..., 0,
    262144)]: not every request asks for 2 * 512 = 1024 bytes. *)
Lemma C7_counterexample :
  In (RtlsdrReadAsync 0 262144)
    (outcome_trace
       (main Reference.ref_libs NUM_READ_shipped rtl_map
          {| popen_ok := true; fopen_ok := true; device_count := 1;
             device_name := fun _ => "Generic RTL2832U"%string; open_result := 0;
             tuner_gains := [0; 9; 14; 27]; reset_result := 0; batches := [] |}
          (initial NUM_READ_shipped demo_args 14)))
  /\ ~ Forall (asks_for (2 * NUM_READ_shipped))
       (outcome_trace
          (main Reference.ref_libs NUM_READ_shipped rtl_map
             {| popen_ok := true; fopen_ok := true; device_count := 1;
                device_name := fun _ => "Generic RTL2832U"%string; open_result := 0;
                tuner_gains := [0; 9; 14; 27]; reset_result := 0; batches := [] |}
             (initial NUM_READ_shipped demo_args 14))).
Proof.
  assert (Hin : In (RtlsdrReadAsync 0 262144)
    (outcome_trace
       (main Reference.ref_libs NUM_READ_shipped rtl_map
          {| popen_ok := true; fopen_ok := true; device_count := 1;
             device_name := fun _ => "Generic RTL2832U"%string; open_result := 0;
             tuner_gains := [0; 9; 14; 27]; reset_result := 0; batches := [] |}
          (initial NUM_READ_shipped demo_args 14)))).
  { vm_compute. repeat (try (left; reflexivity); right). }
  split; [exact Hin|]. intros H.
  rewrite List.Forall_forall in H. specialize (H _ Hin). simpl in H. discriminate.
Qed.

(** * Further properties of the two programs *)

(** ** What [create_fft] reads *)

Lemma fill_in_same_bytes prog count : forall i n buf buf' inb,
  0 <= n ->
  (forall j, (j <= count)%nat ->
     buf !! (Z.to_nat n + j)%nat = buf' !! (Z.to_nat n + j)%nat) ->
  fill_in prog count i n buf inb = fill_in prog count i n buf' inb.
Proof.
  induction count as [|count IH]; intros i n buf buf' inb Hn H; simpl; [reflexivity|].
  assert (H0 := H O). assert (H1 := H 1%nat).
  replace (Z.to_nat n + 0)%nat with (Z.to_nat n) in H0 by lia.
  replace (Z.to_nat n + 1)%nat with (Z.to_nat (n + 1)) in H1 by lia.
  rewrite <- H0, <- H1 by lia.
  destruct (buf !! Z.to_nat n) as [b0|]; [|reflexivity].
  destruct (buf !! Z.to_nat (n + 1)) as [b1|]; [|reflexivity].
  simpl. apply IH; [lia|]. intros j Hj.
  replace (Z.to_nat (n + 1) + j)%nat with (Z.to_nat n + S j)%nat by lia.
  apply H. lia.
Qed.

Lemma in_array_reads_prefix prog sample_c buf junk :
  in_array prog sample_c buf junk
    = in_array prog sample_c (take (S (fill_rounds sample_c)) buf) junk.
Proof.
  unfold in_array. apply fill_in_same_bytes; [lia|].
  intros j Hj. simpl (Z.to_nat 0 + j)%nat.
  symmetry. apply lookup_take_lt. lia.
Qed.

(** X1.  Of the batch it is given, [create_fft] reads the first
    [ceil(sample_c / 2) + 1] bytes only (257 of the 262144 for 512): the
    rest of the batch has no effect on anything it does. *)
Theorem create_fft_reads_prefix :
  forall L NUM_READ prog sample_c buf junk,
    create_fft L NUM_READ prog sample_c buf junk
      = create_fft L NUM_READ prog sample_c (take (S (fill_rounds sample_c)) buf) junk.
Proof.
  intros. unfold create_fft. rewrite <- in_array_reads_prefix. reflexivity.
Qed.

Lemma fill_in_short prog count : forall i n buf inb,
  0 <= n -> (length buf <= Z.to_nat n + count)%nat -> (0 < count)%nat ->
  fill_in prog count i n buf inb = None.
Proof.
  induction count as [|count IH]; intros i n buf inb Hn Hlen Hc; [lia|]. simpl.
  destruct (buf !! Z.to_nat n) as [b0|] eqn:E0; [|reflexivity].
  destruct (buf !! Z.to_nat (n + 1)) as [b1|] eqn:E1; [|reflexivity].
  simpl. apply lookup_lt_Some in E1.
  apply IH; lia.
Qed.

(** X2.  A batch of at most [ceil(sample_c / 2)] bytes makes [create_fft]
    read past its end: the call is undefined, whatever the state. *)
Theorem create_fft_short_batch_undefined :
  forall L NUM_READ prog sample_c buf junk s,
    1 <= sample_c ->
    (length buf <= fill_rounds sample_c)%nat ->
    create_fft L NUM_READ prog sample_c buf junk s = Undefined.
Proof.
  intros L NUM_READ prog sample_c buf junk s Hc Hlen. unfold create_fft.
  replace (sample_c <? 1) with false by (symmetry; apply Z.ltb_ge; lia).
  unfold bind, lift, in_array. rewrite fill_in_short; [reflexivity | lia | simpl; lia |].
  unfold fill_rounds.
  assert (1 <= (sample_c + 1) / 2) by (apply Z.div_le_lower_bound; lia). lia.
Qed.

(** X2 (witness): four bytes for a transform of size 8. *)
Lemma create_fft_short_batch_undefined_witness :
  create_fft Reference.ref_libs 8 rtl_map 8 [127; 127; 127; 127] zero_junk
    (demo_started rtl_map) = Undefined.
Proof.
  apply (create_fft_short_batch_undefined Reference.ref_libs 8 rtl_map 8
           [127; 127; 127; 127] zero_junk (demo_started rtl_map));
    [lia | vm_compute; lia].
Defined.

Lemma fill_in_same_slots prog count : forall i n buf inb inb',
  0 <= i ->
  length inb = length inb' ->
  (forall j, (forall k, (k < count)%nat -> j <> Z.to_nat (i + 2 * Z.of_nat k)) ->
     inb !! j = inb' !! j) ->
  fill_in prog count i n buf inb = fill_in prog count i n buf inb'.
Proof.
  induction count as [|count IH]; intros i n buf inb inb' Hi Hlen H; simpl.
  - f_equal. apply list_eq. intros j. apply H. intros k Hk. lia.
  - destruct (buf !! Z.to_nat n) as [b0|]; [|reflexivity].
    destruct (buf !! Z.to_nat (n + 1)) as [b1|]; [|reflexivity].
    simpl. apply IH; [lia | rewrite !length_insert; exact Hlen |].
    intros j Hj. destruct (decide (j = Z.to_nat i)) as [->|Hne].
    + destruct (decide (Z.to_nat i < length inb)%nat) as [Hlt|Hge].
      * rewrite !list_lookup_insert_eq by lia. reflexivity.
      * rewrite !list_insert_ge by lia.
        rewrite (lookup_ge_None_2 inb), (lookup_ge_None_2 inb') by lia. reflexivity.
    + rewrite !list_lookup_insert_ne by congruence. apply H.
      intros k Hk. destruct k as [|k].
      * replace (i + 2 * Z.of_nat 0) with i by lia. exact Hne.
      * replace (i + 2 * Z.of_nat (S k)) with (i + 2 + 2 * Z.of_nat k) by lia.
        apply Hj. lia.
Qed.

(** X3.  What the block handed out for [in] held at even positions has no
    effect: two blocks that agree at the odd positions give the same
    [create_fft]. *)
Theorem create_fft_ignores_even_leftovers :
  forall L NUM_READ prog sample_c buf junk junk',
    (forall k, junk (2 * k + 1)%nat = junk' (2 * k + 1)%nat) ->
    create_fft L NUM_READ prog sample_c buf junk
      = create_fft L NUM_READ prog sample_c buf junk'.
Proof.
  intros L NUM_READ prog sample_c buf junk junk' H. unfold create_fft.
  replace (in_array prog sample_c buf junk') with (in_array prog sample_c buf junk);
    [reflexivity|].
  unfold in_array. apply fill_in_same_slots; [lia | rewrite !length_map; reflexivity |].
  intros j Hj. rewrite !list_lookup_fmap.
  destruct (seq 0 (Z.to_nat sample_c) !! j) as [x|] eqn:E; [|reflexivity].
  apply lookup_seq in E as [-> Hlt]. simpl. f_equal.
  destruct (Nat.Even_or_Odd j) as [[k ->]|[k ->]].
  - exfalso. apply (Hj k); [|lia]. unfold fill_rounds.
    assert (Z.of_nat k + 1 <= (sample_c + 1) / 2)
      by (apply Z.div_le_lower_bound; lia).
    lia.
  - apply H.
Qed.

(** X3 (witness): zeros against a block that holds 3+4j at even positions. *)
Lemma create_fft_ignores_even_leftovers_witness :
  create_fft Reference.ref_libs 4 rtl_fftx 4 example_batch zero_junk
    = create_fft Reference.ref_libs 4 rtl_fftx 4 example_batch
        (fun k => if Nat.even k then (of_Z 3, of_Z 4) else zero_junk k).
Proof.
  apply (create_fft_ignores_even_leftovers Reference.ref_libs 4 rtl_fftx 4
           example_batch zero_junk
           (fun k => if Nat.even k then (of_Z 3, of_Z 4) else zero_junk k)).
  intros k. replace (2 * k + 1)%nat with (S (2 * k)) by lia.
  rewrite Nat.even_succ, Nat.odd_even. reflexivity.
Defined.

(** ** Single-shot and continuous acquisition *)

Section Rounds.

Variable L : libs.
Variable NUM_READ : Z.
Hypothesis NUM_READ_pos : 1 <= NUM_READ.

(** X4.  Without [-C], either program transforms the first batch the
    receiver completes, logs, runs the shutdown sequence and ends with
    status 0: exactly one transform, no further request, and whatever else
    the receiver has on offer is never looked at. *)
Theorem single_shot_transforms_one_batch :
  forall prog buf junk rest s dbs,
    _cont_read (opts s) = false ->
    spectrum L prog (_mag_graph (opts s)) NUM_READ buf junk = Some dbs ->
    Cint.in_int (read_count s + 1) = true ->
    exists s',
      deliver L NUM_READ prog ((buf, junk) :: rest) s = Exited 0 s' /\
      added s (deliver L NUM_READ prog ((buf, junk) :: rest) s)
        = create_fft_events prog s NUM_READ dbs ++ done_log :: shutdown_events s /\
      count_transforms (added s (deliver L NUM_READ prog ((buf, junk) :: rest) s))
        = 1%nat.
Proof.
  intros prog buf junk rest s dbs Hcont Hs Hrc.
  destruct (create_fft_run L NUM_READ prog NUM_READ buf junk s dbs)
    as (s1 & Hrun & (Ho & Hg & Hw & Hp & Hf & Hc & Hbins & Ht) & _);
    [lia | exact Hs | exact Hrc |].
  destruct (do_exit_run (emit done_log s1))
    as (s' & Hrun' & (_ & _ & _ & _ & _ & _ & _ & Ht')).
  assert (Hall : deliver L NUM_READ prog ((buf, junk) :: rest) s = Exited 0 s').
  { simpl deliver. unfold async_read_callback, n_read.
    unfold bind at 1. unfold bind at 1. rewrite Hrun.
    unfold bind at 1, get at 1. unfold bind at 1, get at 1.
    rewrite Ho, Hcont.
    destruct prog; unfold bind, get, log_info, print_log, call; cbn [andb];
      fold done_log; rewrite Hrun'; reflexivity. }
  exists s'. rewrite Hall. cbn [added].
  assert (Hadd : drop (length (trace s)) (trace s')
                 = create_fft_events prog s NUM_READ dbs ++ done_log :: shutdown_events s).
  { rewrite Ht'. rewrite (shutdown_events_frame s (emit done_log s1))
      by (simpl; congruence).
    cbn [trace emit]. rewrite Ht, <- !app_assoc. rewrite drop_app_length. reflexivity. }
  rewrite Hadd. split; [reflexivity|]. split; [reflexivity|].
  rewrite count_transforms_app, count_transforms_create_fft, count_transforms_shutdown.
  reflexivity.
Qed.

End Rounds.

(** X4 (witness): rtl_fftx, single shot, three batches on offer. *)
Lemma single_shot_transforms_one_batch_witness :
  exists s',
    deliver Reference.ref_libs 4 rtl_fftx
        ((example_batch, zero_junk) :: batches demo_world)
        (started rtl_fftx (with_cont_read false demo_args))
      = Exited 0 s' /\
    added (started rtl_fftx (with_cont_read false demo_args))
        (deliver Reference.ref_libs 4 rtl_fftx
           ((example_batch, zero_junk) :: batches demo_world)
           (started rtl_fftx (with_cont_read false demo_args)))
      = create_fft_events rtl_fftx (started rtl_fftx (with_cont_read false demo_args))
          4 [ten; ten; ten; ten]
        ++ done_log :: shutdown_events (started rtl_fftx (with_cont_read false demo_args)) /\
    count_transforms
        (added (started rtl_fftx (with_cont_read false demo_args))
           (deliver Reference.ref_libs 4 rtl_fftx
              ((example_batch, zero_junk) :: batches demo_world)
              (started rtl_fftx (with_cont_read false demo_args))))
      = 1%nat.
Proof.
  apply (single_shot_transforms_one_batch Reference.ref_libs 4 ltac:(lia) rtl_fftx
           example_batch zero_junk (batches demo_world)
           (started rtl_fftx (with_cont_read false demo_args)) [ten; ten; ten; ten]);
    [reflexivity | vm_compute; reflexivity | reflexivity].
Defined.

Lemma count_transforms_file_independent s dbss n :
  count_transforms (rtl_fftx_rounds s n dbss) = length dbss.
Proof.
  unfold rtl_fftx_rounds. induction dbss as [|dbs rest IH]; cbn [map concat]; [reflexivity|].
  rewrite !count_transforms_app, count_transforms_create_fft, IH. reflexivity.
Qed.

Lemma on_stream_nil st : on_stream st [] = [].
Proof. reflexivity. Qed.

Lemma on_stream_shutdown st s : on_stream st (done_log :: shutdown_events s) = [].
Proof.
  unfold shutdown_events.
  destruct (_use_gnuplot (opts s)), (closes_file s); reflexivity.
Qed.

Lemma file_lines_length st dbss n :
  Forall (fun dbs => length dbs = n) dbss ->
  length (file_lines st dbss) = (length dbss * n)%nat.
Proof.
  unfold file_lines. induction 1 as [|dbs rest Hd _ IH]; cbn [map concat]; [reflexivity|].
  rewrite length_app, length_map, bins_from_length, IH, Hd. reflexivity.
Qed.

Lemma file_lines_rtl_fftx_rounds s n dbss :
  file s <> gnuplotPipe s -> _write_file s = true ->
  on_stream (file s) (rtl_fftx_rounds s n dbss) = file_lines (file s) dbss.
Proof.
  intros Hsinks Hw. unfold rtl_fftx_rounds, file_lines.
  induction dbss as [|dbs rest IH]; cbn [map concat]; [reflexivity|].
  rewrite !on_stream_app, (file_writes_of_transform s Hsinks) by exact Hw.
  rewrite IH. change (on_stream (file s) [Usleep (1000 * _refresh_rate (opts s))]) with (@nil event).
  rewrite app_nil_r. reflexivity.
Qed.

Lemma file_lines_rtl_map_rounds s n dbss :
  file s <> gnuplotPipe s -> _write_file s = true ->
  on_stream (file s) (rtl_map_rounds s n dbss) = file_lines (file s) dbss.
Proof.
  intros Hsinks Hw. unfold file_lines.
  induction dbss as [|dbs rest IH]; [reflexivity|].
  cbn [rtl_map_rounds map concat].
  rewrite on_stream_app, (file_writes_of_transform s Hsinks) by exact Hw.
  f_equal. destruct rest as [|dbs' rest'].
  - apply on_stream_shutdown.
  - exact IH.
Qed.

Lemma stop_free_bins s dbs : forall i,
  List.filter is_stop_or_request (bins_events s i dbs) = [].
Proof.
  induction dbs as [|db dbs IH]; intros i; simpl; [reflexivity|].
  rewrite List.filter_app, IH. unfold bin_events.
  destruct (_write_file s), (_use_gnuplot (opts s)); reflexivity.
Qed.

Lemma stop_free_create_fft prog s n dbs :
  List.filter is_stop_or_request (create_fft_events prog s n dbs) = [].
Proof.
  unfold create_fft_events. rewrite !List.filter_app, stop_free_bins.
  unfold transform_log.
  destruct prog, (_cont_read (opts s)), (_use_gnuplot (opts s)); reflexivity.
Qed.

Lemma stop_free_rtl_fftx_rounds s n dbss :
  List.filter is_stop_or_request (rtl_fftx_rounds s n dbss) = [].
Proof.
  unfold rtl_fftx_rounds. induction dbss as [|dbs rest IH]; cbn [map concat]; [reflexivity|].
  rewrite !List.filter_app, stop_free_create_fft, IH. reflexivity.
Qed.

Lemma spectrum_length L prog mg sample_c buf junk dbs :
  spectrum L prog mg sample_c buf junk = Some dbs -> length dbs = Z.to_nat sample_c.
Proof.
  unfold spectrum. intros H.
  destruct (in_array prog sample_c buf junk) as [inb|] eqn:Hin; [|discriminate].
  simpl in H. apply mapM_Some in H. apply Forall2_length in H.
  rewrite <- H, fftw_dft_length. eapply in_array_length; eauto.
Qed.

Lemma sleep_free_bins s dbs : forall i,
  List.filter is_sleep (bins_events s i dbs) = [].
Proof.
  induction dbs as [|db dbs IH]; intros i; simpl; [reflexivity|].
  rewrite List.filter_app, IH. unfold bin_events.
  destruct (_write_file s), (_use_gnuplot (opts s)); reflexivity.
Qed.

Lemma sleep_free_create_fft prog s n dbs :
  List.filter is_sleep (create_fft_events prog s n dbs) = [].
Proof.
  unfold create_fft_events. rewrite !List.filter_app, sleep_free_bins.
  unfold transform_log.
  destruct prog, (_cont_read (opts s)), (_use_gnuplot (opts s)); reflexivity.
Qed.

Lemma sleeps_rtl_fftx_rounds s n dbss :
  List.filter is_sleep (rtl_fftx_rounds s n dbss)
    = replicate (length dbss) (Usleep (1000 * _refresh_rate (opts s))).
Proof.
  unfold rtl_fftx_rounds. induction dbss as [|dbs rest IH]; cbn [map concat]; [reflexivity|].
  rewrite !List.filter_app, sleep_free_create_fft, IH. reflexivity.
Qed.

Section ContinuousRuns.

Variable L : libs.
Variable NUM_READ : Z.
Hypothesis NUM_READ_pos : 1 <= NUM_READ.

Lemma deliver_rtl_fftx_run : forall supply dbss s,
  _cont_read (opts s) = true ->
  Cint.in_int (1000 * _refresh_rate (opts s)) = true ->
  Cint.in_int (read_count s + 1) = true ->
  Forall2 (fun b dbs =>
             spectrum L rtl_fftx (_mag_graph (opts s)) NUM_READ (fst b) (snd b) = Some dbs)
    supply dbss ->
  exists s',
    deliver L NUM_READ rtl_fftx supply s = Ok tt s' /\
    opts s' = opts s /\ _write_file s' = _write_file s /\
    gnuplotPipe s' = gnuplotPipe s /\ file s' = file s /\
    read_count s' = read_count s /\
    trace s' = trace s ++ rtl_fftx_rounds s NUM_READ dbss.
Proof.
  induction supply as [|[buf junk] rest IH]; intros dbss s Hcont Hus Hrc HF.
  - inversion HF; subst. exists s. unfold rtl_fftx_rounds. simpl.
    rewrite app_nil_r. repeat split; reflexivity.
  - inversion HF as [|? dbs ? dbss' Hs HF']; subst. simpl in Hs.
    destruct (create_fft_run L NUM_READ rtl_fftx NUM_READ buf junk s dbs)
      as (s1 & Hrun & (Ho & Hg & Hw & Hp & Hf & Hc & Hbins & Ht) & _);
      [lia | exact Hs | exact Hrc |].
    set (s2 := emit (Usleep (1000 * _refresh_rate (opts s))) s1).
    destruct (IH dbss' s2) as (s' & Hrun' & Ho' & Hw' & Hp' & Hf' & Hc' & Ht').
    + subst s2. simpl. rewrite Ho. exact Hcont.
    + subst s2. simpl. rewrite Ho. exact Hus.
    + subst s2. simpl. rewrite Hc. exact Hrc.
    + replace (opts s2) with (opts s) by (subst s2; simpl; congruence). exact HF'.
    + exists s'. split.
      { simpl deliver. unfold async_read_callback, n_read.
        unfold bind at 1. unfold bind at 1. rewrite Hrun.
        unfold bind at 1, get at 1. unfold bind at 1, get at 1.
        rewrite Ho, Hcont.
        unfold bind at 1, lift at 1, Cint.mul, Cint.checked. rewrite Hus.
        unfold ret at 1, call at 1. cbv beta iota. fold s2. exact Hrun'. }
      assert (H2 : trace s2 = trace s1 ++ [Usleep (1000 * _refresh_rate (opts s))])
        by reflexivity.
      assert (Hr : rtl_fftx_rounds s2 NUM_READ dbss' = rtl_fftx_rounds s NUM_READ dbss').
      { unfold rtl_fftx_rounds. f_equal. apply map_ext. intros d.
        unfold create_fft_events, transform_log.
        rewrite (bins_events_frame s s2) by (subst s2; simpl; congruence).
        replace (opts s2) with (opts s) by (subst s2; simpl; congruence).
        replace (gnuplotPipe s2) with (gnuplotPipe s) by (subst s2; simpl; congruence).
        reflexivity. }
      rewrite Ho', Hw', Hp', Hf', Hc', Ht', H2, Ht, Hr.
      subst s2. cbn [opts _write_file gnuplotPipe file read_count emit].
      rewrite Ho, Hw, Hp, Hf, Hc.
      repeat split; try reflexivity.
      unfold rtl_fftx_rounds. cbn [map concat]. rewrite <- !app_assoc. reflexivity.
Qed.


End ContinuousRuns.


Lemma create_fft_events_frame prog s s' n dbs :
  opts s' = opts s -> _write_file s' = _write_file s ->
  gnuplotPipe s' = gnuplotPipe s -> file s' = file s ->
  create_fft_events prog s' n dbs = create_fft_events prog s n dbs.
Proof.
  intros Ho Hw Hp Hf. unfold create_fft_events, transform_log.
  rewrite (bins_events_frame s s') by assumption. rewrite Ho, Hp. reflexivity.
Qed.

Lemma rtl_map_rounds_frame s s' n dbss :
  opts s' = opts s -> _write_file s' = _write_file s ->
  gnuplotPipe s' = gnuplotPipe s -> file s' = file s ->
  rtl_map_rounds s' n dbss = rtl_map_rounds s n dbss.
Proof.
  intros Ho Hw Hp Hf. induction dbss as [|dbs rest IH]; [reflexivity|].
  cbn [rtl_map_rounds].
  rewrite (create_fft_events_frame rtl_map s s') by assumption.
  rewrite (shutdown_events_frame s s') by assumption.
  rewrite Ho. destruct rest; [reflexivity|]. rewrite IH. reflexivity.
Qed.

Section BoundedRuns.

Variable L : libs.
Variable NUM_READ : Z.
Hypothesis NUM_READ_pos : 1 <= NUM_READ.
Hypothesis request_fits : NUM_READ * NUM_READ <= Cint.INT_MAX.

Lemma deliver_rtl_map_rounds : forall supply dbss more s,
  _cont_read (opts s) = true ->
  0 <= read_count s < Cint.INT_MAX ->
  _num_read (opts s) <= Cint.INT_MAX ->
  Cint.in_int (1000 * _refresh_rate (opts s)) = true ->
  length dbss = Z.to_nat (Z.max 1 (_num_read (opts s) - read_count s)) ->
  Forall2 (fun b dbs =>
             spectrum L rtl_map (_mag_graph (opts s)) NUM_READ (fst b) (snd b) = Some dbs)
    supply dbss ->
  exists s',
    deliver L NUM_READ rtl_map (supply ++ more) s = Exited 0 s' /\
    trace s' = trace s ++ rtl_map_rounds s NUM_READ dbss.
Proof.
  induction supply as [|[buf junk] rest IH]; intros dbss more s Hcont Hrc Hk Hus Hlen HF.
  - inversion HF; subst. simpl in Hlen. lia.
  - inversion HF as [|? dbs ? dbss' Hs HF']; subst. simpl in Hs.
    destruct (create_fft_run L NUM_READ rtl_map NUM_READ buf junk s dbs)
      as (s1 & Hrun & (Ho & Hg & Hw & Hp & Hf & Hc & Hbins & Ht) & _);
      [lia | exact Hs | |].
    { unfold Cint.in_int, Cint.INT_MIN, Cint.INT_MAX in *.
      apply andb_true_iff; split; apply Z.leb_le; lia. }
    cbn [app]. simpl deliver. unfold async_read_callback, n_read.
    unfold bind at 1. unfold bind at 1. rewrite Hrun.
    unfold bind at 1, get at 1. unfold bind at 1, get at 1.
    unfold bind at 1, get at 1. unfold bind at 1, get at 1.
    rewrite Ho, Hc, Hcont. simpl andb.
    cbn [length] in Hlen.
    destruct (read_count s + 1 <? _num_read (opts s)) eqn:Hlt.
    + apply Z.ltb_lt in Hlt. cbn [andb].
      unfold bind at 1, lift at 1, Cint.mul, Cint.checked. rewrite Hus.
      unfold ret at 1. unfold bind at 1, call at 1.
      unfold bind at 1, read_async_call at 1.
      unfold bind at 1, lift at 1. rewrite (request_length_rtl_map NUM_READ) by assumption.
      unfold ret at 1. unfold call at 1. cbv beta iota.
      match goal with
      | |- context [deliver L NUM_READ rtl_map (rest ++ more) ?st] => set (s3 := st)
      end.
      assert (Ho3 : opts s3 = opts s) by (subst s3; simpl; congruence).
      assert (Hw3 : _write_file s3 = _write_file s) by (subst s3; simpl; congruence).
      assert (Hp3 : gnuplotPipe s3 = gnuplotPipe s) by (subst s3; simpl; congruence).
      assert (Hf3 : file s3 = file s) by (subst s3; simpl; congruence).
      assert (Hc3 : read_count s3 = read_count s + 1) by (subst s3; simpl; congruence).
      assert (Ht3 : trace s3 = trace s1 ++
                 [Usleep (1000 * _refresh_rate (opts s));
                  RtlsdrReadAsync 0 (NUM_READ * NUM_READ)]).
      { subst s3. simpl. rewrite <- app_assoc. reflexivity. }
      destruct (IH dbss' more s3) as (s' & Hrun' & Ht').
      * rewrite Ho3. exact Hcont.
      * rewrite Hc3. lia.
      * rewrite Ho3. exact Hk.
      * rewrite Ho3. exact Hus.
      * rewrite Ho3, Hc3. lia.
      * rewrite Ho3. exact HF'.
      * rewrite Hrun'. exists s'. split; [reflexivity|].
        rewrite Ht', Ht3, Ht, (rtl_map_rounds_frame s s3) by assumption.
        destruct dbss' as [|dbs' dbss''].
        { simpl in Hlen. lia. }
        cbn [rtl_map_rounds]. rewrite <- !app_assoc. reflexivity.
    + apply Z.ltb_ge in Hlt. cbn [andb].
      unfold bind at 1, log_info at 1, print_log at 1, call at 1.
      destruct (do_exit_run (emit done_log s1))
        as (s' & Hrun' & (_ & _ & _ & _ & _ & _ & _ & Ht')).
      fold done_log. rewrite Hrun'. exists s'. split; [reflexivity|].
      rewrite Ht'.
      rewrite (shutdown_events_frame s (emit done_log s1)) by (simpl; congruence).
      cbn [trace emit]. rewrite Ht.
      destruct dbss' as [|dbs' dbss'']; [|simpl in Hlen; lia].
      cbn [rtl_map_rounds]. rewrite <- !app_assoc. reflexivity.
Qed.


End BoundedRuns.


(** ** Signals, and the comparison for [qsort] *)

Lemma sig_handler_run signum s :
  exists s',
    sig_handler signum s = Exited 0 s' /\
    advanced s s' (Log INFO ("Signal caught, exiting..." +:+ NL) [] :: shutdown_events s)
      (sample_bin s) (read_count s).
Proof.
  unfold sig_handler.
  unfold bind at 1, log_info at 1, print_log at 1, call at 1.
  set (s1 := emit (Log INFO ("Signal caught, exiting..." +:+ NL) []) s).
  destruct (do_exit_run s1) as (s' & Hrun & (Ho & Hg & Hw & Hp & Hf & Hc & Hb & Ht)).
  exists s'. rewrite Hrun. split; [reflexivity|].
  unfold advanced. rewrite Ht, Ho, Hg, Hw, Hp, Hf, Hc, Hb.
  rewrite (shutdown_events_frame s s1) by reflexivity.
  subst s1. cbn [trace emit]. rewrite <- app_assoc.
  repeat split; reflexivity.
Qed.



(** X8.  A signal that arrives after [register_signals] and before the
    sinks are opened - [main] installs the handler first - finds the
    stream variables still null, and [do_exit] closes by configuration:
    with the plot enabled the handler logs, cancels the read and calls
    [pclose] on the null pointer; with the plot disabled and a file other
    than [-] named it calls [fclose] on the null pointer instead.  The
    process does not get past that call: nothing after it is reached, and
    there is no exit with status 0. *)
Theorem sig_handler_before_sinks_is_undefined :
  forall NUM_READ a gain signum,
    _use_gnuplot a = true \/ (exists f, _filename a = Some f /\ f <> "-"%string) ->
    reached (added (initial NUM_READ a gain)
               (sig_handler signum (initial NUM_READ a gain)))
      = [Log INFO ("Signal caught, exiting..." +:+ NL) [];
         RtlsdrCancelAsync;
         if _use_gnuplot a then Pclose None else Fclose None] /\
    in_c (sig_handler signum) (initial NUM_READ a gain) = Undefined.
Proof.
  intros NUM_READ a gain signum Hconf.
  destruct (sig_handler_run signum (initial NUM_READ a gain)) as (s' & Hrun & Hadv).
  unfold in_c. rewrite Hrun, (added_exited _ _ _ _ _ _ Hadv).
  unfold shutdown_events, closes_file. cbn [opts gnuplotPipe file initial].
  destruct (_use_gnuplot a) eqn:Hg.
  - split; reflexivity.
  - destruct Hconf as [Hconf|(f & Hf & Hdash)]; [discriminate|].
    rewrite Hf. apply String.eqb_neq in Hdash. rewrite Hdash.
    split; reflexivity.
Qed.

(** X8 (witness): the configuration [demo_args], plot enabled. *)
Lemma sig_handler_before_sinks_is_undefined_witness :
  reached (added (initial 4 demo_args 14) (sig_handler 2 (initial 4 demo_args 14)))
    = [Log INFO ("Signal caught, exiting..." +:+ NL) []; RtlsdrCancelAsync; Pclose None] /\
  in_c (sig_handler 2) (initial 4 demo_args 14) = Undefined.
Proof.
  apply (sig_handler_before_sinks_is_undefined 4 demo_args 14 2).
  left. reflexivity.
Defined.

Lemma SFcompare_antisym (a b : double) :
  SFcompare b a = option_map CompOpp (SFcompare a b).
Proof.
  destruct a as [sa|sa| |sa ma ea], b as [sb|sb| |sb mb eb]; simpl;
    try reflexivity;
    try (destruct sa; reflexivity); try (destruct sb; reflexivity);
    try (destruct sa, sb; reflexivity).
  assert (Hm : Pos.compare_cont Eq mb ma = CompOpp (Pos.compare_cont Eq ma mb))
    by (rewrite Pos.compare_cont_antisym; reflexivity).
  destruct sa, sb; try reflexivity; f_equal;
    rewrite (Z.compare_antisym ea eb); destruct (ea ?= eb); simpl; try reflexivity;
    rewrite Hm, ?CompOpp_involutive; reflexivity.
Qed.


(** ** The command line *)

Lemma print_usage_run prog s :
  print_usage prog s = Exited 0 (emit (usage_print prog) s).
Proof. reflexivity. Qed.

Section CommandLineRuns.

Variable atof : string -> double.

(** What one answer of [getopt] does. *)
Lemma handle_option_run prog opt optarg s :
  match handle_option atof prog opt optarg s with
  | Ok _ s' =>
      is_option prog opt = true /\ reads_ok atof prog (opt, optarg) = true /\
      trace s' = trace s /\ _write_file s' = _write_file s /\
      gnuplotPipe s' = gnuplotPipe s /\ file s' = file s /\
      read_count s' = read_count s /\ sample_bin s' = sample_bin s /\
      _filename (opts s') = _filename (opts s) /\
      Some (_center_freq (opts s'))
        = (if Ascii.eqb opt "f" then Libc.atoi optarg else Some (_center_freq (opts s))) /\
      _use_gnuplot (opts s') = _use_gnuplot (opts s) && negb (Ascii.eqb opt "D") /\
      _cont_read (opts s') = _cont_read (opts s) || Ascii.eqb opt "C" /\
      _mag_graph (opts s') = _mag_graph (opts s) || Ascii.eqb opt "M" /\
      _offset_tuning (opts s') = _offset_tuning (opts s) && negb (Ascii.eqb opt "O") /\
      _log_colors (opts s') = _log_colors (opts s) && negb (Ascii.eqb opt "T")
  | Exited c s' =>
      c = 0 /\ is_option prog opt = false /\ s' = emit (usage_print prog) s
  | Undefined => is_option prog opt = true /\ reads_ok atof prog (opt, optarg) = false
  end.
Proof.
  destruct prog; destruct opt as [[] [] [] [] [] [] [] []];
    cbv beta iota delta [handle_option reads_ok is_option fst snd];
    rewrite ?print_usage_run;
    try (repeat split; reflexivity);
    unfold bind, lift, modify, ret;
    try destruct (Libc.atoi optarg);
    try destruct (Cint.of_double (dmul (atof optarg) (of_Z 10)));
    cbn [opts set_opts set_gain trace _write_file gnuplotPipe file read_count sample_bin
         _filename _center_freq _use_gnuplot _cont_read _mag_graph _offset_tuning
         _log_colors with_dev_id with_samp_rate with_center_freq with_refresh_rate
         with_num_read with_use_gnuplot with_cont_read with_mag_graph
         with_offset_tuning with_log_colors Ascii.eqb Bool.eqb negb];
    rewrite ?andb_true_r, ?orb_false_r, ?andb_false_r, ?orb_true_r;
    repeat split; reflexivity.
Qed.

(** What the loop over the answers does. *)
Lemma option_loop_run prog answers : forall s,
  match option_loop atof prog answers s with
  | Ok _ s' =>
      forallb (fun a => is_option prog (fst a)) answers = true /\
      forallb (reads_ok atof prog) answers = true /\
      trace s' = trace s /\ _write_file s' = _write_file s /\
      gnuplotPipe s' = gnuplotPipe s /\ file s' = file s /\
      read_count s' = read_count s /\ sample_bin s' = sample_bin s /\
      _filename (opts s') = _filename (opts s) /\
      Some (_center_freq (opts s')) = int_after "f" answers (_center_freq (opts s)) /\
      _use_gnuplot (opts s') = _use_gnuplot (opts s) && negb (mentions "D" answers) /\
      _cont_read (opts s') = _cont_read (opts s) || mentions "C" answers /\
      _mag_graph (opts s') = _mag_graph (opts s) || mentions "M" answers /\
      _offset_tuning (opts s') = _offset_tuning (opts s) && negb (mentions "O" answers) /\
      _log_colors (opts s') = _log_colors (opts s) && negb (mentions "T" answers)
  | Exited c s' =>
      c = 0 /\ trace s' = trace s ++ [usage_print prog] /\
      forallb (fun a => is_option prog (fst a)) answers = false
  | Undefined => forallb (reads_ok atof prog) answers = false
  end.
Proof.
  induction answers as [|[opt optarg] rest IH]; intros s.
  - cbn [option_loop ret forallb int_after last_arg mentions existsb negb].
    rewrite !andb_true_r, !orb_false_r. repeat split; reflexivity.
  - cbn [option_loop]. unfold bind at 1.
    pose proof (handle_option_run prog opt optarg s) as H1.
    destruct (handle_option atof prog opt optarg s) as [[] s1| c s1|].
    + destruct H1 as (Hopt & Hread & Ht & Hw & Hp & Hf & Hc & Hb & Hn & Hcf
                      & HD & HC & HM & HO & HT).
      pose proof (IH s1) as H2.
      cbn [forallb fst]. rewrite Hopt, Hread. cbn [andb].
      destruct (option_loop atof prog rest s1) as [[] s2| c s2|].
      * destruct H2 as (Hopt2 & Hread2 & Ht2 & Hw2 & Hp2 & Hf2 & Hc2 & Hb2 & Hn2 & Hcf2
                        & HD2 & HC2 & HM2 & HO2 & HT2).
        rewrite Ht2, Hw2, Hp2, Hf2, Hc2, Hb2, Hn2, Hcf2, HD2, HC2, HM2, HO2, HT2.
        rewrite HD, HC, HM, HO, HT.
        unfold int_after, mentions in *. cbn [last_arg existsb fst].
        repeat split; try assumption;
          try (symmetry; apply orb_assoc);
          try (rewrite negb_orb, <- ?andb_assoc; reflexivity).
        destruct (last_arg "f" rest); [reflexivity|].
        destruct (Ascii.eqb opt "f"); [exact Hcf | congruence].
      * destruct H2 as (-> & Ht2 & Hopt2). rewrite Ht2, Ht.
        repeat split; assumption.
      * exact H2.
    + destruct H1 as (-> & Hopt & ->). cbn [forallb fst]. rewrite Hopt.
      repeat split; reflexivity.
    + destruct H1 as (_ & Hread). cbn [forallb]. rewrite Hread. reflexivity.
Qed.

Lemma parse_args_outcomes_aux prog answers operand s :
  match parse_args atof prog answers operand s with
  | Ok r s' =>
      r = 0 /\ _center_freq (opts s') <> 0 /\ _filename (opts s') = operand /\
      trace s' = trace s
  | Exited c s' => c = 0 /\ trace s' = trace s ++ [usage_print prog]
  | Undefined => forallb (reads_ok atof prog) answers = false
  end.
Proof.
  unfold parse_args. unfold bind at 1.
  pose proof (option_loop_run prog answers s) as H.
  destruct (option_loop atof prog answers s) as [[] s1| c s1|].
  - destruct H as (_ & _ & Ht & _). unfold bind at 1, get at 1. unfold bind at 1, when.
    destruct (_center_freq (opts s1) =? 0) eqn:Hz.
    + rewrite print_usage_run. cbn [trace emit]. rewrite Ht. split; reflexivity.
    + apply Z.eqb_neq in Hz. unfold ret at 1, bind, modify, ret.
      cbn [opts set_opts with_filename _center_freq _filename trace].
      repeat split; assumption.
  - destruct H as (Hc & Ht & _). split; assumption.
  - exact H.
Qed.

(** X10.  The calls [parse_args] makes, whatever the answers of [getopt]:
    either it makes none and returns (0 in rtl_map), with a center
    frequency other than 0 and the operand as file name; or its one call
    is the [fprintf] of the usage text to the standard error stream,
    followed by [exit(0)] - status 0 also when the command line was wrong.
    (What [getopt] itself prints about an unknown option or a missing
    argument is [getopt]'s output, before the usage text; it is no call of
    the program and not part of the trace.)  There is no third case unless
    an option argument cannot be read. *)
Theorem parse_args_outcomes :
  forall prog answers operand s,
    match parse_args atof prog answers operand s with
    | Ok r s' =>
        r = 0 /\ _center_freq (opts s') <> 0 /\ _filename (opts s') = operand /\
        trace s' = trace s
    | Exited c s' => c = 0 /\ trace s' = trace s ++ [usage_print prog]
    | Undefined => forallb (reads_ok atof prog) answers = false
    end.
Proof. intros. apply parse_args_outcomes_aux. Qed.

Lemma parse_args_run prog answers operand s :
  forallb (reads_ok atof prog) answers = true ->
  match parse_args atof prog answers operand s with
  | Ok r s' =>
      forallb (fun a => is_option prog (fst a)) answers = true /\
      Some (_center_freq (opts s')) = int_after "f" answers (_center_freq (opts s)) /\
      _center_freq (opts s') <> 0 /\
      _use_gnuplot (opts s') = _use_gnuplot (opts s) && negb (mentions "D" answers) /\
      _cont_read (opts s') = _cont_read (opts s) || mentions "C" answers /\
      _mag_graph (opts s') = _mag_graph (opts s) || mentions "M" answers /\
      _offset_tuning (opts s') = _offset_tuning (opts s) && negb (mentions "O" answers) /\
      _log_colors (opts s') = _log_colors (opts s) && negb (mentions "T" answers)
  | Exited c s' =>
      forallb (fun a => is_option prog (fst a)) answers = false \/
      int_after "f" answers (_center_freq (opts s)) = Some 0
  | Undefined => False
  end.
Proof.
  intros Hread. unfold parse_args. unfold bind at 1.
  pose proof (option_loop_run prog answers s) as H.
  destruct (option_loop atof prog answers s) as [[] s1| c s1|].
  - destruct H as (Hopt & _ & _ & _ & _ & _ & _ & _ & _ & Hcf & HD & HC & HM & HO & HT).
    unfold bind at 1, get at 1. unfold bind at 1, when.
    destruct (_center_freq (opts s1) =? 0) eqn:Hz.
    + rewrite print_usage_run. right. apply Z.eqb_eq in Hz. rewrite <- Hcf, Hz. reflexivity.
    + apply Z.eqb_neq in Hz. unfold ret at 1, bind, modify, ret.
      cbn [opts set_opts with_filename _center_freq _use_gnuplot _cont_read _mag_graph
           _offset_tuning _log_colors].
      repeat split; assumption.
  - destruct H as (_ & _ & Hopt). left. exact Hopt.
  - congruence.
Qed.

(** X11.  The center frequency is mandatory, and 0 is no frequency: when
    the last [-f] of a readable command line reads as 0 - or there is no
    [-f] and the variable still has its initial 0 - [parse_args] does not
    return; it prints the usage text and exits with status 0. *)
Theorem parse_args_requires_frequency :
  forall prog answers operand s,
    forallb (reads_ok atof prog) answers = true ->
    int_after "f" answers (_center_freq (opts s)) = Some 0 ->
    exists s',
      parse_args atof prog answers operand s = Exited 0 s' /\
      trace s' = trace s ++ [usage_print prog].
Proof.
  intros prog answers operand s Hread Hzero.
  pose proof (parse_args_outcomes_aux prog answers operand s) as H1.
  pose proof (parse_args_run prog answers operand s Hread) as H2.
  destruct (parse_args atof prog answers operand s) as [r s'|c s'|].
  - exfalso. destruct H2 as (_ & Hcf & Hnz & _). rewrite Hzero in Hcf.
    apply Hnz. congruence.
  - destruct H1 as (-> & Ht). exists s'. split; [reflexivity | exact Ht].
  - contradiction.
Qed.

(** X12.  An answer of [getopt] that is no option of the program - [h],
    the [?] of an unknown option or of a missing argument, [n] in rtl_fftx
    - anywhere on a readable command line ends the program: the usage
    text, exit status 0. *)
Theorem parse_args_usage_on_unknown_option :
  forall prog answers operand s,
    forallb (reads_ok atof prog) answers = true ->
    forallb (fun a => is_option prog (fst a)) answers = false ->
    exists s',
      parse_args atof prog answers operand s = Exited 0 s' /\
      trace s' = trace s ++ [usage_print prog].
Proof.
  intros prog answers operand s Hread Hopt.
  pose proof (parse_args_outcomes_aux prog answers operand s) as H1.
  pose proof (parse_args_run prog answers operand s Hread) as H2.
  destruct (parse_args atof prog answers operand s) as [r s'|c s'|].
  - exfalso. destruct H2 as (Hopt' & _). congruence.
  - destruct H1 as (-> & Ht). exists s'. split; [reflexivity | exact Ht].
  - contradiction.
Qed.

(** X13.  A readable command line of options only whose last [-f] reads
    as [v], other than 0, is accepted: [parse_args] returns 0 with [v] as
    center frequency - of several [-f] the last one counts - and the
    operand as file name.  The five switches work one way only: each of
    [-D], [-O], [-T] clears its variable and each of [-C], [-M] sets it,
    however often it is given, and none can be undone. *)
Theorem parse_args_accepts :
  forall prog answers operand s v,
    forallb (reads_ok atof prog) answers = true ->
    forallb (fun a => is_option prog (fst a)) answers = true ->
    int_after "f" answers (_center_freq (opts s)) = Some v ->
    v <> 0 ->
    exists s',
      parse_args atof prog answers operand s = Ok 0 s' /\
      _center_freq (opts s') = v /\
      _filename (opts s') = operand /\
      trace s' = trace s /\
      _use_gnuplot (opts s') = _use_gnuplot (opts s) && negb (mentions "D" answers) /\
      _cont_read (opts s') = _cont_read (opts s) || mentions "C" answers /\
      _mag_graph (opts s') = _mag_graph (opts s) || mentions "M" answers /\
      _offset_tuning (opts s') = _offset_tuning (opts s) && negb (mentions "O" answers) /\
      _log_colors (opts s') = _log_colors (opts s) && negb (mentions "T" answers).
Proof.
  intros prog answers operand s v Hread Hopt Hcf Hv.
  pose proof (parse_args_outcomes_aux prog answers operand s) as H1.
  pose proof (parse_args_run prog answers operand s Hread) as H2.
  destruct (parse_args atof prog answers operand s) as [r s'|c s'|].
  - destruct H1 as (-> & _ & Hn & Ht).
    destruct H2 as (_ & Hcf' & _ & HD & HC & HM & HO & HT).
    exists s'. rewrite Hcf in Hcf'.
    repeat split; try assumption; congruence.
  - exfalso. destruct H2 as [H2|H2]; congruence.
  - contradiction.
Qed.

Lemma option_loop_unreadable prog before a after : forall s,
  forallb (fun b => is_option prog (fst b)) before = true ->
  forallb (reads_ok atof prog) before = true ->
  is_option prog (fst a) = true ->
  reads_ok atof prog a = false ->
  option_loop atof prog (before ++ a :: after) s = Undefined.
Proof.
  induction before as [|[opt optarg] rest IH]; intros s Hopts Hreads Hopt Hread.
  - destruct a as [opt optarg]. cbn [app option_loop]. unfold bind at 1.
    pose proof (handle_option_run prog opt optarg s) as H.
    destruct (handle_option atof prog opt optarg s) as [[] s1|c s1|]; [| |reflexivity].
    + destruct H as (_ & H & _). cbn [fst] in *. congruence.
    + destruct H as (_ & H & _). cbn [fst] in *. congruence.
  - cbn [forallb fst] in Hopts, Hreads.
    apply andb_true_iff in Hopts as [Hopt1 Hopts].
    apply andb_true_iff in Hreads as [Hread1 Hreads].
    cbn [app option_loop]. unfold bind at 1.
    pose proof (handle_option_run prog opt optarg s) as H.
    destruct (handle_option atof prog opt optarg s) as [[] s1|c s1|].
    + apply IH; assumption.
    + destruct H as (_ & H & _). congruence.
    + destruct H as (_ & H). congruence.
Qed.

(** X14.  The option arguments go to [atoi] and [atof] unchecked.  C
    leaves [atoi] undefined when the number does not fit [int], and the
    conversion of ten times the gain to [int] when that does not fit; so
    the behaviour of [parse_args] is undefined from the first such
    argument the loop reaches, all earlier answers being readable options.
    (What a given C library then does - wrap, saturate - is not fixed by
    the program.) *)
Theorem parse_args_unreadable_argument :
  forall prog before a after operand s,
    forallb (fun b => is_option prog (fst b)) before = true ->
    forallb (reads_ok atof prog) before = true ->
    is_option prog (fst a) = true ->
    reads_ok atof prog a = false ->
    parse_args atof prog (before ++ a :: after) operand s = Undefined.
Proof.
  intros prog before a after operand s Hopts Hreads Hopt Hread.
  unfold parse_args. unfold bind at 1.
  rewrite (option_loop_unreadable prog before a after s Hopts Hreads Hopt Hread).
  reflexivity.
Qed.

End CommandLineRuns.

(** X11 (witness): [-D -g 1.4 fft.txt], no [-f]. *)
Lemma parse_args_requires_frequency_witness :
  exists s',
    parse_args Libc.atof_plain rtl_map
        [("D"%char, ""%string); ("g"%char, "1.4"%string)] (Some "fft.txt"%string)
        (at_startup 4)
      = Exited 0 s' /\
    trace s' = trace (at_startup 4) ++ [usage_print rtl_map].
Proof.
  apply (parse_args_requires_frequency Libc.atof_plain rtl_map
           [("D"%char, ""%string); ("g"%char, "1.4"%string)] (Some "fft.txt"%string)
           (at_startup 4));
    [vm_compute; reflexivity | reflexivity].
Defined.

(** X12 (witness): [-f 100000000 -n 10] given to rtl_fftx, which has no
    [-n]: [getopt] answers [?]. *)
Lemma parse_args_usage_on_unknown_option_witness :
  exists s',
    parse_args Libc.atof_plain rtl_fftx
        [("f"%char, "100000000"%string); ("?"%char, ""%string)] None (at_startup 4)
      = Exited 0 s' /\
    trace s' = trace (at_startup 4) ++ [usage_print rtl_fftx].
Proof.
  apply (parse_args_usage_on_unknown_option Libc.atof_plain rtl_fftx
           [("f"%char, "100000000"%string); ("?"%char, ""%string)] None (at_startup 4));
    [vm_compute; reflexivity | reflexivity].
Defined.

(** X13 (witness): [-f 433000000 -g 1.4 -C -f 100000000 fft.txt]. *)
Lemma parse_args_accepts_witness :
  exists s',
    parse_args Libc.atof_plain rtl_map
        [("f"%char, "433000000"%string); ("g"%char, "1.4"%string); ("C"%char, ""%string);
         ("f"%char, "100000000"%string)] (Some "fft.txt"%string) (at_startup 4)
      = Ok 0 s' /\
    _center_freq (opts s') = 100000000 /\
    _filename (opts s') = Some "fft.txt"%string /\
    trace s' = trace (at_startup 4) /\
    _use_gnuplot (opts s') = true /\
    _cont_read (opts s') = true /\
    _mag_graph (opts s') = false /\
    _offset_tuning (opts s') = true /\
    _log_colors (opts s') = true.
Proof.
  apply (parse_args_accepts Libc.atof_plain rtl_map
           [("f"%char, "433000000"%string); ("g"%char, "1.4"%string); ("C"%char, ""%string);
            ("f"%char, "100000000"%string)] (Some "fft.txt"%string) (at_startup 4)
           100000000);
    [vm_compute; reflexivity | reflexivity | reflexivity | discriminate].
Defined.

(** X14 (witness): [-C -f 2400000000], a number above [INT_MAX]. *)
Lemma parse_args_unreadable_argument_witness :
  parse_args Libc.atof_plain rtl_map
      ([("C"%char, ""%string)] ++ ("f"%char, "2400000000"%string) :: []) None
      (at_startup 4)
    = Undefined.
Proof.
  apply (parse_args_unreadable_argument Libc.atof_plain rtl_map
           [("C"%char, ""%string)] ("f"%char, "2400000000"%string) [] None (at_startup 4));
    reflexivity.
Defined.

(** ** The start of a run *)

Lemma calls_from_run (body : Z -> proc unit) (ev : Z -> event) count : forall i s,
  (forall j st, body j st = Ok tt (emit (ev j) st)) ->
  for_each i count body s = Ok tt (emits (calls_from ev i count) s).
Proof.
  induction count as [|count IH]; intros i s Hbody.
  - unfold emits. simpl. rewrite app_nil_r. destruct s; reflexivity.
  - simpl. unfold bind. rewrite Hbody, (IH _ _ Hbody).
    unfold emits, emit. simpl. rewrite <- app_assoc. reflexivity.
Qed.

Lemma print_gains_run gains : forall s,
  print_gains gains s = Ok tt (emits (gain_prints gains) s).
Proof.
  induction gains as [|g rest IH]; intros s.
  - unfold emits. simpl. rewrite app_nil_r. destruct s; reflexivity.
  - simpl. unfold bind, call. rewrite IH.
    unfold emits, emit. simpl. rewrite <- app_assoc. reflexivity.
Qed.

Lemma omap_gain_prints f gains :
  (forall st fmt a, f (Vfprintf st fmt a) = None) ->
  omap f (gain_prints gains) = @nil Z.
Proof.
  intros Hf. induction gains as [|g rest IH]; simpl; [reflexivity|].
  rewrite Hf. exact IH.
Qed.

Lemma filter_listing f (ev : Z -> event) count : forall i,
  (forall j, f (ev j) = false) ->
  List.filter f (calls_from ev i count) = [].
Proof.
  induction count as [|count IH]; intros i Hf; simpl; [reflexivity|].
  rewrite Hf. apply IH. exact Hf.
Qed.

Lemma omap_listing (ev : Z -> event) (shown : Z -> Z) count : forall i,
  (forall j, listed_index (ev j) = Some (shown j)) ->
  omap listed_index (calls_from ev i count)
    = map shown (map (fun k => i + Z.of_nat k) (seq 0 count)).
Proof.
  induction count as [|count IH]; intros i Hev; [reflexivity|].
  cbn [calls_from omap list_omap]. rewrite Hev. cbn [seq map].
  rewrite Z.add_0_r. f_equal. rewrite (IH (i + 1) Hev), <- seq_shift, !map_map.
  apply map_ext. intros k. f_equal. lia.
Qed.

Lemma filter_keep (f : event -> bool) e l :
  f e = true -> List.filter f ([e] ++ l) = e :: List.filter f l.
Proof. intros H. simpl. rewrite H. reflexivity. Qed.

Lemma filter_drop (f : event -> bool) e l :
  f e = false -> List.filter f ([e] ++ l) = List.filter f l.
Proof. intros H. simpl. rewrite H. reflexivity. Qed.

Lemma filter_keep_last (f : event -> bool) e :
  f e = true -> List.filter f [e] = [e].
Proof. intros H. simpl. rewrite H. reflexivity. Qed.

Lemma filter_drop_last (f : event -> bool) e :
  f e = false -> List.filter f [e] = [].
Proof. intros H. simpl. rewrite H. reflexivity. Qed.

Lemma omap_drop {B} (f : event -> option B) e l :
  f e = None -> omap f ([e] ++ l) = omap f l.
Proof. intros H. simpl. rewrite H. reflexivity. Qed.

Lemma omap_drop_last {B} (f : event -> option B) e :
  f e = None -> omap f [e] = [].
Proof. intros H. simpl. rewrite H. reflexivity. Qed.

Lemma filter_plot_gain_prints gains :
  List.filter is_plot_call (gain_prints gains) = [].
Proof. induction gains as [|g rest IH]; [reflexivity | exact IH]. Qed.

(** Filtering a list of calls written as a chain of appends. *)
Ltac sift :=
  repeat first
    [ rewrite filter_keep by reflexivity
    | rewrite filter_drop by reflexivity
    | rewrite filter_keep_last by reflexivity
    | rewrite filter_drop_last by reflexivity
    | rewrite omap_drop by reflexivity
    | rewrite omap_drop_last by reflexivity
    | rewrite filter_gain_prints by reflexivity
    | rewrite filter_plot_gain_prints
    | rewrite omap_gain_prints by reflexivity
    | match goal with
      | H : List.filter ?f ?l = _ |- context [List.filter ?f ?l] => rewrite H
      | H : omap ?f ?l = _ |- context [omap ?f ?l] => rewrite H
      end
    | rewrite List.filter_app
    | rewrite omap_app
    | rewrite app_nil_r
    | rewrite app_nil_l ].

(** [configure_rtlsdr] with a receiver that opens. *)
Lemma configure_rtlsdr_run prog w s :
  device_count w <> 0 ->
  0 <= open_result w ->
  exists r s' evs,
    configure_rtlsdr prog w s = Ok r s' /\
    opts s' = opts s /\ _write_file s' = _write_file s /\
    gnuplotPipe s' = gnuplotPipe s /\ file s' = file s /\
    read_count s' = read_count s /\ sample_bin s' = sample_bin s /\
    _gain s' = (if _gain s =? 0 then 0
                else match prog with
                     | rtl_map => chosen_gain (tuner_gains w) (_gain s)
                     | rtl_fftx => _gain s
                     end) /\
    trace s' = trace s ++ evs /\
    List.filter is_gain_call evs
      = (if _gain s =? 0 then [RtlsdrSetTunerGainMode 0]
         else [RtlsdrSetTunerGainMode 1; RtlsdrSetTunerGain (_gain s')]) /\
    omap listed_index evs
      = map (fun k => match prog with rtl_map => 0 | rtl_fftx => Z.of_nat k end)
          (seq 0 (Z.to_nat (device_count w))) /\
    List.filter is_plot_call evs = [] /\
    List.filter is_fatal_log evs
      = (if reset_result w <? 0 then [Log FATAL ("Failed to reset buffers." +:+ NL) []]
         else []) /\
    r = (if reset_result w <? 0 then match prog with rtl_map => 1 | rtl_fftx => 0 end
         else 0).
Proof.
  intros Hdev Hopen. unfold configure_rtlsdr.
  replace (device_count w =? 0) with false by (symmetry; apply Z.eqb_neq; exact Hdev).
  set (ev := fun i : Z =>
    let shown := match prog with rtl_map => 0 | rtl_fftx => i end in
    if _log_colors (opts s) then
      Log INFO ("#%d: %s%s%s" +:+ NL)
        [AInt shown; AStr bold_attr; AStr (device_name w i); AStr all_attr_off]
    else Log INFO ("#%d: %s" +:+ NL) [AInt shown; AStr (device_name w i)]).
  assert (Hev : forall j, listed_index (ev j)
                          = Some (match prog with rtl_map => 0 | rtl_fftx => j end)).
  { intros j. unfold ev. destruct (_log_colors (opts s)); reflexivity. }
  assert (Hgain : forall j, is_gain_call (ev j) = false).
  { intros j. unfold ev. destruct (_log_colors (opts s)); reflexivity. }
  assert (Hplot : forall j, is_plot_call (ev j) = false).
  { intros j. unfold ev. destruct (_log_colors (opts s)); reflexivity. }
  assert (Hfatal : forall j, is_fatal_log (ev j) = false).
  { intros j. unfold ev. destruct (_log_colors (opts s)); reflexivity. }
  pose proof (omap_listing ev _ (Z.to_nat (device_count w)) 0 Hev) as Hlist.
  pose proof (filter_listing is_gain_call ev (Z.to_nat (device_count w)) 0 Hgain) as Hlg.
  pose proof (filter_listing is_plot_call ev (Z.to_nat (device_count w)) 0 Hplot) as Hlp.
  pose proof (filter_listing is_fatal_log ev (Z.to_nat (device_count w)) 0 Hfatal) as Hlf.
  assert (Hlist' : omap listed_index (calls_from ev 0 (Z.to_nat (device_count w)))
                   = map (fun k => match prog with rtl_map => 0 | rtl_fftx => Z.of_nat k end)
                       (seq 0 (Z.to_nat (device_count w)))).
  { rewrite Hlist, map_map. apply map_ext. intros k. destruct prog; reflexivity. }
  clear Hlist.
  set (listing := calls_from ev 0 (Z.to_nat (device_count w))) in *.
  assert (Hfor : forall st body,
            (forall j st', body j st' = Ok tt (emit (ev j) st')) ->
            for_each 0 (Z.to_nat (device_count w)) body st = Ok tt (emits listing st)).
  { intros st body Hb. apply calls_from_run. exact Hb. }
  clearbody listing.
  replace (open_result w <? 0) with false by (symmetry; apply Z.ltb_ge; exact Hopen).
  destruct prog.
  - unfold bind at 1, log_info at 1, print_log at 1, call at 1.
    unfold bind at 1, log_info at 1, print_log at 1, call at 1.
    unfold bind at 1, get at 1. unfold bind at 1.
    rewrite Hfor
      by (intros j st'; unfold ev; cbn [opts emit]; destruct (_log_colors (opts s));
          reflexivity).
    unfold bind, get, call, log_info, log_fatal, print_log, ret. simpl.
    destruct (_gain s =? 0) eqn:Hg.
    + apply Z.eqb_eq in Hg.
      destruct (reset_result w <? 0); simpl; do 3 eexists;
        (split; [reflexivity|]); cbn [opts _write_file gnuplotPipe file read_count
                                       sample_bin _gain trace emit emits set_gain];
        do 6 (split; [reflexivity|]);
        (split; [exact Hg|]);
        (split; [rewrite <- !app_assoc; reflexivity|]);
        rewrite ?Hg; repeat split; sift; reflexivity.
    + lazymatch goal with
      | |- context [gain_loop _ ?st] => set (st1 := st)
      end.
      destruct (gain_loop_run (tuner_gains w) st1)
        as (s2 & Hrun2 & Ho2 & Hw2 & Hp2 & Hf2 & Hc2 & Hb2 & Hg2 & Ht2).
      rewrite Hrun2. subst st1.
      cbn [opts _write_file gnuplotPipe file read_count sample_bin _gain trace emit emits]
        in Ho2, Hw2, Hp2, Hf2, Hc2, Hb2, Hg2, Ht2.
      destruct (reset_result w <? 0); simpl; do 3 eexists;
        (split; [reflexivity|]); cbn [opts _write_file gnuplotPipe file read_count
                                       sample_bin _gain trace emit emits set_gain];
        do 6 (split; [assumption|]);
        (split; [exact Hg2|]);
        rewrite Ht2;
        (split; [rewrite <- !app_assoc; reflexivity|]);
        rewrite ?Hg2; repeat split; sift; reflexivity.
  - unfold bind at 1, ret at 1.
    unfold bind at 1, log_info at 1, print_log at 1, call at 1.
    unfold bind at 1, get at 1. unfold bind at 1.
    rewrite Hfor
      by (intros j st'; unfold ev; cbn [opts emit]; destruct (_log_colors (opts s));
          reflexivity).
    unfold bind, get, call, log_info, log_fatal, print_log, ret. simpl.
    destruct (_gain s =? 0) eqn:Hg.
    + apply Z.eqb_eq in Hg.
      destruct (reset_result w <? 0); simpl; do 3 eexists;
        (split; [reflexivity|]); cbn [opts _write_file gnuplotPipe file read_count
                                       sample_bin _gain trace emit emits set_gain];
        do 6 (split; [reflexivity|]);
        (split; [exact Hg|]);
        (split; [rewrite <- !app_assoc; reflexivity|]);
        rewrite ?Hg; repeat split; sift; reflexivity.
    + rewrite print_gains_run.
      destruct (reset_result w <? 0); simpl; do 3 eexists;
        (split; [reflexivity|]); cbn [opts _write_file gnuplotPipe file read_count
                                       sample_bin _gain trace emit emits set_gain];
        do 7 (split; [reflexivity|]);
        (split; [rewrite <- !app_assoc; reflexivity|]);
        repeat split; sift; reflexivity.
Qed.

Lemma configure_gnuplot_run NUM_READ prog w s :
  if negb (_use_gnuplot (opts s)) then configure_gnuplot NUM_READ prog w s = Ok 1 s
  else if popen_ok w then
    exists s' evs,
      configure_gnuplot NUM_READ prog w s = Ok 0 s' /\
      opts s' = opts s /\ _gain s' = _gain s /\ _write_file s' = _write_file s /\
      gnuplotPipe s' = Some Gnuplot /\ file s' = file s /\
      read_count s' = read_count s /\ sample_bin s' = sample_bin s /\
      trace s' = trace s ++ Popen "gnuplot -persistent" :: evs /\
      Forall (fun e => exists fmt a, e = Vfprintf (Some Gnuplot) fmt a) evs
  else
    exists s',
      configure_gnuplot NUM_READ prog w s = Exited 1 s' /\
      trace s' = trace s ++ [Popen "gnuplot -persistent";
                             Log ERROR "Failed to open gnuplot pipe." []].
Proof.
  destruct (_use_gnuplot (opts s)) eqn:Hg; cbn [negb];
    [destruct (popen_ok w) eqn:Hp|];
    unfold configure_gnuplot, bind, modify, gnuplot_exec, get, call, ret,
      log_error, print_log, exit;
    rewrite Hg; cbn [negb]; rewrite ?Hp; cbn [negb]; [| |reflexivity].
  - destruct prog; cbn [gnuplotPipe set_gnuplotPipe emit opts];
      do 2 eexists; (split; [reflexivity|]);
      cbn [opts _gain _write_file gnuplotPipe file read_count sample_bin trace emit
           set_gnuplotPipe];
      do 7 (split; [reflexivity|]);
      (split; [rewrite <- !app_assoc; reflexivity|]);
      repeat (apply List.Forall_cons; [do 2 eexists; reflexivity|]);
      apply List.Forall_nil.
  - eexists. split; [reflexivity|].
    cbn [trace emit]. rewrite <- app_assoc. reflexivity.
Qed.

Lemma configure_rtlsdr_fails prog w s :
  device_count w = 0 \/ open_result w < 0 ->
  exists s', configure_rtlsdr prog w s = Exited 1 s'.
Proof.
  intros Hbad. unfold configure_rtlsdr.
  destruct (device_count w =? 0) eqn:Hdev.
  - unfold bind, log_error, print_log, call, exit. eexists. reflexivity.
  - apply Z.eqb_neq in Hdev. destruct Hbad as [Hbad|Hbad]; [contradiction|].
    replace (open_result w <? 0) with true by (symmetry; apply Z.ltb_lt; exact Hbad).
    set (ev := fun i : Z =>
      let shown := match prog with rtl_map => 0 | rtl_fftx => i end in
      if _log_colors (opts s) then
        Log INFO ("#%d: %s%s%s" +:+ NL)
          [AInt shown; AStr bold_attr; AStr (device_name w i); AStr all_attr_off]
      else Log INFO ("#%d: %s" +:+ NL) [AInt shown; AStr (device_name w i)]).
    assert (Hfor : forall st body,
              (forall j st', body j st' = Ok tt (emit (ev j) st')) ->
              for_each 0 (Z.to_nat (device_count w)) body st
                = Ok tt (emits (calls_from ev 0 (Z.to_nat (device_count w))) st)).
    { intros st body Hb. apply calls_from_run. exact Hb. }
    destruct prog.
    + unfold bind at 1, log_info at 1, print_log at 1, call at 1.
      unfold bind at 1, log_info at 1, print_log at 1, call at 1.
      unfold bind at 1, get at 1. unfold bind at 1.
      rewrite Hfor
        by (intros j st'; unfold ev; cbn [opts emit]; destruct (_log_colors (opts s));
            reflexivity).
      unfold bind, get, call, log_fatal, print_log, exit. eexists. reflexivity.
    + unfold bind at 1, ret at 1.
      unfold bind at 1, log_info at 1, print_log at 1, call at 1.
      unfold bind at 1, get at 1. unfold bind at 1.
      rewrite Hfor
        by (intros j st'; unfold ev; cbn [opts emit]; destruct (_log_colors (opts s));
            reflexivity).
      unfold bind, get, call, log_fatal, print_log, exit. eexists. reflexivity.
Qed.

Lemma open_file_run w s :
  match _filename (opts s) with
  | None => open_file w s = Ok 0 s
  | Some f =>
      if String.eqb f "-" then
        open_file w s = Ok 0 (set_file (Some Stdout) (set_write_file true s))
      else if fopen_ok w then
        open_file w s
          = Ok 0 (set_file (Some (Opened f)) (emit (Fopen f) (set_write_file true s)))
      else exists s', open_file w s = Exited 1 s'
  end.
Proof.
  unfold open_file, bind, get, modify, call, ret, log_error, print_log, exit.
  destruct (_filename (opts s)) as [f|]; [|reflexivity].
  destruct (String.eqb f "-"); [reflexivity|].
  destruct (fopen_ok w); [reflexivity|]. eexists. reflexivity.
Qed.

Lemma main_startup L NUM_READ prog w s :
  main L NUM_READ prog w s
    = (startup NUM_READ prog w ;; rtlsdr_read_async L NUM_READ prog (batches w)) s.
Proof.
  unfold main, startup, bind.
  destruct (configure_gnuplot NUM_READ prog w s) as [r1 s1| |]; [|reflexivity..].
  destruct (configure_rtlsdr prog w s1) as [r2 s2| |]; [|reflexivity..].
  destruct (open_file w s2); reflexivity.
Qed.

(** X15.  rtl_fftx tunes to the gain as configured: with a nonzero gain
    and a receiver that opens, [configure_rtlsdr] of rtl_fftx selects the
    manual mode and sets exactly the configured gain, whatever the table
    of supported gains holds, and [_gain] keeps its value. *)
Theorem rtl_fftx_applies_configured_gain :
  forall w s,
    device_count w <> 0 ->
    0 <= open_result w ->
    _gain s <> 0 ->
    exists r s',
      configure_rtlsdr rtl_fftx w s = Ok r s' /\
      _gain s' = _gain s /\
      List.filter is_gain_call (added s (configure_rtlsdr rtl_fftx w s))
        = [RtlsdrSetTunerGainMode 1; RtlsdrSetTunerGain (_gain s)].
Proof.
  intros w s Hdev Hopen Hgain.
  destruct (configure_rtlsdr_run rtl_fftx w s Hdev Hopen)
    as (r & s' & evs & Hrun & _ & _ & _ & _ & _ & _ & Hg & Ht & Hcalls & _).
  apply Z.eqb_neq in Hgain. rewrite Hgain in Hg, Hcalls.
  exists r, s'. rewrite Hrun. cbn [added]. rewrite Ht, drop_app_length.
  rewrite Hcalls, Hg. repeat split.
Qed.

(** X15 (witness): the receiver of [demo_world], gain 14. *)
Lemma rtl_fftx_applies_configured_gain_witness :
  exists r s',
    configure_rtlsdr rtl_fftx demo_world (initial 4 demo_args 14) = Ok r s' /\
    _gain s' = _gain (initial 4 demo_args 14) /\
    List.filter is_gain_call
        (added (initial 4 demo_args 14)
           (configure_rtlsdr rtl_fftx demo_world (initial 4 demo_args 14)))
      = [RtlsdrSetTunerGainMode 1; RtlsdrSetTunerGain (_gain (initial 4 demo_args 14))].
Proof.
  apply (rtl_fftx_applies_configured_gain demo_world (initial 4 demo_args 14));
    [discriminate | discriminate | discriminate].
Defined.

(** X16.  Gain 0 means automatic gain in both programs: the only gain
    call is the one selecting mode 0, no gain value is set on the tuner,
    and [_gain] stays 0 - in rtl_map too, whose loop over the supported
    gains does not run then. *)
Theorem zero_gain_selects_auto_mode :
  forall prog w s,
    device_count w <> 0 ->
    0 <= open_result w ->
    _gain s = 0 ->
    exists r s',
      configure_rtlsdr prog w s = Ok r s' /\
      _gain s' = 0 /\
      List.filter is_gain_call (added s (configure_rtlsdr prog w s))
        = [RtlsdrSetTunerGainMode 0].
Proof.
  intros prog w s Hdev Hopen Hgain.
  destruct (configure_rtlsdr_run prog w s Hdev Hopen)
    as (r & s' & evs & Hrun & _ & _ & _ & _ & _ & _ & Hg & Ht & Hcalls & _).
  rewrite Hgain in Hg, Hcalls. cbn [Z.eqb] in Hg, Hcalls.
  exists r, s'. rewrite Hrun. cbn [added]. rewrite Ht, drop_app_length.
  repeat split; assumption.
Qed.

(** X16 (witness): rtl_map on the receiver of [demo_world], gain 0. *)
Lemma zero_gain_selects_auto_mode_witness :
  exists r s',
    configure_rtlsdr rtl_map demo_world (initial 4 demo_args 0) = Ok r s' /\
    _gain s' = 0 /\
    List.filter is_gain_call
        (added (initial 4 demo_args 0)
           (configure_rtlsdr rtl_map demo_world (initial 4 demo_args 0)))
      = [RtlsdrSetTunerGainMode 0].
Proof.
  apply (zero_gain_selects_auto_mode rtl_map demo_world (initial 4 demo_args 0));
    [discriminate | discriminate | reflexivity].
Defined.

(** X17.  The device listing of rtl_map shows every receiver under the
    index 0: it prints the global [n], not the loop counter.  rtl_fftx
    numbers the receivers 0, 1, 2, ... *)
Theorem device_listing_indices :
  forall prog w s,
    device_count w <> 0 ->
    0 <= open_result w ->
    omap listed_index (added s (configure_rtlsdr prog w s))
      = map (fun k => match prog with rtl_map => 0 | rtl_fftx => Z.of_nat k end)
          (seq 0 (Z.to_nat (device_count w))).
Proof.
  intros prog w s Hdev Hopen.
  destruct (configure_rtlsdr_run prog w s Hdev Hopen)
    as (r & s' & evs & Hrun & _ & _ & _ & _ & _ & _ & _ & Ht & _ & Hlist & _).
  rewrite Hrun. cbn [added]. rewrite Ht, drop_app_length. exact Hlist.
Qed.

(** X17 (witness): three receivers, listed by rtl_map as 0, 0, 0. *)
Lemma device_listing_indices_witness :
  omap listed_index
      (added (initial 4 demo_args 14)
         (configure_rtlsdr rtl_map three_receivers (initial 4 demo_args 14)))
    = map (fun _ : nat => 0) (seq 0 (Z.to_nat (device_count three_receivers))).
Proof.
  apply (device_listing_indices rtl_map three_receivers (initial 4 demo_args 14));
    [discriminate | discriminate].
Defined.

Lemma startup_rest prog w s :
  if negb (device_count w =? 0) && (0 <=? open_result w) &&
     match _filename (opts s) with
     | Some f => String.eqb f "-" || fopen_ok w
     | None => true
     end
  then
    exists s',
      (configure_rtlsdr prog w ;; open_file w) s = Ok 0 s' /\
      opts s' = opts s /\ gnuplotPipe s' = gnuplotPipe s /\
      read_count s' = read_count s /\
      file s' = match _filename (opts s) with
                | None => file s
                | Some f => if String.eqb f "-" then Some Stdout else Some (Opened f)
                end /\
      _write_file s' = match _filename (opts s) with
                       | None => _write_file s
                       | Some _ => true
                       end
  else
    exists s', (configure_rtlsdr prog w ;; open_file w) s = Exited 1 s'.
Proof.
  unfold bind.
  destruct (device_count w =? 0) eqn:Hdev; cbn [negb andb].
  { apply Z.eqb_eq in Hdev.
    destruct (configure_rtlsdr_fails prog w s (or_introl Hdev)) as (s' & ->).
    exists s'. reflexivity. }
  apply Z.eqb_neq in Hdev.
  destruct (0 <=? open_result w) eqn:Hopen; cbn [andb].
  2:{ apply Z.leb_gt in Hopen.
      destruct (configure_rtlsdr_fails prog w s (or_intror Hopen)) as (s' & ->).
      exists s'. reflexivity. }
  apply Z.leb_le in Hopen.
  destruct (configure_rtlsdr_run prog w s Hdev Hopen)
    as (r & s1 & evs & -> & Ho & Hw & Hp & Hf & Hc & _).
  pose proof (open_file_run w s1) as H. rewrite Ho in H.
  destruct (_filename (opts s)) as [f|].
  - destruct (String.eqb f "-"); cbn [orb].
    + rewrite H. eexists. split; [reflexivity|].
      cbn [opts gnuplotPipe read_count file _write_file set_file set_write_file].
      repeat split; assumption || reflexivity.
    + destruct (fopen_ok w).
      * rewrite H. eexists. split; [reflexivity|].
        cbn [opts gnuplotPipe read_count file _write_file set_file set_write_file emit].
        repeat split; assumption || reflexivity.
      * destruct H as (s' & ->). exists s'. reflexivity.
  - rewrite H. exists s1. repeat split; assumption.
Qed.

(** X18.  What the start of [main] depends on.  The two sinks and the
    receiver are set up - status 0 from [open_file], the plot pipe in
    [gnuplotPipe] when the plot is enabled, [file] and [_write_file] set
    when a file is named - exactly when the pipe to gnuplot opens (if the
    plot is enabled), there is a receiver and it opens, and the named file
    opens (if one other than [-] is named); a failed buffer reset stops
    neither program.  In every other case the process exits with status 1
    before the first read request. *)
Theorem startup_outcome :
  forall L NUM_READ prog w s,
    if startup_ok w s then
      exists s',
        startup NUM_READ prog w s = Ok 0 s' /\
        opts s' = opts s /\ read_count s' = read_count s /\
        gnuplotPipe s'
          = (if _use_gnuplot (opts s) then Some Gnuplot else gnuplotPipe s) /\
        file s' = match _filename (opts s) with
                  | None => file s
                  | Some f => if String.eqb f "-" then Some Stdout else Some (Opened f)
                  end /\
        _write_file s' = match _filename (opts s) with
                         | None => _write_file s
                         | Some _ => true
                         end
    else
      exists s',
        startup NUM_READ prog w s = Exited 1 s' /\
        main L NUM_READ prog w s = Exited 1 s'.
Proof.
  intros L NUM_READ prog w s.
  assert (Hmain : forall s', startup NUM_READ prog w s = Exited 1 s' ->
                             main L NUM_READ prog w s = Exited 1 s').
  { intros s' H. rewrite main_startup. unfold bind at 1. rewrite H. reflexivity. }
  assert (Hstart : startup NUM_READ prog w s
                   = (configure_gnuplot NUM_READ prog w ;;
                      (configure_rtlsdr prog w ;; open_file w)) s) by reflexivity.
  unfold startup_ok. rewrite <- !andb_assoc.
  pose proof (configure_gnuplot_run NUM_READ prog w s) as H1.
  destruct (_use_gnuplot (opts s)) eqn:Hg; cbn [negb orb] in *.
  - destruct (popen_ok w); cbn [andb].
    + destruct H1 as (s1 & evs & Hrun & Ho & _ & Hw & Hp & Hf & Hc & _).
      pose proof (startup_rest prog w s1) as H2.
      rewrite Ho, <- !andb_assoc in H2.
      destruct (negb (device_count w =? 0) &&
                ((0 <=? open_result w) &&
                 match _filename (opts s) with
                 | Some f => String.eqb f "-" || fopen_ok w
                 | None => true
                 end)).
      * destruct H2 as (s' & Hrun2 & Ho2 & Hp2 & Hc2 & Hf2 & Hw2).
        exists s'. split.
        { rewrite Hstart. unfold bind at 1. rewrite Hrun. exact Hrun2. }
        rewrite Ho2, Hc2, Hp2, Hf2, Hw2, Hp, Hf, Hw, Hc.
        repeat split; assumption || reflexivity.
      * destruct H2 as (s' & Hrun2).
        assert (H : startup NUM_READ prog w s = Exited 1 s').
        { rewrite Hstart. unfold bind at 1. rewrite Hrun. exact Hrun2. }
        exists s'. split; [exact H | exact (Hmain s' H)].
    + destruct H1 as (s' & Hrun & _).
      assert (H : startup NUM_READ prog w s = Exited 1 s').
      { rewrite Hstart. unfold bind at 1. rewrite Hrun. reflexivity. }
      exists s'. split; [exact H | exact (Hmain s' H)].
  - cbn [andb]. pose proof (startup_rest prog w s) as H2.
    rewrite <- !andb_assoc in H2.
    destruct (negb (device_count w =? 0) &&
              ((0 <=? open_result w) &&
               match _filename (opts s) with
               | Some f => String.eqb f "-" || fopen_ok w
               | None => true
               end)).
    + destruct H2 as (s' & Hrun2 & Ho2 & Hp2 & Hc2 & Hf2 & Hw2).
      exists s'. split.
      { rewrite Hstart. unfold bind at 1. rewrite H1. exact Hrun2. }
      repeat split; assumption.
    + destruct H2 as (s' & Hrun2).
      assert (H : startup NUM_READ prog w s = Exited 1 s').
      { rewrite Hstart. unfold bind at 1. rewrite H1. exact Hrun2. }
      exists s'. split; [exact H | exact (Hmain s' H)].
Qed.

(** X19.  A failed buffer reset is logged as fatal and is not: with a
    receiver that opens, [configure_rtlsdr] still returns - 1 in rtl_map,
    nothing in rtl_fftx - after that one fatal line, and [main], which
    looks at no return value, goes on to [open_file] and the first
    request. *)
Theorem failed_reset_is_not_fatal :
  forall prog w s,
    device_count w <> 0 ->
    0 <= open_result w ->
    reset_result w < 0 ->
    exists r s',
      configure_rtlsdr prog w s = Ok r s' /\
      r = match prog with rtl_map => 1 | rtl_fftx => 0 end /\
      List.filter is_fatal_log (added s (configure_rtlsdr prog w s))
        = [Log FATAL ("Failed to reset buffers." +:+ NL) []].
Proof.
  intros prog w s Hdev Hopen Hreset.
  destruct (configure_rtlsdr_run prog w s Hdev Hopen)
    as (r & s' & evs & Hrun & _ & _ & _ & _ & _ & _ & _ & Ht & _ & _ & _ & Hfatal & Hr).
  apply Z.ltb_lt in Hreset. rewrite Hreset in Hfatal, Hr.
  exists r, s'. rewrite Hrun. cbn [added]. rewrite Ht, drop_app_length.
  repeat split; assumption.
Qed.

(** X19 (witness): a receiver whose buffer reset fails. *)
Lemma failed_reset_is_not_fatal_witness :
  exists r s',
    configure_rtlsdr rtl_map stuck_buffer (initial 4 demo_args 14) = Ok r s' /\
    r = 1 /\
    List.filter is_fatal_log
        (added (initial 4 demo_args 14)
           (configure_rtlsdr rtl_map stuck_buffer (initial 4 demo_args 14)))
      = [Log FATAL ("Failed to reset buffers." +:+ NL) []].
Proof.
  apply (failed_reset_is_not_fatal rtl_map stuck_buffer (initial 4 demo_args 14));
    [discriminate | discriminate | reflexivity].
Defined.

(** ** Invariants of whole runs *)

Section RunInvariant.

Variable Inv : process -> Prop.
Variable P : event -> Prop.
Variable Q : Z -> Prop.

(** [Inv] does not look at the trace. *)
Hypothesis Inv_emit : forall e s, Inv s -> Inv (emit e s).

Lemma at_ret {A} (a : A) s : run_at Inv P Q (ret a) s.
Proof. intros HI HP. split; assumption. Qed.

Lemma at_undefined {A} s : run_at Inv P Q (@undefined A) s.
Proof. intros HI HP. exact I. Qed.

Lemma at_lift {A} (o : option A) s : run_at Inv P Q (lift o) s.
Proof. destruct o; [apply at_ret | apply at_undefined]. Qed.

Lemma at_get {A} (f : process -> A) s : run_at Inv P Q (get f) s.
Proof. intros HI HP. split; assumption. Qed.

Lemma at_exit {A} c s : (Inv s -> Q c) -> run_at Inv P Q (@exit A c) s.
Proof. intros HQ HI HP. split; [apply HQ|]; assumption. Qed.

Lemma at_call e s : (Inv s -> P e) -> run_at Inv P Q (call e) s.
Proof.
  intros He HI HP. split; [apply Inv_emit; exact HI|].
  cbn [trace emit]. apply Forall_app. split; [exact HP|].
  apply List.Forall_cons; [apply He; exact HI | apply List.Forall_nil].
Qed.

Lemma at_modify f s :
  (Inv s -> Inv (f s)) -> trace (f s) = trace s -> run_at Inv P Q (modify f) s.
Proof. intros Hf Ht HI HP. split; [apply Hf; exact HI | rewrite Ht; exact HP]. Qed.

Lemma at_bind {A B} (p : proc A) (k : A -> proc B) s :
  run_at Inv P Q p s ->
  (forall a s', p s = Ok a s' -> run_at Inv P Q (k a) s') ->
  run_at Inv P Q (bind p k) s.
Proof.
  intros Hp Hk HI HP. unfold bind. specialize (Hp HI HP).
  destruct (p s) as [a s'|c s'|] eqn:E; [|exact Hp|exact I].
  destruct Hp as [HI' HP']. exact (Hk a s' eq_refl HI' HP').
Qed.

Lemma at_bind_get {A B} (f : process -> A) (k : A -> proc B) s :
  (Inv s -> run_at Inv P Q (k (f s)) s) -> run_at Inv P Q (bind (get f) k) s.
Proof. intros H HI HP. exact (H HI HI HP). Qed.

Lemma at_bind_lift {A B} (o : option A) (k : A -> proc B) s :
  (forall a, o = Some a -> run_at Inv P Q (k a) s) -> run_at Inv P Q (bind (lift o) k) s.
Proof.
  intros H. destruct o as [a|]; [exact (H a eq_refl)|]. intros HI HP. exact I.
Qed.

Lemma at_when b p s :
  (Inv s -> b = true -> run_at Inv P Q p s) -> run_at Inv P Q (when b p) s.
Proof.
  intros H. destruct b; [|apply at_ret]. intros HI HP. exact (H HI eq_refl HI HP).
Qed.

Lemma at_if {A} (b : bool) (p q : proc A) s :
  (Inv s -> b = true -> run_at Inv P Q p s) ->
  (Inv s -> b = false -> run_at Inv P Q q s) ->
  run_at Inv P Q (if b then p else q) s.
Proof.
  intros Hp Hq HI HP. destruct b; [exact (Hp HI eq_refl HI HP) | exact (Hq HI eq_refl HI HP)].
Qed.

Lemma at_for_each body count : forall i s,
  (forall j, run_inv Inv P Q (body j)) -> run_at Inv P Q (for_each i count body) s.
Proof.
  induction count as [|count IH]; intros i s Hbody; simpl.
  - apply at_ret.
  - apply at_bind; [apply Hbody | intros _ s' _; apply IH; exact Hbody].
Qed.

End RunInvariant.

(** Breaks a piece of the program, at the state it runs from, into its
    calls.  [side] settles what a call, an assignment or a test asks of the
    invariant; [learn] uses the invariant at the state a variable is read. *)
Ltac run_step side learn :=
  lazymatch goal with
  | |- run_at _ _ _ (bind (get _) _) _ =>
      let H := fresh "HI" in apply at_bind_get; intros H; cbv beta; learn H
  | |- run_at _ _ _ (bind (lift _) _) _ => apply at_bind_lift; intros ? _
  | |- run_at _ _ _ (bind _ _) _ => apply at_bind; [|intros ? ? _]
  | |- run_at _ _ _ (ret _) _ => apply at_ret
  | |- run_at _ _ _ (get _) _ => apply at_get
  | |- run_at _ _ _ undefined _ => apply at_undefined
  | |- run_at _ _ _ (lift _) _ => apply at_lift
  | |- run_at _ _ _ (exit _) _ => apply at_exit; intros ?; side
  | |- run_at _ _ _ (call _) _ => apply at_call; [first [assumption | side] | intros ?; side]
  | |- run_at _ _ _ (log_info _ _) _ =>
      apply at_call; [first [assumption | side] | intros ?; side]
  | |- run_at _ _ _ (log_error _ _) _ =>
      apply at_call; [first [assumption | side] | intros ?; side]
  | |- run_at _ _ _ (log_fatal _ _) _ =>
      apply at_call; [first [assumption | side] | intros ?; side]
  | |- run_at _ _ _ (gnuplot_exec _ _) _ => unfold gnuplot_exec
  | |- run_at _ _ _ (modify _) _ => apply at_modify; [intros ?; side | reflexivity]
  | |- run_at _ _ _ (when _ _) _ => apply at_when; intros ? ?; try solve [exfalso; side]
  | |- run_at _ _ _ (match ?prog with rtl_map => _ | rtl_fftx => _ end) _ => destruct prog
  | |- run_at _ _ _ (match ?x with Some _ => _ | None => _ end) _ => destruct x
  | |- run_at _ _ _ (if _ then _ else _) _ =>
      apply at_if; intros ? ?; try solve [exfalso; side]
  | |- run_at _ _ _ (for_each _ _ _) _ => apply at_for_each; intros ? ?
  end.

(** *** Exit statuses *)

Section ExitStatuses.

Variable L : libs.
Variable NUM_READ : Z.

Lemma any_state_emit : forall e s, any_state s -> any_state (emit e s).
Proof. intros e s _. exact I. Qed.

Ltac status := solve [exact I | reflexivity | exact any_state_emit].
Ltac status_step := run_step status ltac:(fun H => idtac).

Lemma status_gain_loop Q gains : run_inv any_state any_call Q (gain_loop gains).
Proof.
  induction gains as [|g rest IH]; intros s; simpl; repeat status_step. apply IH.
Qed.

Lemma status_print_gains Q gains : run_inv any_state any_call Q (print_gains gains).
Proof.
  induction gains as [|g rest IH]; intros s; simpl; repeat status_step. apply IH.
Qed.

Lemma status_startup prog w :
  run_inv any_state any_call (fun c => c = 1) (startup NUM_READ prog w).
Proof.
  intros s. unfold startup, configure_gnuplot, configure_rtlsdr, open_file.
  repeat first [status_step | apply status_gain_loop | apply status_print_gains
               | match goal with
                 | |- run_at _ _ _ (match ?x with Some _ => _ | None => _ end) _ => destruct x
                 end].
Qed.

Lemma status_do_exit : run_inv any_state any_call (fun c => c = 0) do_exit.
Proof. intros s. unfold do_exit. repeat status_step. Qed.

Lemma status_create_fft prog sample_c buf junk :
  run_inv any_state any_call (fun c => c = 0) (create_fft L NUM_READ prog sample_c buf junk).
Proof.
  intros s. unfold create_fft, emit_bin, store_bin. repeat status_step.
Qed.

Lemma status_read_async_call prog :
  run_inv any_state any_call (fun c => c = 0) (read_async_call NUM_READ prog).
Proof. intros s. unfold read_async_call. repeat status_step. Qed.

Lemma status_deliver prog supply :
  run_inv any_state any_call (fun c => c = 0) (deliver L NUM_READ prog supply).
Proof.
  induction supply as [|[buf junk] rest IH]; intros s; simpl.
  - apply at_ret.
  - unfold async_read_callback.
    repeat first [apply status_create_fft | apply status_do_exit
                 | apply status_read_async_call | apply IH | status_step].
Qed.

End ExitStatuses.

Lemma run_inv_exit_status (Q : Z -> Prop) {A} (p : proc A) s :
  run_inv any_state any_call Q p ->
  match p s with Exited c _ => Q c | _ => True end.
Proof.
  intros H. specialize (H s I).
  assert (HP : Forall any_call (trace s))
    by (apply List.Forall_forall; intros; exact I).
  specialize (H HP). destruct (p s) as [a s'|c s'|]; [exact I | apply H | exact I].
Qed.


(** *** A disabled sink is left alone *)

Section PlotDisabled.

Variable L : libs.
Variable NUM_READ : Z.
Variable a : args.
Hypothesis plot_off : _use_gnuplot a = false.

Lemma plot_apart_emit : forall e s, plot_apart a s -> plot_apart a (emit e s).
Proof. intros e s H. exact H. Qed.

Ltac plot_side :=
  solve [ exact I | reflexivity | discriminate | exact plot_apart_emit | assumption
        | match goal with
          | H : plot_apart _ ?s |- _ =>
              unfold plot_apart in *;
              cbn [opts file set_gain set_write_file set_read_count set_gnuplotPipe set_file
                   set_sample_bin emit] in *;
              solve [ intuition (try congruence; try discriminate)
                    | destruct H as [_ Hf]; unfold no_plot_call; destruct (file s) as [[]|];
                      first [reflexivity | exfalso; apply Hf; reflexivity] ]
          end ].

Ltac plot_learn H :=
  destruct H as [Ho _]; rewrite ?Ho, ?plot_off; clear Ho; cbv iota.

Ltac plot_step := run_step plot_side plot_learn.

Lemma plot_gain_loop gains : run_inv (plot_apart a) no_plot_call any_status (gain_loop gains).
Proof. induction gains as [|g rest IH]; intros s; simpl; repeat plot_step. apply IH. Qed.

Lemma plot_print_gains gains : run_inv (plot_apart a) no_plot_call any_status (print_gains gains).
Proof. induction gains as [|g rest IH]; intros s; simpl; repeat plot_step. apply IH. Qed.

Lemma plot_startup prog w :
  run_inv (plot_apart a) no_plot_call any_status (startup NUM_READ prog w).
Proof.
  intros s. unfold startup, configure_gnuplot, configure_rtlsdr, open_file.
  repeat first [plot_step | apply plot_gain_loop | apply plot_print_gains].
Qed.

Lemma plot_do_exit : run_inv (plot_apart a) no_plot_call any_status do_exit.
Proof. intros s. unfold do_exit. repeat plot_step. Qed.

Lemma plot_create_fft prog sample_c buf junk :
  run_inv (plot_apart a) no_plot_call any_status (create_fft L NUM_READ prog sample_c buf junk).
Proof. intros s. unfold create_fft, emit_bin, store_bin. repeat plot_step. Qed.

Lemma plot_read_async_call prog :
  run_inv (plot_apart a) no_plot_call any_status (read_async_call NUM_READ prog).
Proof. intros s. unfold read_async_call. repeat plot_step. Qed.

Lemma plot_deliver prog supply :
  run_inv (plot_apart a) no_plot_call any_status (deliver L NUM_READ prog supply).
Proof.
  induction supply as [|[buf junk] rest IH]; intros s; simpl.
  - apply at_ret.
  - unfold async_read_callback.
    repeat first [apply plot_create_fft | apply plot_do_exit
                 | apply plot_read_async_call | apply IH | plot_step].
Qed.

Lemma plot_main prog w : run_inv (plot_apart a) no_plot_call any_status (main L NUM_READ prog w).
Proof.
  intros s HI HP. rewrite main_startup. revert HI HP.
  change (run_at (plot_apart a) no_plot_call any_status
            (startup NUM_READ prog w ;; rtlsdr_read_async L NUM_READ prog (batches w)) s).
  apply at_bind; [apply plot_startup|]. intros _ s1 _. unfold rtlsdr_read_async.
  apply at_bind; [apply plot_read_async_call | intros _ s2 _; apply plot_deliver].
Qed.

End PlotDisabled.



Section FileUnused.

Variable L : libs.
Variable NUM_READ : Z.
Variable a : args.
Hypothesis no_name : _filename a = None.

Lemma file_unused_emit : forall e s, file_unused a s -> file_unused a (emit e s).
Proof. intros e s H. exact H. Qed.

Ltac file_side :=
  solve [ exact I | reflexivity | discriminate | exact file_unused_emit | assumption
        | match goal with
          | H : file_unused _ ?s |- _ =>
              unfold file_unused in *;
              cbn [opts _write_file gnuplotPipe set_gain set_write_file set_read_count
                   set_gnuplotPipe set_file set_sample_bin emit] in *;
              solve [ intuition (try congruence; try discriminate)
                    | destruct H as (_ & _ & [Hp|Hp]); unfold no_file_call; rewrite Hp;
                      reflexivity ]
          end ].

Ltac file_learn H :=
  destruct H as (Ho & Hw & _); rewrite ?Ho, ?Hw, ?no_name; clear Ho Hw; cbv iota.

Ltac file_step := run_step file_side file_learn.

Lemma file_gain_loop gains : run_inv (file_unused a) no_file_call any_status (gain_loop gains).
Proof. induction gains as [|g rest IH]; intros s; simpl; repeat file_step. apply IH. Qed.

Lemma file_print_gains gains : run_inv (file_unused a) no_file_call any_status (print_gains gains).
Proof. induction gains as [|g rest IH]; intros s; simpl; repeat file_step. apply IH. Qed.

Lemma file_startup prog w :
  run_inv (file_unused a) no_file_call any_status (startup NUM_READ prog w).
Proof.
  intros s. unfold startup, configure_gnuplot, configure_rtlsdr, open_file.
  repeat first [file_step | apply file_gain_loop | apply file_print_gains].
Qed.

Lemma file_do_exit : run_inv (file_unused a) no_file_call any_status do_exit.
Proof. intros s. unfold do_exit. repeat file_step. Qed.

Lemma file_create_fft prog sample_c buf junk :
  run_inv (file_unused a) no_file_call any_status (create_fft L NUM_READ prog sample_c buf junk).
Proof. intros s. unfold create_fft, emit_bin, store_bin. repeat file_step. Qed.

Lemma file_read_async_call prog :
  run_inv (file_unused a) no_file_call any_status (read_async_call NUM_READ prog).
Proof. intros s. unfold read_async_call. repeat file_step. Qed.

Lemma file_deliver prog supply :
  run_inv (file_unused a) no_file_call any_status (deliver L NUM_READ prog supply).
Proof.
  induction supply as [|[buf junk] rest IH]; intros s; simpl.
  - apply at_ret.
  - unfold async_read_callback.
    repeat first [apply file_create_fft | apply file_do_exit
                 | apply file_read_async_call | apply IH | file_step].
Qed.

Lemma file_main prog w : run_inv (file_unused a) no_file_call any_status (main L NUM_READ prog w).
Proof.
  intros s HI HP. rewrite main_startup. revert HI HP.
  change (run_at (file_unused a) no_file_call any_status
            (startup NUM_READ prog w ;; rtlsdr_read_async L NUM_READ prog (batches w)) s).
  apply at_bind; [apply file_startup|]. intros _ s1 _. unfold rtlsdr_read_async.
  apply at_bind; [apply file_read_async_call | intros _ s2 _; apply file_deliver].
Qed.

End FileUnused.



(** ** The sleep between two batches *)

(** X23.  The sleep between two batches is computed in [int]: in
    continuous mode with a refresh rate whose thousandfold leaves [int] -
    above 2147483 ms - the behaviour is undefined once the first transform
    is done (in rtl_map, when the read limit allows another batch). *)
Theorem refresh_rate_overflow_undefined :
  forall L NUM_READ prog buf junk rest s dbs,
    1 <= NUM_READ ->
    _cont_read (opts s) = true ->
    spectrum L prog (_mag_graph (opts s)) NUM_READ buf junk = Some dbs ->
    Cint.in_int (read_count s + 1) = true ->
    (prog = rtl_map -> read_count s + 1 < _num_read (opts s)) ->
    Cint.in_int (1000 * _refresh_rate (opts s)) = false ->
    deliver L NUM_READ prog ((buf, junk) :: rest) s = Undefined.
Proof.
  intros L NUM_READ prog buf junk rest s dbs Hn Hcont Hs Hrc Hlim Hus.
  destruct (create_fft_run L NUM_READ prog NUM_READ buf junk s dbs)
    as (s1 & Hrun & (Ho & Hg & Hw & Hp & Hf & Hc & Hbins & Ht) & _);
    [lia | exact Hs | exact Hrc |].
  simpl deliver. unfold async_read_callback, n_read.
  unfold bind at 1. unfold bind at 1. rewrite Hrun.
  unfold bind at 1, get at 1. unfold bind at 1, get at 1.
  rewrite Ho, Hcont.
  destruct prog.
  - unfold bind at 1, get at 1. unfold bind at 1, get at 1.
    rewrite Ho, Hc.
    replace (read_count s + 1 <? _num_read (opts s)) with true
      by (symmetry; apply Z.ltb_lt; apply Hlim; reflexivity).
    cbn [andb]. unfold bind at 1, lift at 1, Cint.mul, Cint.checked.
    rewrite Hus. reflexivity.
  - unfold bind at 1, lift at 1, Cint.mul, Cint.checked.
    rewrite Hus. reflexivity.
Qed.

(** X23 (witness): rtl_fftx with [-C -r 3000000]. *)
Lemma refresh_rate_overflow_undefined_witness :
  deliver Reference.ref_libs 4 rtl_fftx ((example_batch, zero_junk) :: [])
      (started rtl_fftx (with_refresh_rate 3000000 demo_args))
    = Undefined.
Proof.
  apply (refresh_rate_overflow_undefined Reference.ref_libs 4 rtl_fftx example_batch
           zero_junk [] (started rtl_fftx (with_refresh_rate 3000000 demo_args))
           [ten; ten; ten; ten]);
    [lia | reflexivity | vm_compute; reflexivity | reflexivity | discriminate | reflexivity].
Defined.
